(** * fastNLP.io.file_utils: the download cache, embedded in Rocq

    A shallow embedding of [src/fastNLP/io/file_utils.py]: the path helpers
    ([split_filename_suffix], [get_filepath]), the name matcher ([match_file]),
    the local resolver ([cached_path]), the fetch pipeline ([get_from_cache])
    and the download URLs ([_get_base_url], [_get_embedding_url],
    [_get_dataset_url]) with their tables.

    - strings are [string], the UTF-8 bytes of the Python [str]; file
      contents are [list Byte.byte];
    - a path is the list of its components, the file system a finite map from
      paths to entries (a file with its bytes, or a directory); there are no
      symbolic links. A path string is resolved as the operating system
      does, one component after the other, each of them, a double dot too,
      looked up in a directory that exists ([Fs.walk]); [Path.join] is the
      place such a string names when the directories on its way exist;
    - a pattern given to [re.match] is interpreted when it lies in the
      fragment of [Re] (literals, escapes, the dot, the repeats and the
      closing dollar); the dot takes one character, however many bytes it
      has. For any other pattern the answer of [re.match] is the field
      [re_other] of [World];
    - Python code that touches the file system, the network or raises is a
      function of the state returning an outcome and the new state: an
      exception keeps every effect made before it;
    - what the module imports (requests, zipfile, tarfile, tempfile, urlparse,
      the environment) is a field of [World]: a property holds for every
      server, every archive and every disk fault, unless it names one;
    - removing a file or a directory that exists does not fail; what is
      proved of the [finally] block is stated for the runs on which the block
      comes to its end. [str.upper] and [str.lower] are those of ASCII
      letters; what depends on them is stated for ASCII names. *)

From Stdlib Require Import Ascii String ZArith List Lia.
From stdpp Require Import base decidable option list strings gmap fin_maps.
From stdpp Require Import pretty infinite.

Local Open Scope Z_scope.

(** ** Python strings *)

Module PyStr.

(** [c in s] for a one-character [c]. *)
Fixpoint has_char (c : ascii) (s : string) : bool :=
  match s with
  | EmptyString => false
  | String a r => if decide (a = c) then true else has_char c r
  end.

(** [s.endswith(suf)]: some tail of [s] is [suf]. *)
Fixpoint endswith (s suf : string) : bool :=
  if decide (s = suf) then true
  else match s with
       | EmptyString => false
       | String _ r => endswith r suf
       end.

(** [s.rfind(c)] for a one-character [c], counting from [i]; [last] is the
    answer so far ([-1] when there is none). *)
Fixpoint rfind_from (c : ascii) (s : string) (i last : Z) : Z :=
  match s with
  | EmptyString => last
  | String a r => rfind_from c r (i + 1) (if decide (a = c) then i else last)
  end.

Definition rfind (c : ascii) (s : string) : Z := rfind_from c s 0 (-1).

(** The slices [s[:i]] and [s[i:]] for [0 <= i]. *)
Definition slice_to (s : string) (i : Z) : string :=
  String.substring 0 (Z.to_nat i) s.

Definition slice_from (s : string) (i : Z) : string :=
  String.substring (Z.to_nat i) (String.length s - Z.to_nat i) s.

(** [s[:-k]] for [0 < k]: everything but the last [k] characters (empty when
    [s] is shorter). *)
Definition drop_last (k : nat) (s : string) : string :=
  String.substring 0 (String.length s - k) s.

(** [s[i:i+1] != '.'] as the loop of [splitext] tests it: past the end the
    slice is empty, which differs from a dot. *)
Definition not_dot_at (s : string) (i : nat) : bool :=
  match String.get i s with
  | Some a => if decide (a = "."%char) then false else true
  | None => true
  end.

End PyStr.

(** ** [os.path] on strings *)

Module OsPath.
Import PyStr.

(** [posixpath.basename]: what follows the last slash; [cur] is what has
    been read since the last one. *)
Fixpoint basename_from (cur p : string) : string :=
  match p with
  | EmptyString => cur
  | String c r =>
      if decide (c = "/"%char) then basename_from "" r
      else basename_from (cur +:+ String c "") r
  end.

Definition basename (p : string) : string := basename_from "" p.

(** The [while] loop of [genericpath._splitext]: from [filenameIndex], for
    [n] more positions below [dotIndex], look for a character that is not a
    dot. *)
Fixpoint splitext_scan (p : string) (filenameIndex n : nat) : bool :=
  match n with
  | O => false
  | S n' => if not_dot_at p filenameIndex then true
            else splitext_scan p (S filenameIndex) n'
  end.

(** [posixpath.splitext]: the extension starts at the last dot of the last
    component, leading dots of that component apart. *)
Definition splitext (p : string) : string * string :=
  let sepIndex := rfind "/"%char p in
  let dotIndex := rfind "."%char p in
  if (sepIndex <? dotIndex)
     && splitext_scan p (Z.to_nat (sepIndex + 1))
                        (Z.to_nat (dotIndex - (sepIndex + 1)))
  then (slice_to p dotIndex, slice_from p dotIndex)
  else (p, "").

(** [posixpath.join(a, b)] on strings: an absolute [b] replaces [a];
    otherwise [b] is put behind [a], after a slash unless [a] is empty or
    ends with one. Nothing is looked up. *)
Definition join (a b : string) : string :=
  match b with
  | String "/" _ => b
  | _ => if decide (a = "") then b
         else if endswith a "/" then a +:+ b
         else a +:+ "/" +:+ b
  end.

End OsPath.

(** ** [split_filename_suffix] (lines 224-233) *)

Definition split_filename_suffix (filepath : string) : string * string :=
  let filename := OsPath.basename filepath in
  if PyStr.endswith filename ".tar.gz"
  then (PyStr.drop_last 7 filename, ".tar.gz")
  else OsPath.splitext filename.

(** ** The regular expressions of the module

    [get_from_cache] uses the fixed pattern [.+/] with [re.sub]; [match_file]
    builds two patterns from the base name and uses [re.match]. *)

Module Re.

(** [re.sub(r".+/", "", s)]. A dot does not match a newline, so a match lies
    within one line; the leftmost greedy match of a line starts at the line's
    first character and ends at its last slash, provided that slash is not the
    first character; what follows has no slash and is kept. [started] tells
    that the current line has a character already, [cur] is what is kept of
    it so far. *)
Fixpoint sub_dirs_from (started : bool) (cur s : string) : string :=
  match s with
  | EmptyString => cur
  | String c r =>
      if decide (c = "010"%char) then cur +:+ String c (sub_dirs_from false "" r)
      else if decide (c = "/"%char) then
        if started then sub_dirs_from true "" r
        else sub_dirs_from true (cur +:+ String c "") r
      else sub_dirs_from true (cur +:+ String c "") r
  end.

Definition sub_dirs (s : string) : string := sub_dirs_from false "" s.

(** The fragment of the pattern language that is interpreted here: literal
    characters, the dot, an escaped punctuation character, the end anchor
    [$], and the greedy repeats [*], [+], [?] of one character. What [re]
    makes of every other pattern is left to the world ([re_other]).

    A string holds the UTF-8 bytes of a Python [str]: a character is one
    byte below 128, or a leading byte followed by continuation bytes. A
    literal is compared byte by byte; the dot stands for one character. *)
Inductive atom := Lit (c : ascii) | AnyChar.
Inductive quant := One | Star | Plus | Opt.
Inductive item := Atom (a : atom) (q : quant) | EndAnchor.

Inductive token := TAtom (a : atom) | TRepeat (q : quant) | TEnd.

Definition is_alnum (c : ascii) : bool :=
  let n := N.to_nat (N_of_ascii c) in
  ((48 <=? n) && (n <=? 57) || (65 <=? n) && (n <=? 90)
   || (97 <=? n) && (n <=? 122))%nat.

(** A byte below 128 is a character of its own. *)
Definition one_byte (c : ascii) : bool := (N_of_ascii c <? 128)%N.

(** A continuation byte of a character of several bytes ([10xxxxxx]). *)
Definition continues (c : ascii) : bool :=
  (128 <=? N_of_ascii c)%N && (N_of_ascii c <? 192)%N.

(** [s] is empty or starts at a character. *)
Definition at_char (s : string) : bool :=
  match s with
  | EmptyString => true
  | String c _ => negb (continues c)
  end.

(** [k] on what follows the continuation bytes [s] starts with. *)
Fixpoint after_char (k : string -> bool) (s : string) : bool :=
  match s with
  | EmptyString => k s
  | String c r => if continues c then after_char k r else k s
  end.

(** Characters that open a construct outside the fragment. *)
Definition outside (c : ascii) : bool :=
  bool_decide (c ∈ ["["; "("; ")"; "{"; "|"; "^"]%char).

(** Tokens of a pattern; [None] outside the fragment (which also holds the
    patterns [re] rejects, such as a backslash at the end). *)
Fixpoint tokens (s : string) : option (list token) :=
  match s with
  | EmptyString => Some []
  | String c r =>
      if decide (c = "\"%char) then
        match r with
        | EmptyString => None
        | String d r' =>
            if is_alnum d then None
            else (fun l => TAtom (Lit d) :: l) <$> tokens r'
        end
      else if outside c then None
      else
        let t := if decide (c = "."%char) then TAtom AnyChar
                 else if decide (c = "$"%char) then TEnd
                 else if decide (c = "*"%char) then TRepeat Star
                 else if decide (c = "+"%char) then TRepeat Plus
                 else if decide (c = "?"%char) then TRepeat Opt
                 else TAtom (Lit c) in
        (fun l => t :: l) <$> tokens r
  end.

(** An atom a repeat can apply to: the dot, or a literal of one byte (after
    a literal of several bytes the repeat applies to the whole character,
    which is outside the fragment). *)
Definition repeatable (a : atom) : bool :=
  match a with
  | Lit c => one_byte c
  | AnyChar => true
  end.

(** A repeat applies to the atom before it; a repeat with nothing to repeat,
    after an anchor or after another repeat (the lazy and possessive forms)
    is outside the fragment. *)
Fixpoint items (ts : list token) : option (list item) :=
  match ts with
  | [] => Some []
  | TAtom a :: TRepeat q :: ts' =>
      match ts' with
      | TRepeat _ :: _ => None
      | _ => if repeatable a then (fun l => Atom a q :: l) <$> items ts'
             else None
      end
  | TAtom a :: ts' => (fun l => Atom a One :: l) <$> items ts'
  | TEnd :: ts' =>
      match ts' with
      | TRepeat _ :: _ => None
      | _ => (fun l => EndAnchor :: l) <$> items ts'
      end
  | TRepeat _ :: _ => None
  end.

Definition compile (pattern : string) : option (list item) :=
  tokens pattern ≫= items.

(** The first byte of a character the atom matches: the literal, or for the
    dot anything but a newline. *)
Definition atom_matches (a : atom) (c : ascii) : bool :=
  match a with
  | Lit d => bool_decide (c = d)
  | AnyChar => negb (bool_decide (c = "010"%char))
  end.

(** After that first byte: a literal is done, the dot takes the rest of the
    character. *)
Definition atom_rest (a : atom) (k : string -> bool) : string -> bool :=
  match a with
  | Lit _ => k
  | AnyChar => after_char k
  end.

(** Where a repeat of the atom can stop: anywhere for a literal, between
    two characters for the dot. *)
Definition atom_stop (a : atom) (s : string) : bool :=
  match a with
  | Lit _ => true
  | AnyChar => at_char s
  end.

(** [$] without MULTILINE: at the end of the string, or just before a
    newline that ends the string. *)
Definition at_end (s : string) : bool :=
  bool_decide (s = "") || bool_decide (s = String "010"%char "").

(** Some prefix of [s] is matched by the items [p]. Repeats are tried by
    backtracking; whether a match exists does not depend on greediness. A
    repeated dot goes through the subject byte by byte and stops between
    two characters only. *)
Fixpoint matches (p : list item) : string -> bool :=
  match p with
  | [] => fun _ => true
  | EndAnchor :: p' => fun s => at_end s && matches p' s
  | Atom a q :: p' =>
      let one (s : string) : bool :=
        match s with
        | EmptyString => false
        | String c r => atom_matches a c && atom_rest a (matches p') r
        end in
      let star := fix star (s : string) : bool :=
        (atom_stop a s && matches p' s)
        || match s with
           | EmptyString => false
           | String c r => atom_matches a c && star r
           end in
      match q with
      | One => one
      | Star => star
      | Plus => fun s =>
          match s with
          | EmptyString => false
          | String c r => atom_matches a c && star r
          end
      | Opt => fun s => matches p' s || one s
      end
  end.

(** [re.match(pattern, s)] as a truth value (whether there is a match);
    [None] when the pattern is outside the fragment. *)
Definition match_ (pattern s : string) : option bool :=
  (fun p => matches p s) <$> compile pattern.

End Re.

(** ** Exceptions, the file system and the state *)

Inductive exn :=
| FileNotFoundError
| FileExistsError
| NotADirectoryError
| IsADirectoryError
| SameFileError
| OSError            (* a write that fails: disk full, permission denied *)
| ShutilError        (* shutil.Error, raised by copytree at its end *)
| BadArchive         (* zipfile.BadZipFile, tarfile.ReadError *)
| ConnectionError    (* raised by requests *)
| HTTPError
| RuntimeError
| ValueError
| AttributeError
| TypeError
| ReError.           (* re.error: a pattern that does not compile *)

Global Instance exn_eq_dec : EqDecision exn.
Proof. solve_decision. Defined.

Definition path := list string.

Inductive entry := File (data : list Byte.byte) | Dir.

Abbreviation filesystem := (gmap path entry).

(** What [get_from_cache] does to the outside world besides the file system:
    the URLs requested, most recent first, and the archives unpacked. *)
Record state := State {
  fs : filesystem;
  http_log : list string;
  extract_log : list path;
}.

(** The [Content-Length] header as [int(...)] reads it. *)
Inductive header := Absent | Malformed | Length (n : Z).

(** A streamed response: [stream_ok = false] when the connection breaks
    after the chunks listed. *)
Record response := Response {
  status_code : Z;
  content_length : header;
  chunks : list (list Byte.byte);
  stream_ok : bool;
}.

(** [extractall]: the members written, each named by its components
    relative to the target, and whether the archive was read to its end.
    ([zipfile] drops double dots from a member's name before it writes;
    [tarfile] keeps them.) *)
Record archive := Archive {
  members : list (path * entry);
  archive_ok : bool;
}.

(** How a write of file data to a destination can fail. *)
Inductive fault := NoFault | FailNoFile | FailPartial (n : nat).

Record World := {
  tmpdir : path;                               (* tempfile.gettempdir() *)
  urlparse_scheme : string -> string;          (* urlparse(s).scheme *)
  requests_get : string -> exn + response;     (* requests.get(url, stream=True) *)
  re_other : string -> string -> exn + bool;   (* re.match, patterns outside [Re] *)
  zip_extractall : list Byte.byte -> archive;  (* ZipFile(f).extractall *)
  tar_extractall : list Byte.byte -> archive;  (* tarfile.open(f).extractall *)
  copy_fault : path -> fault;                  (* shutil copies, by destination *)
  environ_cache_dir : option string;           (* os.environ FASTNLP_CACHE_DIR *)
  home : path;                                 (* expanduser of the tilde *)
}.

(** *** Paths *)

Module Path.

(** A name [os.listdir] can return: one component, not empty, not a dot
    entry. *)
Definition is_name (n : string) : bool :=
  negb (bool_decide (n ∈ [""; "."; ".."])) && negb (PyStr.has_char "/"%char n).

Definition parent (p : path) : path := removelast p.

(** Components of a path string, split at the slashes; [cur] is the
    component being read. *)
Fixpoint split_from (cur s : string) : list string :=
  match s with
  | EmptyString => [cur]
  | String c r =>
      if decide (c = "/"%char) then cur :: split_from "" r
      else split_from (cur +:+ String c "") r
  end.

(** One more component: empty and single-dot components leave the path as
    it is, a double dot goes to the parent (there are no symbolic links).
    This is the place a path string names when the directories on the way
    exist; whether they do is asked by [Fs.walk]. *)
Definition step (p : path) (n : string) : path :=
  if bool_decide (n ∈ [""; "."]) then p
  else if decide (n = "..") then parent p
  else p ++ [n].

(** [os.path.join(p, s)] and [Path(p) / s] for any string [s]: an absolute
    [s] replaces [p]. *)
Definition join (p : path) (s : string) : path :=
  let base := match s with
              | String "/" _ => []
              | _ => p
              end in
  foldl step base (split_from "" s).

(** The components of a path string that [pathlib] keeps: empty and
    single-dot components are dropped, double dots stay. *)
Definition parts (s : string) : list string :=
  List.filter (fun n => negb (bool_decide (n ∈ [""; "."]))) (split_from "" s).

(** Where the components are read from: an absolute string starts at the
    root. *)
Definition anchor (p : path) (s : string) : path :=
  match s with
  | String "/" _ => []
  | _ => p
  end.

(** [str(p) + suffix]: the suffix extends the last component. *)
Definition add_suffix (p : path) (suffix : string) : path :=
  match reverse p with
  | [] => join [] suffix
  | n :: r => reverse r ++ [n +:+ suffix]
  end.

End Path.

(** *** The file system calls *)

Module Fs.
Import Path.

Definition is_dir (m : filesystem) (p : path) : bool :=
  match m !! p with Some Dir => true | _ => false end.

Definition is_file (m : filesystem) (p : path) : bool :=
  match m !! p with Some (File _) => true | _ => false end.

Definition exists_ (m : filesystem) (p : path) : bool :=
  bool_decide (is_Some (m !! p)).

(** The place the operating system reaches from [cur] through the
    components [comps]: every component, a double dot as well, is looked up
    in a directory that exists. *)
Fixpoint walk (m : filesystem) (cur : path) (comps : list string)
  : option path :=
  match comps with
  | [] => Some cur
  | n :: rest => if is_dir m cur then walk m (step cur n) rest else None
  end.

(** [Path(os.path.join(p, s)).exists()]: the place is reached and there is
    something. *)
Definition exists_at (m : filesystem) (p : path) (s : string) : bool :=
  match walk m (anchor p s) (parts s) with
  | Some q => exists_ m q
  | None => false
  end.

(** [os.path.isdir(s)] for a string read from the root: the empty string
    names nothing. *)
Definition isdir_str (m : filesystem) (s : string) : bool :=
  if decide (s = "") then false
  else match walk m (anchor [] s) (parts s) with
       | Some q => is_dir m q
       | None => false
       end.

(** The names in directory [p]. *)
Definition children (m : filesystem) (p : path) : list string :=
  omap (fun '(q, _) =>
          match reverse q with
          | n :: r => if decide (reverse r = p) then
                        if is_name n then Some n else None
                      else None
          | [] => None
          end) (map_to_list m).

Definition listdir (m : filesystem) (p : path) : exn + list string :=
  match m !! p with
  | Some Dir => inr (children m p)
  | Some (File _) => inl NotADirectoryError
  | None => inl FileNotFoundError
  end.

(** [os.mkdir(p)]. *)
Definition mkdir (m : filesystem) (p : path) : exn + filesystem :=
  match m !! p with
  | Some _ => inl FileExistsError
  | None =>
      match m !! parent p with
      | Some Dir => inr (<[p := Dir]> m)
      | Some (File _) => inl NotADirectoryError
      | None => inl FileNotFoundError
      end
  end.

(** [Path.mkdir(parents=False, exist_ok=True)]: an existing directory is
    accepted, every other error of [os.mkdir] is raised. *)
Definition mkdir_exist_ok (m : filesystem) (p : path) : exn + filesystem :=
  match mkdir m p with
  | inr m' => inr m'
  | inl FileNotFoundError => inl FileNotFoundError
  | inl e => if is_dir m p then inr m else inl e
  end.

(** [Path.mkdir(parents=True, exist_ok=True)] on the reversed path [rp]:
    on FileNotFoundError the parent is made first, unless the path is its
    own parent. *)
Fixpoint mkdir_parents_rev (rp : list string) (m : filesystem) : exn + filesystem :=
  match mkdir m (reverse rp) with
  | inr m' => inr m'
  | inl FileNotFoundError =>
      match rp with
      | [] => inl FileNotFoundError
      | _ :: rparent =>
          match mkdir_parents_rev rparent m with
          | inl e => inl e
          | inr m1 => mkdir_exist_ok m1 (reverse rp)
          end
      end
  | inl e => if is_dir m (reverse rp) then inr m else inl e
  end.

Definition mkdir_parents (m : filesystem) (p : path) : exn + filesystem :=
  mkdir_parents_rev (reverse p) m.

(** [os.makedirs(p)] as [copytree] calls it: the leaf must be new. *)
Definition makedirs (m : filesystem) (p : path) : exn + filesystem :=
  if exists_ m p then inl FileExistsError else mkdir_parents m p.

(** [os.remove(p)]. *)
Definition remove (m : filesystem) (p : path) : exn + filesystem :=
  match m !! p with
  | Some (File _) => inr (delete p m)
  | Some Dir => inl IsADirectoryError
  | None => inl FileNotFoundError
  end.

(** [shutil.rmtree(p)]: the directory and everything below it. *)
Definition rmtree (m : filesystem) (p : path) : exn + filesystem :=
  match m !! p with
  | Some Dir => inr (filter (fun kv => ¬ p `prefix_of` kv.1) m)
  | Some (File _) => inl NotADirectoryError
  | None => inl FileNotFoundError
  end.

(** [open(p, 'wb')] followed by writes of [data]: the file is created or
    truncated. *)
Definition write_file (m : filesystem) (p : path) (data : list Byte.byte)
  : exn + filesystem :=
  match m !! p with
  | Some Dir => inl IsADirectoryError
  | _ =>
      match m !! parent p with
      | Some Dir => inr (<[p := File data]> m)
      | Some (File _) => inl NotADirectoryError
      | None => inl FileNotFoundError
      end
  end.

(** The bytes of one file arriving at [dst] under the fault the world
    assigns to [dst]: the file system after it, and whether it failed. *)
Definition put_data (w : World) (m : filesystem) (dst : path)
  (data : list Byte.byte) : filesystem * bool :=
  match copy_fault w dst with
  | NoFault => (<[dst := File data]> m, false)
  | FailNoFile => (m, true)
  | FailPartial n => (<[dst := File (take n data)]> m, true)
  end.

(** [shutil.copyfile(src, dst)]. The result holds the file system also when
    it raises: a copy that fails half-way leaves a truncated [dst]. *)
Definition copyfile (w : World) (m : filesystem) (src dst : path)
  : option exn * filesystem :=
  if decide (src = dst) then (Some SameFileError, m)
  else match m !! src with
  | None => (Some FileNotFoundError, m)
  | Some Dir => (Some IsADirectoryError, m)
  | Some (File data) =>
      match m !! dst with
      | Some Dir => (Some IsADirectoryError, m)
      | _ =>
          match m !! parent dst with
          | None => (Some FileNotFoundError, m)
          | Some (File _) => (Some NotADirectoryError, m)
          | Some Dir =>
              let '(m', failed) := put_data w m dst data in
              (if failed then Some OSError else None, m')
          end
      end
  end.

(** What lies strictly below [src], relative to it. *)
Definition below (m : filesystem) (src : path) : list (path * entry) :=
  omap (fun '(q, e) =>
          if decide (src `prefix_of` q ∧ q ≠ src)
          then Some (drop (length src) q, e) else None)
       (map_to_list m).

(** One member of a tree copy arriving under [dst]; failures are collected,
    the copy goes on. *)
Definition copy_member (w : World) (dst : path)
  (acc : filesystem * bool) (re : path * entry) : filesystem * bool :=
  match re.2 with
  | Dir => (<[dst ++ re.1 := Dir]> acc.1, acc.2)
  | File data =>
      let '(m', failed) := put_data w acc.1 (dst ++ re.1) data in
      (m', acc.2 || failed)
  end.

(** [shutil.copytree(src, dst)]: [dst] is made new, the tree below [src] is
    copied under it, and the failures of single files are raised together at
    the end. *)
Definition copytree (w : World) (m : filesystem) (src dst : path)
  : option exn * filesystem :=
  match listdir m src with
  | inl e => (Some e, m)
  | inr _ =>
      match makedirs m dst with
      | inl e => (Some e, m)
      | inr m1 =>
          let '(m2, failed) := foldl (copy_member w dst) (m1, false) (below m src) in
          (if failed then Some ShutilError else None, m2)
      end
  end.

(** The directories gone through from [cur] along the components [rel],
    [cur] first. *)
Fixpoint visit (cur : path) (rel : list string) : list path :=
  match rel with
  | [] => []
  | n :: rest => cur :: visit (step cur n) rest
  end.

(** One member written under [to]: the member is named by its components
    as the archive has them, a double dot among them leaves a directory;
    the directories on the way are made where they are missing. *)
Definition extract_member (to : path) (m : filesystem) (re : path * entry)
  : filesystem :=
  let m1 := foldr (fun d acc => match acc !! d with
                                | None => <[d := Dir]> acc
                                | Some _ => acc
                                end) m (visit to re.1) in
  <[foldl step to re.1 := re.2]> m1.

(** [extractall(to)] of an archive whose reading gave [a]. *)
Definition extractall (a : archive) (m : filesystem) (to : path)
  : option exn * filesystem :=
  (if archive_ok a then None else Some BadArchive,
   foldl (extract_member to) m (members a)).

End Fs.

(** ** Python computations

    A computation takes the state and gives back an exception or a value,
    and the state it leaves behind. *)

Definition Py (A : Type) : Type := state -> (exn + A) * state.

Global Instance py_ret : MRet Py := fun A (a : A) st => (inr a, st).

Global Instance py_bind : MBind Py := fun A B (k : A -> Py B) (c : Py A) st =>
  match c st with
  | (inl e, st1) => (inl e, st1)
  | (inr a, st1) => k a st1
  end.

Global Instance py_fmap : FMap Py := fun A B (f : A -> B) (c : Py A) st =>
  match c st with
  | (inl e, st1) => (inl e, st1)
  | (inr a, st1) => (inr (f a), st1)
  end.

Definition raise {A} (e : exn) : Py A := fun st => (inl e, st).

(** [try: body finally: final], where [final] is told whether the body ran
    to its end (the flag [success] of the source). An exception of [final]
    replaces the outcome of the body. *)
Definition try_finally {A} (body : Py A) (final : bool -> Py ()) : Py A :=
  fun st =>
    let '(r, st1) := body st in
    let success := match r with inr _ => true | inl _ => false end in
    match final success st1 with
    | (inl e, st2) => (inl e, st2)
    | (inr _, st2) => (r, st2)
    end.

Definition with_fs (st : state) (m : filesystem) : state :=
  State m (http_log st) (extract_log st).

(** A file system query. *)
Definition fs_read {A} (f : filesystem -> A) : Py A :=
  fun st => (inr (f (fs st)), st).

(** A file system query that can raise. *)
Definition fs_query {A} (f : filesystem -> exn + A) : Py A :=
  fun st => (f (fs st), st).

(** A file system update that either raises and changes nothing, or
    succeeds. *)
Definition fs_update (f : filesystem -> exn + filesystem) : Py () :=
  fun st =>
    match f (fs st) with
    | inl e => (inl e, st)
    | inr m => (inr (), with_fs st m)
    end.

(** A file system update that can raise after a partial effect. *)
Definition fs_effect (f : filesystem -> option exn * filesystem) : Py () :=
  fun st =>
    let '(e, m) := f (fs st) in
    (match e with Some e => inl e | None => inr () end, with_fs st m).

(** *** [tempfile] *)

(** [tempfile.mkstemp()]: a new empty file in the temporary directory. The
    descriptor it returns is not modelled. *)
Definition mkstemp (w : World) : Py path := fun st =>
  if Fs.is_dir (fs st) (tmpdir w) then
    let p := tmpdir w ++ [fresh (Fs.children (fs st) (tmpdir w))] in
    (inr p, with_fs st (<[p := File []]> (fs st)))
  else (inl FileNotFoundError, st).

(** [tempfile.mkdtemp()]: a new empty directory there. *)
Definition mkdtemp (w : World) : Py path := fun st =>
  if Fs.is_dir (fs st) (tmpdir w) then
    let p := tmpdir w ++ [fresh (Fs.children (fs st) (tmpdir w))] in
    (inr p, with_fs st (<[p := Dir]> (fs st)))
  else (inl FileNotFoundError, st).

(** *** The two kinds of value [cache_path] holds in [get_from_cache] *)

Inductive pathobj :=
| PosixPath (p : path)   (* a pathlib.Path *)
| StrPath (p : path).    (* a str *)

(** [os.fspath]: what the functions of [os] and [shutil] see. *)
Definition fspath (o : pathobj) : path :=
  match o with PosixPath p | StrPath p => p end.

(** [o.exists()] and [o.is_file()]: methods of Path, not of str. *)
Definition method_exists (o : pathobj) : Py bool :=
  match o with
  | PosixPath p => fs_read (fun m => Fs.exists_ m p)
  | StrPath _ => raise AttributeError
  end.

Definition method_is_file (o : pathobj) : Py bool :=
  match o with
  | PosixPath p => fs_read (fun m => Fs.is_file m p)
  | StrPath _ => raise AttributeError
  end.

(** [o / name]. *)
Definition truediv (o : pathobj) (name : string) : Py pathobj :=
  match o with
  | PosixPath p => mret (PosixPath (Path.join p name))
  | StrPath _ => raise TypeError
  end.

(** ** [get_filepath] (lines 121-142) *)

Definition get_filepath (filepath : path) : Py path :=
  isdir ← fs_read (fun m => Fs.is_dir m filepath);
  if isdir : bool then
    files ← fs_query (fun m => Fs.listdir m filepath);
    match files with
    | [file] => mret (Path.join filepath file)
    | _ => mret filepath
    end
  else
    isfile ← fs_read (fun m => Fs.is_file m filepath);
    if isfile : bool then mret filepath
    else raise FileNotFoundError.

(** ** [get_default_cache_path] (lines 145-158); a relative path is read
    from the root. *)

Definition get_default_cache_path (w : World) : Py path :=
  match environ_cache_dir w with
  | Some d =>
      isdir ← fs_read (fun m => Fs.isdir_str m d);
      if isdir : bool then mret (Path.join [] d)
      else raise NotADirectoryError
  | None => mret (Path.join (home w) ".fastNLP")
  end.

(** ** [match_file] (lines 356-375) *)

(** [re.match(pattern, s)] as a truth value: the fragment of [Re] is
    interpreted, every other pattern is answered by the world. *)
Definition re_match (w : World) (pattern s : string) : exn + bool :=
  match Re.match_ pattern s with
  | Some b => inr b
  | None => re_other w pattern s
  end.

(** The loop over the listing: the second pattern is tried only when the
    first does not match. *)
Fixpoint matched_filenames (w : World) (dir_name : string)
  (files : list string) : exn + list string :=
  match files with
  | [] => inr []
  | file_name :: rest =>
      match re_match w (dir_name +:+ "$") file_name with
      | inl e => inl e
      | inr m1 =>
          match (if m1 then inr true
                 else re_match w (dir_name +:+ "\..*") file_name) with
          | inl e => inl e
          | inr m =>
              match matched_filenames w dir_name rest with
              | inl e => inl e
              | inr l => inr (if m then file_name :: l else l)
              end
          end
      end
  end.

(** What [match_file] makes of a listing. *)
Definition select_match (w : World) (dir_name : string)
  (files : list string) : exn + string :=
  match matched_filenames w dir_name files with
  | inl e => inl e
  | inr [] => inr ""
  | inr [file_name] => inr file_name
  | inr _ => inl RuntimeError
  end.

Definition match_file (w : World) (dir_name : string) (cache_dir : path)
  : Py string :=
  files ← fs_query (fun m => Fs.listdir m cache_dir);
  fs_query (fun _ => select_match w dir_name files).

(** ** [unzip_file] and [untar_gz_file] (lines 340-353) *)

Definition extract_with (read : list Byte.byte -> archive) (file to : path)
  : Py () := fun st =>
  match fs st !! file with
  | Some (File data) =>
      let '(e, m) := Fs.extractall (read data) (fs st) to in
      (match e with Some e => inl e | None => inr () end,
       State m (http_log st) (file :: extract_log st))
  | Some Dir => (inl IsADirectoryError, st)
  | None => (inl FileNotFoundError, st)
  end.

Definition unzip_file (w : World) (file to : path) : Py () :=
  extract_with (zip_extractall w) file to.

Definition untar_gz_file (w : World) (file to : path) : Py () :=
  extract_with (tar_extractall w) file to.

(** ** [get_from_cache] (lines 236-337) *)

(** [requests.get(url, stream=True, ...)]. *)
Definition http_get (w : World) (url : string) : Py response := fun st =>
  (requests_get w url, State (fs st) (url :: http_log st) (extract_log st)).

(** Lines 277-285: the body is streamed to the scratch file, empty chunks
    left out. *)
Definition download_to (req : response) (temp_filename : path) : Py () :=
  match content_length req with
  | Malformed => raise ValueError
  | _ =>
      fs_update (fun m => Fs.write_file m temp_filename
        (concat (List.filter (fun chunk => negb (bool_decide (length chunk = 0%nat)))
                             (chunks req))));;
      if stream_ok req then mret () else raise ConnectionError
  end.

(** Lines 298-301: the directory the installation copies from. *)
Definition extraction_root (uncompress_temp_dir : path) : Py path :=
  filenames ← fs_query (fun m => Fs.listdir m uncompress_temp_dir);
  match filenames with
  | [name] =>
      isdir ← fs_read (fun m => Fs.is_dir m (Path.join uncompress_temp_dir name));
      if isdir : bool then mret (Path.join uncompress_temp_dir name)
      else mret uncompress_temp_dir
  | _ => mret uncompress_temp_dir
  end.

(** Lines 313-317: the loop over the children of the extraction root. *)
Fixpoint copy_children (w : World) (uncompress_temp_dir : path)
  (cache_path : pathobj) (filenames : list string) : Py () :=
  match filenames with
  | [] => mret ()
  | filename :: rest =>
      isdir ← fs_read (fun m => Fs.is_dir m (Path.join uncompress_temp_dir filename));
      dst ← truediv cache_path filename;
      (if isdir : bool
       then fs_effect (fun m => Fs.copytree w m (Path.join uncompress_temp_dir filename) (fspath dst))
       else fs_effect (fun m => Fs.copyfile w m (Path.join uncompress_temp_dir filename) (fspath dst)));;
      copy_children w uncompress_temp_dir cache_path rest
  end.

(** Lines 312-319: the body of the [try]. *)
Definition install (w : World) (uncompress_temp_dir : path)
  (cache_path : pathobj) : Py () :=
  isdir ← fs_read (fun m => Fs.is_dir m uncompress_temp_dir);
  if isdir : bool then
    filenames ← fs_query (fun m => Fs.listdir m uncompress_temp_dir);
    copy_children w uncompress_temp_dir cache_path filenames
  else
    fs_effect (fun m => Fs.copyfile w m uncompress_temp_dir (fspath cache_path)).

(** Lines 325-334: the [finally] block. *)
Definition cleanup (cache_path : pathobj) (delete_temp_dir : option path)
  (temp_filename : path) (success : bool) : Py () :=
  (if success then mret ()
   else
     ex ← method_exists cache_path;
     if ex : bool then
       isfile ← method_is_file cache_path;
       if isfile : bool then fs_update (fun m => Fs.remove m (fspath cache_path))
       else fs_update (fun m => Fs.rmtree m (fspath cache_path))
     else mret ());;
  match delete_temp_dir with
  | Some d => fs_update (fun m => Fs.rmtree m d)
  | None => mret ()
  end;;
  fs_update (fun m => Fs.remove m temp_filename).

(** Lines 271-337: the download, the extraction and the installation, once
    the lookup has found nothing at [cache_path]. *)
Definition fetch (w : World) (url suffix : string) (cache_path : path)
  : Py path :=
  temp_filename ← mkstemp w;
  req ← http_get w url;
  if decide (status_code req = 200) then
    download_to req temp_filename;;
    '(delete_temp_dir, uncompress_temp_dir, cache_path) ←
      (if bool_decide (suffix ∈ [".zip"; ".tar.gz"]) then
         uncompress_temp_dir ← mkdtemp w;
         let delete_temp_dir := uncompress_temp_dir in
         (if decide (suffix = ".zip")
          then unzip_file w temp_filename uncompress_temp_dir
          else untar_gz_file w temp_filename uncompress_temp_dir);;
         uncompress_temp_dir ← extraction_root uncompress_temp_dir;
         fs_update (fun m => Fs.mkdir_parents m cache_path);;
         mret (Some delete_temp_dir, uncompress_temp_dir, PosixPath cache_path)
       else
         mret (None, temp_filename,
               StrPath (Path.add_suffix cache_path suffix)));
    try_finally (install w uncompress_temp_dir cache_path)
                (cleanup cache_path delete_temp_dir temp_filename);;
    get_filepath (fspath cache_path)
  else raise HTTPError.

(** Lines 243-268: the lookup, then [fetch]. Python has [None] for the path
    on which the function falls off its end without a [return]; the result
    is an [option]. *)
Definition get_from_cache (w : World) (url : string) (cache_dir : path)
  : Py (option path) :=
  fs_update (fun m => Fs.mkdir_parents m cache_dir);;
  let filename := Re.sub_dirs url in
  let '(dir_name, suffix) := split_filename_suffix filename in
  match_dir_name ← match_file w dir_name cache_dir;
  let dir_name := if decide (match_dir_name = "") then dir_name
                  else match_dir_name in
  let cache_path := Path.join cache_dir dir_name in
  ex ← fs_read (fun m => Fs.exists_ m cache_path);
  if ex : bool then Some <$> get_filepath cache_path
  else
    ex ← fs_read (fun m => Fs.exists_ m cache_path);
    if negb ex then Some <$> fetch w url suffix cache_path
    else mret None.

(** ** [cached_path] (lines 78-118) *)

(** Lines 95-101: the directory searched, as the code holds it: the cache
    directory and, behind it, the string that [os.path.join] has appended
    ([name], or nothing). The string is followed on the disk only when a path
    made of it is looked up. *)
Definition data_cache_of (w : World) (cache_dir : option path)
  (name : option string) : Py (path * string) :=
  data_cache ← match cache_dir with
               | None => get_default_cache_path w
               | Some d => mret d
               end;
  match name with
  | Some n => if decide (n = "") then mret (data_cache, "")
              else mret (data_cache, OsPath.join "" n)
  | None => mret (data_cache, "")
  end.

Definition cached_path (w : World) (url_or_filename : string)
  (cache_dir : option path) (name : option string) : Py (option path) :=
  data_cache ← data_cache_of w cache_dir name;
  let scheme := urlparse_scheme w url_or_filename in
  if bool_decide (scheme ∈ ["http"; "https"]) then
    get_from_cache w url_or_filename (Path.join data_cache.1 data_cache.2)
  else
    let joined := OsPath.join data_cache.2 url_or_filename in
    ex ← (if decide (scheme = "")
          then fs_read (fun m => Fs.exists_at m data_cache.1 joined)
          else mret false);
    if ex : bool then mret (Some (Path.join data_cache.1 joined))
    else if decide (scheme = "") then raise FileNotFoundError
    else raise ValueError.

(** ** The download URLs (lines 11-75 and 161-221)

    The tables are dictionaries from names to file names; [os.environ] is a
    dictionary as well. The four [raise KeyError] of these functions are
    told apart by the line that raises. *)

Module Case.

(** [str.upper] and [str.lower] on ASCII letters; other characters are left
    as they are. *)
Definition upper_char (c : ascii) : ascii :=
  let n := N_of_ascii c in
  if ((97 <=? n) && (n <=? 122))%N then ascii_of_N (n - 32) else c.

Definition lower_char (c : ascii) : ascii :=
  let n := N_of_ascii c in
  if ((65 <=? n) && (n <=? 90))%N then ascii_of_N (n + 32) else c.

Fixpoint upper (s : string) : string :=
  match s with
  | EmptyString => EmptyString
  | String c r => String (upper_char c) (upper r)
  end.

Fixpoint lower (s : string) : string :=
  match s with
  | EmptyString => EmptyString
  | String c r => String (lower_char c) (lower r)
  end.

End Case.

Definition PRETRAINED_BERT_MODEL_DIR : gmap string string := list_to_map [
  ("en", "bert-large-cased-wwm.zip");
  ("en-large-cased-wwm", "bert-large-cased-wwm.zip");
  ("en-large-uncased-wwm", "bert-large-uncased-wwm.zip");
  ("en-large-uncased", "bert-large-uncased.zip");
  ("en-large-cased", "bert-large-cased.zip");
  ("en-base-uncased", "bert-base-uncased.zip");
  ("en-base-cased", "bert-base-cased.zip");
  ("en-base-cased-mrpc", "bert-base-cased-finetuned-mrpc.zip");
  ("en-base-multi-cased", "bert-base-multilingual-cased.zip");
  ("en-base-multi-uncased", "bert-base-multilingual-uncased.zip");
  ("cn", "bert-chinese-wwm.zip");
  ("cn-base", "bert-base-chinese.zip");
  ("cn-wwm", "bert-chinese-wwm.zip") ].

Definition PRETRAINED_ELMO_MODEL_DIR : gmap string string := list_to_map [
  ("en", "elmo_en_Medium.tar.gz");
  ("en-small", "elmo_en_Small.zip");
  ("en-original-5.5b", "elmo_en_Original_5.5B.zip");
  ("en-original", "elmo_en_Original.zip");
  ("en-medium", "elmo_en_Medium.zip") ].

Definition PRETRAIN_STATIC_FILES : gmap string string := list_to_map [
  ("en", "glove.840B.300d.tar.gz");
  ("en-glove-6b-50d", "glove.6B.50d.zip");
  ("en-glove-6b-100d", "glove.6B.100d.zip");
  ("en-glove-6b-200d", "glove.6B.200d.zip");
  ("en-glove-6b-300d", "glove.6B.300d.zip");
  ("en-glove-42b-300d", "glove.42B.300d.zip");
  ("en-glove-840b-300d", "glove.840B.300d.zip");
  ("en-glove-twitter-27b-25d", "glove.twitter.27B.25d.zip");
  ("en-glove-twitter-27b-50d", "glove.twitter.27B.50d.zip");
  ("en-glove-twitter-27b-100d", "glove.twitter.27B.100d.zip");
  ("en-glove-twitter-27b-200d", "glove.twitter.27B.200d.zip");
  ("en-word2vec-300", "GoogleNews-vectors-negative300.zip");
  ("en-fasttext-wiki", "wiki-news-300d-1M.vec.zip");
  ("en-fasttext-crawl", "crawl-300d-2M.vec.zip");
  ("cn", "tencent_cn.txt.zip");
  ("cn-tencent", "tencent_cn.txt.zip");
  ("cn-fasttext", "cc.zh.300.vec.gz");
  ("cn-sgns-literature-word", "sgns.literature.word.txt.zip") ].

Definition DATASET_DIR : gmap string string := list_to_map [
  ("aclImdb", "imdb.zip");
  ("yelp-review-full", "yelp_review_full.tar.gz");
  ("yelp-review-polarity", "yelp_review_polarity.tar.gz");
  ("mnli", "MNLI.zip");
  ("snli", "SNLI.zip");
  ("qnli", "QNLI.zip");
  ("sst-2", "SST-2.zip");
  ("sst", "SST.zip");
  ("rte", "RTE.zip") ].

Inductive key_error :=
| NotRecognized     (* line 183: the category has no base URL *)
| NoSuchName        (* line 204: the embedding type has no such name *)
| NoSuchType        (* line 206: no such embedding type *)
| NoSuchDataset.    (* line 221: no such dataset *)

(** The dictionary [URLS] of lines 178-181. *)
Definition URLS : gmap string string := list_to_map [
  ("embedding", "http://dbcloud.irocn.cn:8989/api/public/dl/");
  ("dataset", "http://dbcloud.irocn.cn:8989/api/public/dl/dataset/") ].

(** [_get_base_url] (lines 161-184). *)
Definition _get_base_url (environ : gmap string string) (name : string)
  : key_error + string :=
  let environ_name := "FASTNLP_" +:+ Case.upper name +:+ "_URL" in
  match environ !! environ_name with
  | Some url =>
      if PyStr.endswith url "/" then inr url else inr (url +:+ "/")
  | None =>
      match URLS !! Case.lower name with
      | None => inl NotRecognized
      | Some url => inr url
      end
  end.

(** The dictionary [PRETRAIN_MAP] of lines 195-197. *)
Definition PRETRAIN_MAP : gmap string (gmap string string) := list_to_map [
  ("elmo", PRETRAINED_ELMO_MODEL_DIR);
  ("bert", PRETRAINED_BERT_MODEL_DIR);
  ("static", PRETRAIN_STATIC_FILES) ].

(** [_get_embedding_url] (lines 187-206); an empty table and an empty file
    name count as missing, as [if map:] and [if filename:] have it. *)
Definition _get_embedding_url (environ : gmap string string)
  (type name : string) : key_error + string :=
  match PRETRAIN_MAP !! type with
  | Some map =>
      if decide (map = ∅) then inl NoSuchType
      else match map !! name with
           | Some filename =>
               if decide (filename = "") then inl NoSuchName
               else match _get_base_url environ "embedding" with
                    | inl e => inl e
                    | inr base => inr (base +:+ filename)
                    end
           | None => inl NoSuchName
           end
  | None => inl NoSuchType
  end.

(** [_get_dataset_url] (lines 209-221). *)
Definition _get_dataset_url (environ : gmap string string) (name : string)
  : key_error + string :=
  match DATASET_DIR !! name with
  | Some filename =>
      if decide (filename = "") then inl NoSuchDataset
      else match _get_base_url environ "dataset" with
           | inl e => inl e
           | inr base => inr (base +:+ filename)
           end
  | None => inl NoSuchDataset
  end.

(** ** Notions used in the statements *)

(** A computation that sends no request, whatever else it does. *)
Definition silent {A} (c : Py A) : Prop :=
  forall st, http_log (c st).2 = http_log st.

(** A character to which the pattern language gives no meaning of its
    own. *)
Definition plain_char (c : ascii) : bool :=
  negb (bool_decide
          (c ∈ ["\"; "."; "$"; "*"; "+"; "?"; "["; "("; ")"; "{"; "|"; "^"]%char)).

(** A base name made of such characters only. *)
Fixpoint plain (s : string) : bool :=
  match s with
  | EmptyString => true
  | String c r => plain_char c && plain r
  end.

(** [s] starts with [pre]. *)
Fixpoint starts_with (pre s : string) : bool :=
  match pre, s with
  | EmptyString, _ => true
  | String a p, String b r => bool_decide (a = b) && starts_with p r
  | String _ _, EmptyString => false
  end.

(** The entry is the base name, or the base name followed by a dot and
    any suffix. *)
Definition named_by (base entry : string) : bool :=
  bool_decide (entry = base) || starts_with (base +:+ ".") entry.

(** [str.isascii]: every character is below 128. *)
Fixpoint is_ascii (s : string) : bool :=
  match s with
  | EmptyString => true
  | String c r => (N_of_ascii c <? 128)%N && is_ascii r
  end.

(** A recognised archive suffix (line 290). *)
Definition archive_suffix (suffix : string) : bool :=
  bool_decide (suffix ∈ [".zip"; ".tar.gz"]).

(** What is checked on the file name of every dataset: it is not empty and
    holds no slash and no newline, its suffix is an archive suffix, and its
    base name holds no pattern character. *)
Definition dataset_file_ok (filename : string) : bool :=
  negb (bool_decide (filename = ""))
  && negb (PyStr.has_char "/"%char filename)
  && negb (PyStr.has_char "010"%char filename)
  && archive_suffix (split_filename_suffix filename).2
  && plain (split_filename_suffix filename).1.

(** The same for the file name of an embedding, whose suffix is an archive
    suffix for every entry but one, [cn-fasttext] of the static embeddings. *)
Definition embedding_file_ok (type name filename : string) : bool :=
  negb (bool_decide (filename = ""))
  && negb (PyStr.has_char "/"%char filename)
  && negb (PyStr.has_char "010"%char filename)
  && (archive_suffix (split_filename_suffix filename).2
      || bool_decide (type = "static" ∧ name = "cn-fasttext"
                      ∧ split_filename_suffix filename = ("cc.zh.300.vec", ".gz"))).

(** A string of decimal digits. *)
Definition is_digit (c : ascii) : bool :=
  bool_decide (c ∈ ["0"; "1"; "2"; "3"; "4"; "5"; "6"; "7"; "8"; "9"]%char).

Fixpoint digits (s : string) : bool :=
  match s with
  | EmptyString => true
  | String c r => is_digit c && digits r
  end.


(** A name made of dots only (the empty name too): [splitext] finds no
    extension in it. *)
Fixpoint only_dots (s : string) : bool :=
  match s with
  | EmptyString => true
  | String c r => bool_decide (c = "."%char) && only_dots r
  end.

(** The tokens and the items of a pattern that spells [s] out, character
    by character. *)
Fixpoint lit_tokens (s : string) : list Re.token :=
  match s with
  | EmptyString => []
  | String c r => Re.TAtom (Re.Lit c) :: lit_tokens r
  end.

Fixpoint lit_items (s : string) : list Re.item :=
  match s with
  | EmptyString => []
  | String c r => Re.Atom (Re.Lit c) Re.One :: lit_items r
  end.

(** ** Concrete worlds and states for the examples *)

Module Demo.

(** A plain reading of the scheme: what stands before the first colon. *)
Fixpoint before_colon (cur s : string) : string :=
  match s with
  | EmptyString => ""
  | String c r => if decide (c = ":"%char) then cur
                  else before_colon (cur +:+ String c "") r
  end.

Definition hi : list Byte.byte := [Byte.x68; Byte.x69].

(** A zip archive that wraps two files in one top-level folder. *)
Definition demo_zip : archive :=
  Archive [ (["demo"], Dir);
            (["demo"; "a.txt"], File [Byte.x61]);
            (["demo"; "b.txt"], File [Byte.x62]) ] true.

(** A tar archive that cannot be read. *)
Definition broken_tar : archive := Archive [] false.

(** A zip archive that wraps a folder in a folder. *)
Definition nested_zip : archive :=
  Archive [ (["wrap"], Dir);
            (["wrap"; "inner"], Dir);
            (["wrap"; "inner"; "a.txt"], File [Byte.x61]) ] true.

(** A zip archive that holds one file and nothing else. *)
Definition lone_zip : archive :=
  Archive [ (["a.txt"], File [Byte.x61]) ] true.

(** A zip archive that holds two files side by side. *)
Definition flat_zip : archive :=
  Archive [ (["a.txt"], File [Byte.x61]);
            (["b.txt"], File [Byte.x62]) ] true.

(** The server answers every URL with [status] and the body [hi], sent in
    two chunks around an empty one; every zip archive reads as [zip]; a
    pattern outside the fragment of [Re] matches nothing. *)
Definition world_with (status : Z) (faults : path -> fault) (zip : archive)
  : World := {|
  tmpdir := ["tmp"];
  urlparse_scheme := before_colon "";
  requests_get := fun _ => inr (Response status Absent [[Byte.x68]; []; [Byte.x69]] true);
  re_other := fun _ _ => inr false;
  zip_extractall := fun _ => zip;
  tar_extractall := fun _ => broken_tar;
  copy_fault := faults;
  environ_cache_dir := None;
  home := ["home"];
|}.

Definition world (status : Z) (faults : path -> fault) : World :=
  world_with status faults demo_zip.

Definition no_fault : path -> fault := fun _ => NoFault.

(** The disk fills up when [data.json] arrives in the cache. *)
Definition disk_full : path -> fault := fun dst =>
  if decide (dst = ["cache"; "data.json"]) then FailPartial 1 else NoFault.

(** The disk fills up when [b.txt] arrives in the cache entry [demo]. *)
Definition disk_full_demo : path -> fault := fun dst =>
  if decide (dst = ["cache"; "demo"; "b.txt"]) then FailPartial 0 else NoFault.

Definition cache : path := ["cache"].

(** An empty cache directory and an empty temporary directory. *)
Definition empty_cache : state :=
  State (list_to_map [([], Dir); (["tmp"], Dir); (["cache"], Dir)]) [] [].

(** A cache that holds the directory [bert] with the single file
    [vocab.txt], the empty directory [empty] and the file [vectors.txt]. *)
Definition small_cache : state :=
  State (list_to_map [([], Dir); (["tmp"], Dir); (["cache"], Dir);
                      (["cache"; "bert"], Dir);
                      (["cache"; "bert"; "vocab.txt"], File hi);
                      (["cache"; "empty"], Dir);
                      (["cache"; "vectors.txt"], File hi)]) [] [].

(** A cache directory that holds the files [names], all empty. *)
Definition cache_with (names : list string) : state :=
  State (list_to_map (([], Dir) :: (["tmp"], Dir) :: (["cache"], Dir)
                      :: map (fun n => (["cache"; n], File [])) names)) [] [].

(** The name of three characters [a], [e] with an acute accent and [b]:
    four bytes. *)
Definition a_e_b : string :=
  String "a" (String (ascii_of_nat 195) (String (ascii_of_nat 169) "b")).

(** A fetch of [demo.zip] right before the installation: the scratch file
    [tmp/0] holds the download, the scratch directory [tmp/1] holds the
    unpacked archive and the cache entry [cache/demo] has been made. *)
Definition unpacked : state :=
  State (list_to_map [([], Dir); (["tmp"], Dir); (["cache"], Dir);
                      (["tmp"; "0"], File hi);
                      (["tmp"; "1"], Dir);
                      (["tmp"; "1"; "demo"], Dir);
                      (["tmp"; "1"; "demo"; "a.txt"], File [Byte.x61]);
                      (["tmp"; "1"; "demo"; "b.txt"], File [Byte.x62]);
                      (["cache"; "demo"], Dir)]) [] [].

End Demo.

(** * Properties *)

Global Arguments Path.join : simpl never.
Global Arguments Path.add_suffix : simpl never.
Global Arguments Fs.exists_ : simpl never.
Global Arguments Fs.exists_at : simpl never.
Global Arguments Fs.isdir_str : simpl never.
Global Arguments Fs.is_dir : simpl never.
Global Arguments Fs.is_file : simpl never.
Global Arguments Fs.children : simpl never.
Global Arguments Fs.listdir : simpl never.
Global Arguments Fs.mkdir_parents : simpl never.
Global Arguments Fs.remove : simpl never.
Global Arguments Fs.rmtree : simpl never.
Global Arguments Fs.write_file : simpl never.
Global Arguments Fs.copyfile : simpl never.
Global Arguments Fs.copytree : simpl never.
Global Arguments split_filename_suffix : simpl never.
Global Arguments Re.sub_dirs : simpl never.
Global Arguments select_match : simpl never.

(** ** Strings and paths *)

Lemma append_cons (c : ascii) (s t : string) :
  String c s +:+ t = String c (s +:+ t).
Proof. reflexivity. Qed.

Lemma append_empty_r (s : string) : s +:+ "" = s.
Proof.
  induction s as [|c s IH]; [done |]. by rewrite append_cons, IH.
Qed.

Lemma append_assoc (a b c : string) : (a +:+ b) +:+ c = a +:+ (b +:+ c).
Proof.
  induction a as [|x a IH]; [done |]. by rewrite !append_cons, IH.
Qed.

Lemma has_char_app (c : ascii) (a b : string) :
  PyStr.has_char c (a +:+ b) = PyStr.has_char c a || PyStr.has_char c b.
Proof.
  induction a as [|x a IH]; [done |]. rewrite append_cons. simpl.
  destruct (decide (x = c)); [done | apply IH].
Qed.

Lemma basename_from_no_slash (cur p : string) :
  PyStr.has_char "/"%char cur = false ->
  PyStr.has_char "/"%char (OsPath.basename_from cur p) = false.
Proof.
  revert cur. induction p as [|c r IH]; intros cur Hcur; simpl; [done |].
  destruct (decide (c = "/"%char)) as [->|Hc]; [by apply IH |].
  apply IH. rewrite has_char_app, Hcur. simpl.
  by destruct (decide (c = "/"%char)).
Qed.

Lemma basename_no_slash (p : string) :
  PyStr.has_char "/"%char (OsPath.basename p) = false.
Proof. by apply basename_from_no_slash. Qed.

Lemma split_from_no_slash (cur s : string) :
  PyStr.has_char "/"%char s = false -> Path.split_from cur s = [cur +:+ s].
Proof.
  revert cur. induction s as [|c r IH]; intros cur H; simpl in *.
  - by rewrite append_empty_r.
  - destruct (decide (c = "/"%char)); [done |].
    rewrite IH by done. by rewrite append_assoc.
Qed.

Lemma is_name_spec (n : string) :
  Path.is_name n = true <->
  n ≠ "" ∧ n ≠ "." ∧ n ≠ ".." ∧ PyStr.has_char "/"%char n = false.
Proof.
  unfold Path.is_name.
  rewrite andb_true_iff, !negb_true_iff, bool_decide_eq_false.
  rewrite !elem_of_cons, elem_of_nil. tauto.
Qed.

(** Joining a name of a listing adds one component. *)
Lemma join_name (p : path) (n : string) :
  Path.is_name n = true -> Path.join p n = p ++ [n].
Proof.
  intros (H1 & H2 & H3 & H4)%is_name_spec. unfold Path.join.
  rewrite split_from_no_slash by done. change ("" +:+ n) with n. simpl.
  assert (Hbase : match n with String "/"%char _ => [] | _ => p end = p).
  { destruct n as [|c r]; [done |]. simpl in H4.
    destruct (decide (c = "/"%char)) as [->|Hc]; [done |].
    destruct c as [[] [] [] [] [] [] [] []]; try done. }
  rewrite Hbase. unfold Path.step.
  rewrite bool_decide_eq_false_2.
  - by destruct (decide (n = "..")).
  - rewrite !elem_of_cons, elem_of_nil. by intros [?|[?|[]]].
Qed.

Lemma join_empty (p : path) : Path.join p "" = p.
Proof. reflexivity. Qed.

Lemma add_suffix_empty (p : path) (n : string) :
  Path.add_suffix (p ++ [n]) "" = p ++ [n].
Proof.
  unfold Path.add_suffix. rewrite reverse_app. simpl.
  by rewrite reverse_involutive, append_empty_r.
Qed.

(** ** The file system *)

Lemma children_spec (m : filesystem) (p : path) (n : string) :
  n ∈ Fs.children m p <-> Path.is_name n = true ∧ is_Some (m !! (p ++ [n])).
Proof.
  unfold Fs.children. rewrite list_elem_of_omap. split.
  - intros ([q e] & Hin & Hf). apply elem_of_map_to_list in Hin.
    destruct (reverse q) as [|n' r] eqn:Hq; [done |].
    destruct (decide (reverse r = p)) as [<-|]; [| done].
    destruct (Path.is_name n') eqn:Hn; [| done].
    injection Hf as ->. split; [done |].
    assert (q = reverse r ++ [n]) as <-; [| by eexists].
    rewrite <- (reverse_involutive q), Hq. by rewrite reverse_cons.
  - intros [Hn [e He]]. exists (p ++ [n], e). split.
    + by apply elem_of_map_to_list.
    + rewrite reverse_app. simpl. rewrite reverse_involutive.
      rewrite decide_True by done. by rewrite Hn.
Qed.

Lemma children_is_name (m : filesystem) (p : path) (n : string) :
  n ∈ Fs.children m p -> Path.is_name n = true.
Proof. by intros [? _]%children_spec. Qed.

Lemma children_exists (m : filesystem) (p : path) (n : string) :
  n ∈ Fs.children m p -> Fs.exists_ m (Path.join p n) = true.
Proof.
  intros [Hn Hs]%children_spec. rewrite join_name by done.
  by apply bool_decide_eq_true.
Qed.

Lemma is_dir_lookup (m : filesystem) (p : path) :
  Fs.is_dir m p = true <-> m !! p = Some Dir.
Proof. unfold Fs.is_dir. by destruct (m !! p) as [[]|]. Qed.

Lemma is_file_lookup (m : filesystem) (p : path) :
  Fs.is_file m p = true <-> ∃ data, m !! p = Some (File data).
Proof.
  unfold Fs.is_file. destruct (m !! p) as [[data|]|]; split;
    try done; try (by intros [? ?]). by exists data.
Qed.

Lemma exists_lookup (m : filesystem) (p : path) :
  Fs.exists_ m p = true <-> is_Some (m !! p).
Proof. apply bool_decide_eq_true. Qed.

Lemma listdir_dir (m : filesystem) (p : path) :
  Fs.is_dir m p = true -> Fs.listdir m p = inr (Fs.children m p).
Proof. intros H%is_dir_lookup. unfold Fs.listdir. by rewrite H. Qed.

(** Where the operating system arrives is where the text of the path
    leads. *)
Lemma walk_foldl (m : filesystem) (cur q : path) (comps : list string) :
  Fs.walk m cur comps = Some q -> q = foldl Path.step cur comps.
Proof.
  revert cur. induction comps as [|n rest IH]; intros cur; simpl.
  - by intros [= <-].
  - destruct (Fs.is_dir m cur); [apply IH | done].
Qed.

Lemma foldl_step_parts (cur : path) (l : list string) :
  foldl Path.step cur
    (List.filter (fun n => negb (bool_decide (n ∈ [""; "."]))) l)
  = foldl Path.step cur l.
Proof.
  revert cur. induction l as [|n l IH]; intros cur; [done |].
  simpl. destruct (bool_decide (n ∈ [""; "."])) eqn:Hn; simpl.
  - rewrite IH. f_equal. unfold Path.step. by rewrite Hn.
  - by rewrite IH.
Qed.

Lemma walk_join (m : filesystem) (p q : path) (s : string) :
  Fs.walk m (Path.anchor p s) (Path.parts s) = Some q -> q = Path.join p s.
Proof.
  intros H%walk_foldl. unfold Path.parts in H.
  by rewrite foldl_step_parts in H.
Qed.

Lemma exists_at_join (m : filesystem) (p : path) (s : string) :
  Fs.exists_at m p s = true -> Fs.exists_ m (Path.join p s) = true.
Proof.
  unfold Fs.exists_at.
  destruct (Fs.walk m (Path.anchor p s) (Path.parts s)) as [q|] eqn:Hw;
    [| done].
  by apply walk_join in Hw as ->.
Qed.

(** ** Computations *)

Ltac py_unfold :=
  unfold mbind, py_bind, mret, py_ret, fmap, py_fmap, raise,
    fs_read, fs_query, fs_update, fs_effect in *.

(** What a sequence of two computations can have done. *)
Lemma bind_inv {A B} (c : Py A) (k : A -> Py B) (st st' : state) (r : exn + B) :
  (c ≫= k) st = (r, st') ->
  (∃ e, c st = (inl e, st') ∧ r = inl e)
  ∨ (∃ a st1, c st = (inr a, st1) ∧ k a st1 = (r, st')).
Proof.
  unfold mbind, py_bind. destruct (c st) as [[e|a] st1]; intros H.
  - left. exists e. by injection H as <- <-.
  - right. by exists a, st1.
Qed.

Lemma fmap_inv {A B} (f : A -> B) (c : Py A) (st st' : state) (r : exn + B) :
  (f <$> c) st = (r, st') ->
  (∃ e, c st = (inl e, st') ∧ r = inl e)
  ∨ (∃ a, c st = (inr a, st') ∧ r = inr (f a)).
Proof.
  unfold fmap, py_fmap. destruct (c st) as [[e|a] st1]; intros H.
  - left. exists e. by injection H as <- <-.
  - right. exists a. by injection H as <- <-.
Qed.

(** [get_filepath] only reads. *)
Lemma get_filepath_state (filepath : path) (st st' : state) (r : exn + path) :
  get_filepath filepath st = (r, st') -> st' = st.
Proof.
  unfold get_filepath. py_unfold. cbn.
  destruct (Fs.is_dir (fs st) filepath).
  - destruct (Fs.listdir (fs st) filepath) as [e|[|f [|g l]]]; cbn; congruence.
  - destruct (Fs.is_file (fs st) filepath); cbn; congruence.
Qed.

(** [match_file] only reads. *)
Lemma match_file_state (w : World) (dir_name : string) (cache_dir : path)
  (st st' : state) (r : exn + string) :
  match_file w dir_name cache_dir st = (r, st') -> st' = st.
Proof.
  unfold match_file. py_unfold. cbn.
  destruct (Fs.listdir (fs st) cache_dir); cbn; congruence.
Qed.

(** ** Claims *)

(** C10. [get_filepath] on an existing directory without children returns
    the directory itself, as it does for every child count other than one;
    on a path that is neither a file nor a directory it raises
    FileNotFoundError. It changes nothing. *)
Theorem get_filepath_empty_directory_and_missing_path
  (st : state) (filepath : path) :
  (Fs.is_dir (fs st) filepath = true ->
   Fs.children (fs st) filepath = [] ->
   get_filepath filepath st = (inr filepath, st))
  ∧ (Fs.is_dir (fs st) filepath = true ->
     length (Fs.children (fs st) filepath) ≠ 1%nat ->
     get_filepath filepath st = (inr filepath, st))
  ∧ (Fs.is_dir (fs st) filepath = false ->
     Fs.is_file (fs st) filepath = false ->
     get_filepath filepath st = (inl FileNotFoundError, st)).
Proof.
  assert (Hmany : Fs.is_dir (fs st) filepath = true ->
                  length (Fs.children (fs st) filepath) ≠ 1%nat ->
                  get_filepath filepath st = (inr filepath, st)).
  { intros Hd Hlen. unfold get_filepath. py_unfold. cbn.
    rewrite Hd, (listdir_dir _ _ Hd). cbn.
    by destruct (Fs.children (fs st) filepath) as [|f [|g l]]. }
  split; [| split].
  - intros Hd Hnil. apply Hmany; [done |]. by rewrite Hnil.
  - done.
  - intros Hd Hf. unfold get_filepath. py_unfold. cbn. by rewrite Hd, Hf.
Qed.

Lemma get_filepath_empty_directory_and_missing_path_witness :
  get_filepath ["cache"; "empty"] Demo.small_cache
    = (inr ["cache"; "empty"], Demo.small_cache)
  ∧ get_filepath ["cache"; "absent"] Demo.small_cache
    = (inl FileNotFoundError, Demo.small_cache).
Proof.
  split.
  - apply (proj1 (get_filepath_empty_directory_and_missing_path
                      Demo.small_cache ["cache"; "empty"]));
      vm_compute; reflexivity.
  - apply (proj2 (proj2 (get_filepath_empty_directory_and_missing_path
                           Demo.small_cache ["cache"; "absent"])));
      vm_compute; reflexivity.
Defined.

(** Lines 298-301 on a directory [dest]: the result is the sole entry of
    [dest] when that entry is a directory, and [dest] itself in every other
    case; nothing is changed. *)
Lemma extraction_root_spec (st : state) (dest : path) :
  Fs.is_dir (fs st) dest = true ->
  ∃ root,
    extraction_root dest st = (inr root, st)
    ∧ (∀ n, Fs.children (fs st) dest = [n] ->
            Fs.is_dir (fs st) (dest ++ [n]) = true -> root = dest ++ [n])
    ∧ (∀ n, Fs.children (fs st) dest = [n] ->
            Fs.is_dir (fs st) (dest ++ [n]) = false -> root = dest)
    ∧ (length (Fs.children (fs st) dest) ≠ 1%nat -> root = dest)
    ∧ (root = dest ∨ ∃ n, root = dest ++ [n]).
Proof.
  intros Hd. unfold extraction_root. py_unfold. cbn.
  rewrite (listdir_dir _ _ Hd).
  destruct (Fs.children (fs st) dest) as [|n [|n' l]] eqn:Hc; cbn.
  - exists dest. repeat split; try done. by left.
  - assert (Hn : Path.is_name n = true).
    { apply (children_is_name (fs st) dest). rewrite Hc. by left. }
    rewrite (join_name _ _ Hn).
    destruct (Fs.is_dir (fs st) (dest ++ [n])) eqn:Hdn.
    + exists (dest ++ [n]). repeat split; try done.
      * by intros ? [= <-] _.
      * intros ? [= <-] ?. congruence.
      * right. by exists n.
    + exists dest. repeat split; try done.
      * intros ? [= <-] ?. congruence.
      * by left.
  - exists dest. repeat split; try done. by left.
Qed.

(** C5, as the code has it. For an identifier with an empty scheme whose
    path under the directory searched exists (for the operating system, which
    follows every component of [name] and of the identifier through a
    directory that is there), [cached_path] returns that joined path as it
    is and changes nothing: a directory is returned as the directory,
    whatever the number of its children, and a file as the file. *)
Theorem cached_path_local_returns_joined_path (w : World)
  (url_or_filename : string) (cache_dir : option path) (name : option string)
  (st : state) (data_cache : path) (rel : string) :
  data_cache_of w cache_dir name st = (inr (data_cache, rel), st) ->
  urlparse_scheme w url_or_filename = "" ->
  Fs.exists_at (fs st) data_cache (OsPath.join rel url_or_filename) = true ->
  cached_path w url_or_filename cache_dir name st
  = (inr (Some (Path.join data_cache (OsPath.join rel url_or_filename))), st)
  ∧ Fs.exists_ (fs st)
      (Path.join data_cache (OsPath.join rel url_or_filename)) = true.
Proof.
  intros Hbase Hscheme Hex. split; [| by apply exists_at_join].
  unfold cached_path.
  unfold mbind at 1. unfold py_bind. rewrite Hbase. cbn.
  rewrite Hscheme.
  rewrite bool_decide_eq_false_2
    by (rewrite !elem_of_cons, elem_of_nil; by intros [?|[?|[]]]).
  rewrite !decide_True by done. py_unfold. by rewrite Hex.
Qed.

Lemma cached_path_local_returns_joined_path_witness :
  cached_path (Demo.world 200 Demo.no_fault) "vectors.txt" (Some Demo.cache)
              None Demo.small_cache
  = (inr (Some ["cache"; "vectors.txt"]), Demo.small_cache)
  ∧ cached_path (Demo.world 200 Demo.no_fault) "empty/../bert"
                (Some Demo.cache) None Demo.small_cache
    = (inr (Some ["cache"; "bert"]), Demo.small_cache)
  ∧ cached_path (Demo.world 200 Demo.no_fault) "vocab.txt"
                (Some Demo.cache) (Some "bert") Demo.small_cache
    = (inr (Some ["cache"; "bert"; "vocab.txt"]), Demo.small_cache).
Proof.
  split; [| split].
  - apply (proj1 (cached_path_local_returns_joined_path
                    (Demo.world 200 Demo.no_fault) "vectors.txt"
                    (Some Demo.cache) None Demo.small_cache Demo.cache ""
                    eq_refl eq_refl eq_refl)).
  - apply (proj1 (cached_path_local_returns_joined_path
                    (Demo.world 200 Demo.no_fault) "empty/../bert"
                    (Some Demo.cache) None Demo.small_cache Demo.cache ""
                    eq_refl eq_refl eq_refl)).
  - apply (proj1 (cached_path_local_returns_joined_path
                    (Demo.world 200 Demo.no_fault) "vocab.txt"
                    (Some Demo.cache) (Some "bert") Demo.small_cache
                    Demo.cache "bert" eq_refl eq_refl eq_refl)).
Defined.

(** A double dot is followed through a directory that exists, and through
    nothing else: [absent/../bert] names nothing although [bert] is there,
    in the identifier as well as in [name]. *)
Lemma cached_path_double_dot_through_missing_directory :
  cached_path (Demo.world 200 Demo.no_fault) "absent/../bert"
              (Some Demo.cache) None Demo.small_cache
  = (inl FileNotFoundError, Demo.small_cache)
  ∧ cached_path (Demo.world 200 Demo.no_fault) "bert"
                (Some Demo.cache) (Some "absent/..") Demo.small_cache
    = (inl FileNotFoundError, Demo.small_cache).
Proof. split; vm_compute; reflexivity. Qed.

(** C5, as the claim has it, fails: the directory [bert] of the cache holds
    exactly one child, [vocab.txt], and the local lookup of [bert] returns
    the directory, not the path of the child. *)
Lemma cached_path_local_keeps_single_child_directory :
  let w := Demo.world 200 Demo.no_fault in
  urlparse_scheme w "bert" = ""
  ∧ Fs.is_dir (fs Demo.small_cache) ["cache"; "bert"] = true
  ∧ Fs.children (fs Demo.small_cache) ["cache"; "bert"] = ["vocab.txt"]
  ∧ cached_path w "bert" (Some Demo.cache) None Demo.small_cache
    = (inr (Some ["cache"; "bert"]), Demo.small_cache)
  ∧ cached_path w "bert" (Some Demo.cache) None Demo.small_cache
    ≠ (inr (Some ["cache"; "bert"; "vocab.txt"]), Demo.small_cache).
Proof.
  repeat split; try (vm_compute; reflexivity).
  vm_compute. discriminate.
Qed.

(** C3. On the three listings of the specification [match_file] answers as
    claimed: nothing for [foo.txt] against [food], [foo.zip] against [foo],
    RuntimeError for [foo.zip] and [foo.tar.gz] against [foo]. But the base
    name is read as a pattern, not compared as text: against the base name
    [glove.6B.50d] the entry [glove_6B_50d] is selected, which is neither the
    base name nor the base name followed by a dot and a suffix, and against
    [a+b] the entry [a+b.txt] is not selected although it is. *)
Theorem match_file_reads_base_name_as_pattern (w : World) :
  match_file w "food" Demo.cache (Demo.cache_with ["foo.txt"])
    = (inr "", Demo.cache_with ["foo.txt"])
  ∧ match_file w "foo" Demo.cache (Demo.cache_with ["foo.zip"])
    = (inr "foo.zip", Demo.cache_with ["foo.zip"])
  ∧ match_file w "foo" Demo.cache (Demo.cache_with ["foo.zip"; "foo.tar.gz"])
    = (inl RuntimeError, Demo.cache_with ["foo.zip"; "foo.tar.gz"])
  ∧ match_file w "glove.6B.50d" Demo.cache (Demo.cache_with ["glove_6B_50d"])
    = (inr "glove_6B_50d", Demo.cache_with ["glove_6B_50d"])
  ∧ match_file w "a+b" Demo.cache (Demo.cache_with ["a+b.txt"])
    = (inr "", Demo.cache_with ["a+b.txt"]).
Proof. repeat split; vm_compute; reflexivity. Qed.

(** C1. Two exits on which the scratch area outlives the call. When the
    server answers 404 the call raises HTTPError and the scratch file
    [tmp/0] is still there. When the archive cannot be read the call raises
    at the extraction, and both the scratch file [tmp/0], holding the
    download, and the scratch directory [tmp/1] are still there. *)
Theorem get_from_cache_leaves_scratch_behind :
  (let r := get_from_cache (Demo.world 404 Demo.no_fault)
              "http://host/dataset/imdb.zip" Demo.cache Demo.empty_cache in
   r.1 = inl HTTPError
   ∧ fs r.2 = list_to_map [([], Dir); (["tmp"], Dir); (["cache"], Dir);
                           (["tmp"; "0"], File [])])
  ∧ (let r := get_from_cache (Demo.world 200 Demo.no_fault)
                "http://host/yelp_review_full.tar.gz" Demo.cache Demo.empty_cache in
     r.1 = inl BadArchive
     ∧ fs r.2 = list_to_map [([], Dir); (["tmp"], Dir); (["cache"], Dir);
                             (["tmp"; "0"], File Demo.hi);
                             (["tmp"; "1"], Dir)]).
Proof. repeat split; vm_compute; reflexivity. Qed.

(** C2. A download that is not an archive, whose copy into the cache fails
    after the first byte: the call raises AttributeError, not the OSError of
    the copy, and the truncated [data.json] stays in the cache directory
    (as does the scratch file). *)
Theorem get_from_cache_failed_copy_keeps_partial_file :
  let w := Demo.world 200 Demo.disk_full in
  let r := get_from_cache w "http://host/data.json" Demo.cache Demo.empty_cache in
  r.1 = inl AttributeError
  ∧ fs r.2 = list_to_map [([], Dir); (["tmp"], Dir); (["cache"], Dir);
                          (["tmp"; "0"], File Demo.hi);
                          (["cache"; "data.json"], File [Byte.x68])]
  ∧ (install w ["tmp"; "0"] (StrPath ["cache"; "data.json"])
       (State (list_to_map [([], Dir); (["tmp"], Dir); (["cache"], Dir);
                            (["tmp"; "0"], File Demo.hi)]) [] [])).1
    = inl OSError.
Proof. repeat split; vm_compute; reflexivity. Qed.

(** C4. The same URL fetched twice in a row, nothing else touching the
    cache: the first call downloads and installs [a+b.txt]; the second call
    does not find it and downloads again. *)
Theorem get_from_cache_second_call_downloads_again :
  let w := Demo.world 200 Demo.no_fault in
  let url := "http://host/a+b.txt" in
  let first := get_from_cache w url Demo.cache Demo.empty_cache in
  let second := get_from_cache w url Demo.cache first.2 in
  first.1 = inr (Some ["cache"; "a+b.txt"])
  ∧ http_log first.2 = [url]
  ∧ Fs.is_file (fs first.2) ["cache"; "a+b.txt"] = true
  ∧ second.1 = inr (Some ["cache"; "a+b.txt"])
  ∧ http_log second.2 = [url; url].
Proof. repeat split; vm_compute; reflexivity. Qed.

(** ** The lookup phase *)

Lemma mkdir_inv (m m' : filesystem) (p : path) :
  Fs.mkdir m p = inr m' -> m' = <[p := Dir]> m ∧ m !! p = None.
Proof.
  unfold Fs.mkdir. destruct (m !! p); [done |].
  destruct (m !! Path.parent p) as [[]|]; [done | | done].
  by intros [= <-].
Qed.

Lemma mkdir_exist_ok_inv (m m' : filesystem) (p : path) :
  Fs.mkdir_exist_ok m p = inr m' ->
  (m' = <[p := Dir]> m ∧ m !! p = None) ∨ (m' = m ∧ Fs.is_dir m p = true).
Proof.
  unfold Fs.mkdir_exist_ok. destruct (Fs.mkdir m p) as [e|m2] eqn:Hm.
  - destruct e; try done;
      (destruct (Fs.is_dir m p) eqn:Hd; [| done]; intros [= <-]; by right).
  - intros [= <-]. left. by apply mkdir_inv.
Qed.

(** What [mkdir(parents=True, exist_ok=True)] leaves: the directory is
    there, and only paths leading to it were touched. *)
Lemma mkdir_parents_rev_spec (rp : list string) (m m' : filesystem) :
  Fs.mkdir_parents_rev rp m = inr m' ->
  Fs.is_dir m' (reverse rp) = true
  ∧ ∀ q, ¬ q `prefix_of` reverse rp -> m' !! q = m !! q.
Proof.
  revert m m'. induction rp as [|n rparent IH]; intros m m' H; simpl in H.
  - destruct (Fs.mkdir m (reverse [])) as [e|m2] eqn:Hm.
    + destruct e; try done;
        (destruct (Fs.is_dir m (reverse [])) eqn:Hd; [| done];
         injection H as <-; by split).
    + injection H as <-. apply mkdir_inv in Hm as [-> _]. split.
      * apply is_dir_lookup, lookup_insert_eq.
      * intros q Hq. apply lookup_insert_ne. intros <-. by apply Hq.
  - destruct (Fs.mkdir m (reverse (n :: rparent))) as [e|m2] eqn:Hm.
    + assert (Hkeep : Fs.is_dir m (reverse (n :: rparent)) = true ->
                      m' = m ->
                      Fs.is_dir m' (reverse (n :: rparent)) = true
                      ∧ ∀ q, ¬ q `prefix_of` reverse (n :: rparent) ->
                             m' !! q = m !! q).
      { intros Hd ->. by split. }
      destruct e;
        try (destruct (Fs.is_dir m (reverse (n :: rparent))) eqn:Hd; [| done];
             injection H as <-; by apply Hkeep).
      destruct (Fs.mkdir_parents_rev rparent m) as [e1|m1] eqn:Hrec; [done |].
      apply IH in Hrec as [_ Hframe].
      assert (Hpre : ∀ q, ¬ q `prefix_of` reverse (n :: rparent) ->
                          ¬ q `prefix_of` reverse rparent).
      { intros q Hq Hp. apply Hq. rewrite reverse_cons.
        by apply prefix_app_r. }
      apply mkdir_exist_ok_inv in H as [[-> _]|[-> Hd]].
      * split; [apply is_dir_lookup, lookup_insert_eq |].
        intros q Hq. rewrite lookup_insert_ne; [by apply Hframe, Hpre |].
        intros <-. by apply Hq.
      * split; [done |]. intros q Hq. by apply Hframe, Hpre.
    + injection H as <-. apply mkdir_inv in Hm as [-> _]. split.
      * apply is_dir_lookup, lookup_insert_eq.
      * intros q Hq. apply lookup_insert_ne. intros <-. by apply Hq.
Qed.

Lemma mkdir_parents_is_dir (m m' : filesystem) (p : path) :
  Fs.mkdir_parents m p = inr m' -> Fs.is_dir m' p = true.
Proof.
  unfold Fs.mkdir_parents. intros [H _]%mkdir_parents_rev_spec.
  by rewrite reverse_involutive in H.
Qed.

Lemma mkdir_parents_frame (m m' : filesystem) (p q : path) :
  Fs.mkdir_parents m p = inr m' -> ¬ q `prefix_of` p -> m' !! q = m !! q.
Proof.
  unfold Fs.mkdir_parents. intros [_ H]%mkdir_parents_rev_spec.
  rewrite reverse_involutive in H. by apply H.
Qed.

(** An existing directory is left alone. *)
Lemma mkdir_parents_existing (m : filesystem) (p : path) :
  Fs.is_dir m p = true -> Fs.mkdir_parents m p = inr m.
Proof.
  intros Hd. unfold Fs.mkdir_parents.
  assert (Hm : Fs.mkdir m p = inl FileExistsError).
  { unfold Fs.mkdir. apply is_dir_lookup in Hd. by rewrite Hd. }
  rewrite <- (reverse_involutive p) in Hm, Hd.
  destruct (reverse p) as [|n rp]; simpl; by rewrite Hm, Hd.
Qed.

(** What [match_file] selects is in the listing. *)
Lemma matched_filenames_subset (w : World) (dir_name : string) (files l : list string) :
  matched_filenames w dir_name files = inr l -> ∀ x, x ∈ l -> x ∈ files.
Proof.
  revert l. induction files as [|f rest IH]; intros l H x Hx; simpl in H.
  - injection H as <-. by apply elem_of_nil in Hx.
  - destruct (re_match w (dir_name +:+ "$") f) as [e|m1]; [done |].
    destruct (if m1 then inr true else re_match w (dir_name +:+ "\..*") f)
      as [e|m2]; [done |].
    destruct (matched_filenames w dir_name rest) as [e|l'] eqn:Hrest; [done |].
    injection H as <-. destruct m2.
    + apply elem_of_cons in Hx as [->|Hx]; [by left |].
      right. by apply (IH l').
    + right. by apply (IH l').
Qed.

Lemma select_match_elem (w : World) (dir_name : string) (files : list string) (x : string) :
  select_match w dir_name files = inr x -> x ≠ "" -> x ∈ files.
Proof.
  unfold select_match.
  destruct (matched_filenames w dir_name files) as [e|[|f [|g l]]] eqn:H;
    try done.
  - by intros [= <-].
  - intros [= <-] _. apply (matched_filenames_subset _ _ _ _ H). by left.
Qed.

Lemma fs_update_inv (f : filesystem -> exn + filesystem) (st st' : state)
  (r : exn + ()) :
  fs_update f st = (r, st') ->
  (∃ e, f (fs st) = inl e ∧ r = inl e ∧ st' = st)
  ∨ (∃ m, f (fs st) = inr m ∧ r = inr () ∧ st' = with_fs st m).
Proof.
  unfold fs_update. destruct (f (fs st)) as [e|m]; intros [= <- <-].
  - left. by exists e.
  - right. by exists m.
Qed.

Lemma match_file_inv (w : World) (dir_name : string) (cache_dir : path) (st st' : state)
  (r : exn + string) :
  Fs.is_dir (fs st) cache_dir = true ->
  match_file w dir_name cache_dir st = (r, st') ->
  st' = st ∧ r = select_match w dir_name (Fs.children (fs st) cache_dir).
Proof.
  intros Hd. unfold match_file. py_unfold.
  rewrite (listdir_dir _ _ Hd). by intros [= <- <-].
Qed.

(** A call that sends a request found nothing in the lookup phase: the
    cache directory was there or was made, no entry matched the base name,
    nothing was at the cache path, and the outcome is that of [fetch]. *)
Lemma get_from_cache_miss (w : World) (url : string) (cache_dir : path)
  (st st' : state) (r : exn + option path) :
  get_from_cache w url cache_dir st = (r, st') ->
  http_log st' ≠ http_log st ->
  let dir_name := (split_filename_suffix (Re.sub_dirs url)).1 in
  let suffix := (split_filename_suffix (Re.sub_dirs url)).2 in
  ∃ m1 r0,
    Fs.mkdir_parents (fs st) cache_dir = inr m1
    ∧ select_match w dir_name (Fs.children m1 cache_dir) = inr ""
    ∧ Fs.exists_ m1 (Path.join cache_dir dir_name) = false
    ∧ fetch w url suffix (Path.join cache_dir dir_name) (with_fs st m1) = (r0, st')
    ∧ r = match r0 with inl e => inl e | inr p => inr (Some p) end.
Proof.
  unfold get_from_cache.
  destruct (split_filename_suffix (Re.sub_dirs url)) as [dn suf]. simpl.
  intros H Hlog.
  apply bind_inv in H as [(e & H & _)|([] & st1 & H1 & H)].
  { apply fs_update_inv in H as [(? & _ & _ & ->)|(? & _ & ? & _)]; done. }
  apply fs_update_inv in H1 as [(? & _ & ? & _)|(m1 & Hmk & _ & ->)]; [done |].
  pose proof (mkdir_parents_is_dir _ _ _ Hmk) as Hcd.
  apply bind_inv in H as [(e & H & _)|(mname & st2 & Hm & H)].
  { apply match_file_inv in H as [-> _]; done. }
  apply match_file_inv in Hm as [-> Hsel]; [| done]. simpl in Hsel.
  symmetry in Hsel.
  set (dir_name := if decide (mname = "") then dn else mname) in *.
  assert (Hhit : ∀ rr, (Some <$> get_filepath (Path.join cache_dir dir_name))
                         (with_fs st m1) = (rr, st') -> False).
  { intros rr [(e & Hg & _)|(a & Hg & _)]%fmap_inv;
      apply get_filepath_state in Hg; subst st'; by apply Hlog. }
  py_unfold. simpl in H.
  destruct (Fs.exists_ m1 (Path.join cache_dir dir_name)) eqn:Hex.
  { exfalso. by apply (Hhit r). }
  simpl in H.
  subst dir_name. destruct (decide (mname = "")) as [->|Hne].
  2: { exfalso. pose proof (select_match_elem _ _ _ _ Hsel Hne) as Hin.
       apply children_exists in Hin. congruence. }
  rewrite Hex in H. simpl in H.
  destruct (fetch w url suf (Path.join cache_dir dn) (with_fs st m1))
    as [r0 st3] eqn:Hfetch.
  exists m1, r0. repeat split; try done.
  - destruct r0; by injection H as <- <-.
  - destruct r0; by injection H as <- <-.
Qed.

(** ** A response other than 200 *)

Lemma mkstemp_inv (w : World) (st st' : state) (r : exn + path) :
  mkstemp w st = (r, st') ->
  (r = inl FileNotFoundError ∧ st' = st)
  ∨ (∃ name, r = inr (tmpdir w ++ [name])
             ∧ st' = with_fs st (<[tmpdir w ++ [name] := File []]> (fs st))).
Proof.
  unfold mkstemp. destruct (Fs.is_dir (fs st) (tmpdir w)); intros [= <- <-].
  - right. by eexists.
  - by left.
Qed.

(** When the server answers with another status than 200, [fetch] raises
    HTTPError and has done one thing to the file system: made the scratch
    file. *)
Lemma fetch_non_200 (w : World) (url suffix : string) (cache_path : path)
  (st st' : state) (r : exn + path) (resp : response) :
  fetch w url suffix cache_path st = (r, st') ->
  http_log st' ≠ http_log st ->
  requests_get w url = inr resp ->
  status_code resp ≠ 200 ->
  r = inl HTTPError
  ∧ ∃ name, fs st' = <[tmpdir w ++ [name] := File []]> (fs st).
Proof.
  intros H Hlog Hget Hstatus. unfold fetch in H.
  apply bind_inv in H as [(e & H & _)|(temp & st1 & Htmp & H)].
  { apply mkstemp_inv in H as [[_ ->]|(? & ? & _)]; done. }
  apply mkstemp_inv in Htmp as [[? _]|(name & [= ->] & ->)]; [done |].
  unfold mbind at 1 in H. unfold py_bind, http_get in H. rewrite Hget in H.
  rewrite decide_False in H by done. unfold raise in H.
  injection H as <- <-. split; [done |]. by exists name.
Qed.

(** C6. A request answered with 404 when the cache directory is the
    directory of [tempfile]: the call raises HTTPError, and the scratch file
    it has made and not removed is a new entry of the cache directory. *)
Theorem get_from_cache_non_200_scratch_in_cache_dir :
  let st := Demo.empty_cache in
  let r := get_from_cache (Demo.world 404 Demo.no_fault)
             "http://host/dataset/imdb.zip" ["tmp"] st in
  tmpdir (Demo.world 404 Demo.no_fault) = ["tmp"]
  ∧ Fs.children (fs st) ["tmp"] = []
  ∧ r.1 = inl HTTPError
  ∧ Fs.children (fs r.2) ["tmp"] = ["0"]
  ∧ fs r.2 !! ["tmp"; "0"] = Some (File []).
Proof. repeat split; vm_compute; reflexivity. Qed.

(** A call whose request is answered with a status other than 200 raises
    HTTPError. Besides making the cache directory, all it has done to the
    file system is to make the empty scratch file in the directory of
    [tempfile], which it leaves there: nothing of the response is written
    anywhere. Unless that directory is the cache directory itself, the cache
    directory lists no entry that it did not list before the call. *)
Theorem get_from_cache_non_200_leaves_only_scratch (w : World) (url : string)
  (cache_dir : path) (st st' : state) (r : exn + option path)
  (resp : response) :
  get_from_cache w url cache_dir st = (r, st') ->
  http_log st' ≠ http_log st ->
  requests_get w url = inr resp ->
  status_code resp ≠ 200 ->
  r = inl HTTPError
  ∧ (∃ m1 name,
       Fs.mkdir_parents (fs st) cache_dir = inr m1
       ∧ fs st' = <[tmpdir w ++ [name] := File []]> m1)
  ∧ (tmpdir w ≠ cache_dir ->
     ∀ n, n ∈ Fs.children (fs st') cache_dir ->
          n ∈ Fs.children (fs st) cache_dir).
Proof.
  intros H Hlog Hget Hstatus.
  apply get_from_cache_miss in H as (m1 & r0 & Hmk & _ & _ & Hfetch & ->);
    [| done].
  apply (fetch_non_200 _ _ _ _ _ _ _ resp) in Hfetch as [-> [name Hfs]];
    try done.
  split; [done |]. split; [by exists m1, name |].
  intros Htmp n [Hn Hsome]%children_spec.
  apply children_spec. split; [done |].
  rewrite Hfs in Hsome. simpl in Hsome.
  rewrite lookup_insert_ne in Hsome.
  - rewrite (mkdir_parents_frame _ _ _ _ Hmk) in Hsome; [done |].
    intros Hpre%prefix_length. rewrite length_app in Hpre. simpl in Hpre. lia.
  - intros Heq. by apply app_inj_tail in Heq as [? _].
Qed.

Lemma get_from_cache_non_200_leaves_only_scratch_witness :
  let r := get_from_cache (Demo.world 404 Demo.no_fault)
             "http://host/dataset/imdb.zip" Demo.cache Demo.small_cache in
  r.1 = inl HTTPError
  ∧ ∀ n, n ∈ Fs.children (fs r.2) Demo.cache
         -> n ∈ Fs.children (fs Demo.small_cache) Demo.cache.
Proof.
  destruct (get_from_cache_non_200_leaves_only_scratch
              (Demo.world 404 Demo.no_fault) "http://host/dataset/imdb.zip"
              Demo.cache Demo.small_cache
              (get_from_cache (Demo.world 404 Demo.no_fault)
                 "http://host/dataset/imdb.zip" Demo.cache Demo.small_cache).2
              (get_from_cache (Demo.world 404 Demo.no_fault)
                 "http://host/dataset/imdb.zip" Demo.cache Demo.small_cache).1
              (Response 404 Absent [[Byte.x68]; []; [Byte.x69]] true))
    as (Hr & _ & Hlist).
  - symmetry. apply surjective_pairing.
  - vm_compute. discriminate.
  - reflexivity.
  - simpl. lia.
  - split; [exact Hr |]. apply Hlist. vm_compute. discriminate.
Defined.

(** ** A download that is not an archive *)

Lemma endswith_has_char (c : ascii) (s suf : string) :
  PyStr.endswith s suf = true ->
  PyStr.has_char c suf = true -> PyStr.has_char c s = true.
Proof.
  induction s as [|a r IH]; simpl; intros H Hc.
  - destruct (decide ("" = suf)) as [<-|]; [done |]. done.
  - destruct (decide (String a r = suf)) as [<-|]; [done |].
    destruct (decide (a = c)); [done |]. by apply IH.
Qed.

Lemma rfind_from_absent (c : ascii) (s : string) (i last : Z) :
  PyStr.has_char c s = false -> PyStr.rfind_from c s i last = last.
Proof.
  revert i last. induction s as [|a r IH]; intros i last H; simpl in *.
  - done.
  - destruct (decide (a = c)); [done |]. by apply IH.
Qed.

Lemma rfind_from_lower (c : ascii) (s : string) (i last : Z) :
  -1 <= last -> 0 <= i -> -1 <= PyStr.rfind_from c s i last.
Proof.
  revert i last. induction s as [|a r IH]; intros i last Hl Hi; simpl.
  - done.
  - apply IH; [| lia]. destruct (decide (a = c)); lia.
Qed.

(** A name without a dot has no suffix. *)
Lemma splitext_no_dot (p : string) :
  PyStr.has_char "."%char p = false -> OsPath.splitext p = (p, "").
Proof.
  intros H. unfold OsPath.splitext, PyStr.rfind.
  rewrite (rfind_from_absent "."%char p) by done.
  pose proof (rfind_from_lower "/"%char p 0 (-1)) as Hsep.
  destruct (PyStr.rfind_from "/"%char p 0 (-1) <? -1) eqn:Hlt; [| done].
  apply Z.ltb_lt in Hlt. lia.
Qed.

Lemma split_filename_suffix_no_dot (filepath : string) :
  PyStr.has_char "."%char (OsPath.basename filepath) = false ->
  split_filename_suffix filepath = (OsPath.basename filepath, "").
Proof.
  intros H. unfold split_filename_suffix.
  destruct (PyStr.endswith (OsPath.basename filepath) ".tar.gz") eqn:He.
  - apply (endswith_has_char "."%char) in He; [congruence | done].
  - by apply splitext_no_dot.
Qed.

(** Leaving out the empty chunks does not change the body. *)
Lemma concat_nonempty_chunks (chunks : list (list Byte.byte)) :
  concat (List.filter (fun chunk => negb (bool_decide (length chunk = 0%nat)))
                      chunks) = concat chunks.
Proof.
  induction chunks as [|c l IH]; [done |]. simpl.
  destruct c as [|b c]; simpl; [done |]. by rewrite IH.
Qed.

Lemma write_file_inv (m m' : filesystem) (p : path) (data : list Byte.byte) :
  Fs.write_file m p data = inr m' -> m' = <[p := File data]> m.
Proof.
  unfold Fs.write_file.
  destruct (m !! p) as [[]|]; try done;
    destruct (m !! Path.parent p) as [[]|]; try done; by intros [= <-].
Qed.

Lemma download_to_inv (req : response) (temp_filename : path)
  (st st' : state) :
  download_to req temp_filename st = (inr (), st') ->
  st' = with_fs st (<[temp_filename := File (concat (chunks req))]> (fs st)).
Proof.
  unfold download_to.
  assert (Hrun : ∀ st1 : state,
    (fs_update (fun m => Fs.write_file m temp_filename
       (concat (List.filter (fun chunk => negb (bool_decide (length chunk = 0%nat)))
                            (chunks req))));;
     (if stream_ok req then mret () else raise ConnectionError)) st = (inr (), st1) ->
    st1 = with_fs st (<[temp_filename := File (concat (chunks req))]> (fs st))).
  { intros st1 [(e & _ & [=])|([] & st2 & Hw & Hs)]%bind_inv.
    apply fs_update_inv in Hw as [(? & _ & [=] & _)|(m & Hw & _ & ->)].
    apply write_file_inv in Hw as ->. rewrite concat_nonempty_chunks in Hs.
    destruct (stream_ok req); py_unfold; congruence. }
  destruct (content_length req); [apply Hrun | done | apply Hrun].
Qed.

Lemma copyfile_ok_inv (w : World) (m m' : filesystem) (src dst : path) :
  Fs.copyfile w m src dst = (None, m') ->
  src ≠ dst ∧ ∃ data, m !! src = Some (File data) ∧ m' = <[dst := File data]> m.
Proof.
  unfold Fs.copyfile. destruct (decide (src = dst)); [done |].
  destruct (m !! src) as [[data|]|]; try done.
  assert (Hput : (let '(m'0, failed) := Fs.put_data w m dst data in
                  (if failed then Some OSError else None, m'0)) = (None, m') ->
                 src ≠ dst ∧ ∃ data0, Some (File data) = Some (File data0)
                                      ∧ m' = <[dst := File data0]> m).
  { unfold Fs.put_data. destruct (copy_fault w dst); try done.
    intros [= <-]. split; [done |]. by exists data. }
  destruct (m !! dst) as [[]|]; try done;
    destruct (m !! Path.parent dst) as [[]|]; try done.
Qed.

(** A fetch of something that is not an archive, when it returns: the
    request was answered with 200, the body is installed as one file at the
    cache path with the suffix put back, the scratch file is gone, and no
    archive was unpacked. *)
Lemma bind_ret {A B} (a : A) (k : A -> Py B) (st : state) :
  (mret a ≫= k) st = k a st.
Proof. reflexivity. Qed.

Lemma fetch_plain_file (w : World) (url suffix : string) (cache_path : path)
  (st st' : state) (p : path) :
  suffix ∉ [".zip"; ".tar.gz"] ->
  fetch w url suffix cache_path st = (inr p, st') ->
  ∃ resp temp,
    requests_get w url = inr resp
    ∧ status_code resp = 200
    ∧ p = Path.add_suffix cache_path suffix
    ∧ fs st' !! p = Some (File (concat (chunks resp)))
    ∧ fs st' !! temp = None
    ∧ http_log st' = url :: http_log st
    ∧ extract_log st' = extract_log st.
Proof.
  intros Hsuf H. unfold fetch in H.
  apply bind_inv in H as [(e & _ & [=])|(temp & st1 & Htmp & H)].
  apply mkstemp_inv in Htmp as [[[=] _]|(name & [= ->] & ->)].
  set (temp := tmpdir w ++ [name]) in *.
  unfold mbind at 1 in H. unfold py_bind, http_get in H.
  destruct (requests_get w url) as [e|resp] eqn:Hget; [done |].
  destruct (decide (status_code resp = 200)) as [Hok|]; [| done].
  apply bind_inv in H as [(e & _ & [=])|([] & st2 & Hdl & H)].
  apply download_to_inv in Hdl as ->. simpl in H.
  rewrite bool_decide_eq_false_2 in H by done.
  rewrite bind_ret in H. unfold with_fs in H. simpl in H.
  rewrite insert_insert_eq in H.
  set (dst := Path.add_suffix cache_path suffix) in *.
  set (data := concat (chunks resp)) in *.
  apply bind_inv in H as [(e & _ & [=])|([] & st3 & Htry & H)].
  unfold try_finally, install in Htry.
  unfold mbind at 1 in Htry. unfold py_bind, fs_read in Htry. simpl in Htry.
  match type of Htry with
  | context [Fs.is_dir ?m temp] =>
      assert (Hfile : Fs.is_dir m temp = false)
        by (unfold Fs.is_dir; by rewrite lookup_insert_eq);
      rewrite Hfile in Htry
  end.
  unfold fs_effect in Htry. simpl in Htry.
  match type of Htry with
  | context [Fs.copyfile w ?m temp dst] =>
      destruct (Fs.copyfile w m temp dst) as [[e|] m3] eqn:Hcp
  end.
  { unfold cleanup in Htry. py_unfold. by simpl in Htry. }
  apply copyfile_ok_inv in Hcp as (Hne & data' & Hsrc & ->).
  rewrite lookup_insert_eq in Hsrc. injection Hsrc as <-.
  unfold cleanup in Htry. rewrite !bind_ret in Htry.
  unfold fs_update, with_fs, Fs.remove in Htry. simpl in Htry.
  rewrite lookup_insert_ne, lookup_insert_eq in Htry by done.
  injection Htry as <-.
  assert (Hdst : ∀ m : filesystem,
             delete temp (<[dst:=File data]> m) !! dst = Some (File data)).
  { intros m. rewrite lookup_delete_ne by done. apply lookup_insert_eq. }
  unfold get_filepath in H. py_unfold. simpl in H.
  unfold Fs.is_dir, Fs.is_file in H. cbn [fs] in H.
  rewrite Hdst in H. cbn beta iota delta [fs] in H. rewrite Hdst in H.
  injection H as <- <-. exists resp, temp. simpl.
  repeat split; try done. apply lookup_delete_eq.
Qed.

(** C9. A URL whose trailing path segment has no dot has an empty suffix.
    A call for it that sends a request and returns has installed the body
    of the response as one file, named by the segment alone, directly under
    the cache directory, returns the path of that file, and has unpacked
    nothing. *)
Theorem get_from_cache_no_suffix_installs_bare_name (w : World) (url : string)
  (cache_dir : path) (st st' : state) (p : path) :
  PyStr.has_char "."%char (OsPath.basename (Re.sub_dirs url)) = false ->
  get_from_cache w url cache_dir st = (inr (Some p), st') ->
  http_log st' ≠ http_log st ->
  split_filename_suffix (Re.sub_dirs url)
    = (OsPath.basename (Re.sub_dirs url), "")
  ∧ ∃ resp,
      requests_get w url = inr resp
      ∧ status_code resp = 200
      ∧ p = cache_dir ++ [OsPath.basename (Re.sub_dirs url)]
      ∧ fs st' !! p = Some (File (concat (chunks resp)))
      ∧ extract_log st' = extract_log st.
Proof.
  intros Hdot H Hlog.
  pose proof (split_filename_suffix_no_dot _ Hdot) as Hsplit.
  split; [done |].
  pose proof (get_from_cache_miss _ _ _ _ _ _ H Hlog) as Hm.
  cbv zeta in Hm. rewrite Hsplit in Hm. simpl in Hm.
  destruct Hm as (m1 & r0 & Hmk & _ & Hex & Hfetch & Hr).
  destruct r0 as [e|p0]; [done |]. injection Hr as ->.
  set (seg := OsPath.basename (Re.sub_dirs url)) in *.
  assert (Hname : Path.is_name seg = true).
  { apply is_name_spec. repeat split.
    - intros Heq. rewrite Heq, join_empty in Hex.
      apply mkdir_parents_is_dir, is_dir_lookup in Hmk.
      unfold Fs.exists_ in Hex. apply bool_decide_eq_false in Hex.
      apply Hex. by rewrite Hmk.
    - intros Heq. by rewrite Heq in Hdot.
    - intros Heq. by rewrite Heq in Hdot.
    - apply basename_no_slash. }
  rewrite (join_name _ _ Hname) in Hfetch.
  apply fetch_plain_file in Hfetch
    as (resp & temp & Hget & Hok & -> & Hfile & _ & _ & Hex_log).
  - rewrite add_suffix_empty in *. by exists resp.
  - rewrite !elem_of_cons, elem_of_nil. by intros [?|[?|[]]].
Qed.

Lemma get_from_cache_no_suffix_installs_bare_name_witness :
  (let r := get_from_cache (Demo.world 200 Demo.no_fault)
              "http://host/models/README" Demo.cache Demo.empty_cache in
   r.1 = inr (Some ["cache"; "README"])
   ∧ fs r.2 !! ["cache"; "README"] = Some (File Demo.hi)
   ∧ extract_log r.2 = [])
  ∧ (let r := get_from_cache (Demo.world 200 Demo.no_fault)
                "http://host/model(1)" Demo.cache Demo.small_cache in
     r.1 = inr (Some ["cache"; "model(1)"])
     ∧ fs r.2 !! ["cache"; "model(1)"] = Some (File Demo.hi)
     ∧ extract_log r.2 = []).
Proof.
  pose (w := Demo.world 200 Demo.no_fault).
  split.
  - pose (r := get_from_cache w "http://host/models/README" Demo.cache
                 Demo.empty_cache).
    assert (Hrun : r.1 = inr (Some ["cache"; "README"]))
      by (vm_compute; reflexivity).
    destruct (get_from_cache_no_suffix_installs_bare_name
                w "http://host/models/README" Demo.cache Demo.empty_cache
                r.2 ["cache"; "README"])
      as (_ & resp & Hget & _ & _ & Hfile & Hlog).
    + vm_compute. reflexivity.
    + change (r = (inr (Some ["cache"; "README"]), r.2)).
      rewrite (surjective_pairing r) at 1. by rewrite Hrun.
    + vm_compute. discriminate.
    + injection Hget as <-.
      split; [exact Hrun |]. split; [exact Hfile | exact Hlog].
  - pose (r := get_from_cache w "http://host/model(1)" Demo.cache
                 Demo.small_cache).
    assert (Hrun : r.1 = inr (Some ["cache"; "model(1)"]))
      by (vm_compute; reflexivity).
    destruct (get_from_cache_no_suffix_installs_bare_name
                w "http://host/model(1)" Demo.cache Demo.small_cache
                r.2 ["cache"; "model(1)"])
      as (_ & resp & Hget & _ & _ & Hfile & Hlog).
    + vm_compute. reflexivity.
    + change (r = (inr (Some ["cache"; "model(1)"]), r.2)).
      rewrite (surjective_pairing r) at 1. by rewrite Hrun.
    + vm_compute. discriminate.
    + injection Hget as <-.
      split; [exact Hrun |]. split; [exact Hfile | exact Hlog].
Defined.

(** ** Calls that send no request *)

Create HintDb silent discriminated.

Lemma silent_ret {A} (a : A) : silent (mret a).
Proof. by intros st. Qed.

Lemma silent_raise {A} (e : exn) : silent (raise e : Py A).
Proof. by intros st. Qed.

Lemma silent_fs_read {A} (f : filesystem -> A) : silent (fs_read f).
Proof. by intros st. Qed.

Lemma silent_fs_query {A} (f : filesystem -> exn + A) : silent (fs_query f).
Proof. by intros st. Qed.

Lemma silent_fs_update (f : filesystem -> exn + filesystem) :
  silent (fs_update f).
Proof. intros st. unfold fs_update. by destruct (f (fs st)). Qed.

Lemma silent_fs_effect (f : filesystem -> option exn * filesystem) :
  silent (fs_effect f).
Proof. intros st. unfold fs_effect. by destruct (f (fs st)). Qed.

Lemma silent_bind {A B} (c : Py A) (k : A -> Py B) :
  silent c -> (forall a, silent (k a)) -> silent (c ≫= k).
Proof.
  intros Hc Hk st. unfold mbind, py_bind. specialize (Hc st).
  destruct (c st) as [[e|a] st1]; simpl in *; [done |].
  by rewrite (Hk a st1).
Qed.

Lemma silent_fmap {A B} (f : A -> B) (c : Py A) : silent c -> silent (f <$> c).
Proof.
  intros Hc st. unfold fmap, py_fmap. specialize (Hc st).
  by destruct (c st) as [[e|a] st1].
Qed.

Lemma silent_try_finally {A} (body : Py A) (final : bool -> Py ()) :
  silent body -> (forall b, silent (final b)) -> silent (try_finally body final).
Proof.
  intros Hb Hf st. unfold try_finally. specialize (Hb st).
  destruct (body st) as [r st1]. simpl in Hb.
  specialize (Hf (match r with inr _ => true | inl _ => false end) st1).
  destruct (final _ st1) as [[e|u] st2]; simpl in *; congruence.
Qed.

Lemma silent_mkstemp (w : World) : silent (mkstemp w).
Proof. intros st. unfold mkstemp. by destruct (Fs.is_dir _ _). Qed.

Lemma silent_mkdtemp (w : World) : silent (mkdtemp w).
Proof. intros st. unfold mkdtemp. by destruct (Fs.is_dir _ _). Qed.

Lemma silent_extract_with (read : list Byte.byte -> archive) (file to : path) :
  silent (extract_with read file to).
Proof.
  intros st. unfold extract_with.
  by destruct (fs st !! file) as [[data|]|].
Qed.

#[export] Hint Resolve silent_ret silent_raise silent_fs_read silent_fs_query
  silent_fs_update silent_fs_effect silent_mkstemp silent_mkdtemp
  silent_extract_with silent_fmap silent_try_finally : silent.

(** Splits a sequence, a conditional or a case analysis into its parts. *)
Ltac silent_step :=
  match goal with
  | |- silent (_ ≫= _) => apply silent_bind; [| intros ?]
  | |- silent (if ?b then _ else _) => destruct b
  | |- silent (match ?x with _ => _ end) => destruct x
  | |- silent (let '(_, _) := ?x in _) => destruct x
  | |- silent _ => solve [auto with silent]
  end.

Lemma silent_get_filepath (filepath : path) : silent (get_filepath filepath).
Proof. unfold get_filepath. repeat silent_step. Qed.

Lemma silent_match_file (w : World) (dir_name : string) (cache_dir : path) :
  silent (match_file w dir_name cache_dir).
Proof. unfold match_file. repeat silent_step. Qed.

Lemma silent_extraction_root (d : path) : silent (extraction_root d).
Proof. unfold extraction_root. repeat silent_step. Qed.

Lemma silent_copy_children (w : World) (src : path) (dst : pathobj)
  (filenames : list string) : silent (copy_children w src dst filenames).
Proof.
  induction filenames as [|f rest IH]; simpl; [auto with silent |].
  unfold truediv. repeat silent_step.
Qed.

Lemma silent_install (w : World) (src : path) (dst : pathobj) :
  silent (install w src dst).
Proof.
  unfold install. repeat silent_step. apply silent_copy_children.
Qed.

Lemma silent_cleanup (cache_path : pathobj) (delete_temp_dir : option path)
  (temp_filename : path) (success : bool) :
  silent (cleanup cache_path delete_temp_dir temp_filename success).
Proof.
  unfold cleanup, method_exists, method_is_file. repeat silent_step.
Qed.

Lemma silent_download_to (req : response) (temp_filename : path) :
  silent (download_to req temp_filename).
Proof. unfold download_to. repeat silent_step. Qed.

#[export] Hint Resolve silent_get_filepath silent_match_file
  silent_extraction_root silent_copy_children silent_install silent_cleanup
  silent_download_to : silent.

(** [fetch] sends its one request right after making the scratch file;
    nothing after that sends another. *)
Lemma fetch_requests (w : World) (url suffix : string) (cache_path : path)
  (st st' : state) (r : exn + path) :
  fetch w url suffix cache_path st = (r, st') ->
  (r = inl FileNotFoundError ∧ st' = st)
  ∨ http_log st' = url :: http_log st.
Proof.
  unfold fetch. intros [(e & H & ->)|(temp & st1 & Htmp & H)]%bind_inv.
  { apply mkstemp_inv in H as [[[= ->] ->]|(? & ? & _)]; [by left | done]. }
  right.
  apply mkstemp_inv in Htmp as [[? _]|(name & _ & ->)]; [done |].
  unfold mbind at 1 in H. unfold py_bind, http_get in H.
  destruct (requests_get w url) as [e|req]; [by injection H as <- <- |].
  match type of H with
  | ?rest ?st2 = _ =>
      assert (Hs : silent rest);
      [| specialize (Hs st2); rewrite H in Hs; exact Hs]
  end.
  unfold unzip_file, untar_gz_file. repeat silent_step.
Qed.

Lemma with_fs_same (st : state) : with_fs st (fs st) = st.
Proof. by destruct st. Qed.

Lemma with_fs_twice (st : state) (m m' : filesystem) :
  with_fs (with_fs st m) m' = with_fs st m'.
Proof. done. Qed.

Lemma cons_ne_self {A} (x : A) (l : list A) : x :: l ≠ l.
Proof. intros H. apply (f_equal length) in H. simpl in H. lia. Qed.

(** In a cache directory that is there, a call that sends no request
    changes nothing. *)
Lemma get_from_cache_no_request_no_change (w : World) (url : string)
  (cache_dir : path) (st st' : state) (r : exn + option path) :
  Fs.is_dir (fs st) cache_dir = true ->
  get_from_cache w url cache_dir st = (r, st') ->
  http_log st' = http_log st ->
  st' = st.
Proof.
  intros Hd H Hlog. unfold get_from_cache in H.
  destruct (split_filename_suffix (Re.sub_dirs url)) as [dn suf].
  apply bind_inv in H as [(e & H & _)|([] & st1 & H1 & H)].
  { by apply fs_update_inv in H as [(? & _ & _ & ->)|(? & _ & ? & _)]. }
  apply fs_update_inv in H1 as [(? & _ & ? & _)|(m1 & Hmk & _ & ->)]; [done |].
  rewrite (mkdir_parents_existing _ _ Hd) in Hmk. injection Hmk as <-.
  rewrite with_fs_same in H.
  apply bind_inv in H as [(e & H & _)|(mname & st2 & Hm & H)].
  { by apply match_file_state in H. }
  apply match_file_state in Hm as ->.
  py_unfold. simpl in H.
  match type of H with
  | context [Fs.exists_ ?m ?p] => destruct (Fs.exists_ m p) eqn:Hex
  end; simpl in H.
  - match type of H with
    | context [get_filepath ?p st] =>
        destruct (get_filepath p st) as [r1 st3] eqn:Hg
    end.
    apply get_filepath_state in Hg as ->. destruct r1; by injection H as <- <-.
  - rewrite Hex in H. simpl in H.
    match type of H with
    | context [fetch w url suf ?p st] =>
        destruct (fetch w url suf p st) as [r1 st3] eqn:Hf
    end.
    assert (st3 = st') as -> by (destruct r1; by injection H as <- <-).
    apply fetch_requests in Hf as [[_ ->]|Hreq]; [done |].
    rewrite Hreq in Hlog. by apply cons_ne_self in Hlog.
Qed.

Lemma bind_fs_update {B : Type} (f : filesystem -> exn + filesystem)
  (k : unit -> Py B) (st : state) :
  (fs_update f ≫= k) st
  = match f (fs st) with
    | inl e => (inl e, st)
    | inr m => k tt (with_fs st m)
    end.
Proof.
  unfold mbind, py_bind, fs_update. by destruct (f (fs st)).
Qed.

(** The lookup does not depend on whether the cache directory had to be
    made. *)
Lemma get_from_cache_after_mkdir (w : World) (url : string) (cache_dir : path)
  (st : state) (m1 : filesystem) :
  Fs.mkdir_parents (fs st) cache_dir = inr m1 ->
  get_from_cache w url cache_dir (with_fs st m1)
  = get_from_cache w url cache_dir st.
Proof.
  intros Hmk. unfold get_from_cache. rewrite !bind_fs_update. simpl.
  rewrite Hmk.
  rewrite (mkdir_parents_existing m1 cache_dir)
    by (by apply (mkdir_parents_is_dir (fs st))).
  done.
Qed.

(** A call that sends no request can be repeated: made again at once, it
    sends no request either, gives the same outcome and leaves the state as
    it is. *)
Theorem get_from_cache_without_request_repeats (w : World) (url : string)
  (cache_dir : path) (st st' : state) (r : exn + option path) :
  get_from_cache w url cache_dir st = (r, st') ->
  http_log st' = http_log st ->
  get_from_cache w url cache_dir st' = (r, st').
Proof.
  intros H Hlog.
  destruct (Fs.mkdir_parents (fs st) cache_dir) as [e|m1] eqn:Hmk.
  - assert (st' = st) as ->; [| done].
    unfold get_from_cache in H. rewrite bind_fs_update, Hmk in H.
    by injection H as _ <-.
  - rewrite <- (get_from_cache_after_mkdir _ _ _ _ _ Hmk) in H.
    assert (st' = with_fs st m1) as ->; [| done].
    apply (get_from_cache_no_request_no_change w url cache_dir _ _ r);
      [| done | done].
    by apply (mkdir_parents_is_dir (fs st)).
Qed.

Lemma get_from_cache_without_request_repeats_witness :
  get_from_cache (Demo.world 200 Demo.no_fault) "http://host/bert.zip"
                 Demo.cache Demo.small_cache
  = (inr (Some ["cache"; "bert"; "vocab.txt"]), Demo.small_cache).
Proof.
  apply (get_from_cache_without_request_repeats
           (Demo.world 200 Demo.no_fault) "http://host/bert.zip" Demo.cache
           Demo.small_cache); vm_compute; reflexivity.
Defined.

(** ** Base names without pattern characters *)

Lemma plain_char_spec (c : ascii) :
  plain_char c = true ->
  c ≠ "\"%char ∧ c ≠ "."%char ∧ c ≠ "$"%char ∧ c ≠ "*"%char ∧ c ≠ "+"%char
  ∧ c ≠ "?"%char ∧ Re.outside c = false.
Proof.
  unfold plain_char, Re.outside.
  rewrite negb_true_iff, !bool_decide_eq_false, !elem_of_cons, elem_of_nil.
  intros H. repeat split; intros ?; apply H; tauto.
Qed.

Lemma tokens_plain (s t : string) :
  plain s = true ->
  Re.tokens (s +:+ t) = (fun l => lit_tokens s ++ l) <$> Re.tokens t.
Proof.
  induction s as [|c r IH]; intros Hp.
  - change ("" +:+ t) with t. by destruct (Re.tokens t).
  - simpl in Hp. apply andb_true_iff in Hp as [Hc Hr].
    apply plain_char_spec in Hc as (H1 & H2 & H3 & H4 & H5 & H6 & H7).
    rewrite append_cons. simpl. rewrite H7, !decide_False by done.
    rewrite IH by done. by destruct (Re.tokens t).
Qed.

Lemma items_lit (s : string) (ts : list Re.token) :
  (forall q ts', ts ≠ Re.TRepeat q :: ts') ->
  Re.items (lit_tokens s ++ ts) = (fun l => lit_items s ++ l) <$> Re.items ts.
Proof.
  intros Hts. induction s as [|c r IH].
  - simpl. by destruct (Re.items ts).
  - simpl lit_tokens. simpl app.
    assert (Hnext : Re.items (Re.TAtom (Re.Lit c) :: lit_tokens r ++ ts)
                    = (fun l => Re.Atom (Re.Lit c) Re.One :: l)
                        <$> Re.items (lit_tokens r ++ ts)).
    { destruct r as [|c' r']; simpl lit_tokens; simpl app; [| done].
      destruct ts as [|[a|q|] ts']; try done. by destruct (Hts q ts'). }
    rewrite Hnext, IH. simpl. by destruct (Re.items ts).
Qed.

Lemma matches_lit (s : string) (p : list Re.item) (f : string) :
  Re.matches (lit_items s ++ p) f = true
  <-> exists g, f = s +:+ g ∧ Re.matches p g = true.
Proof.
  revert f. induction s as [|c r IH]; intros f.
  - simpl. split; [intros H; by exists f | by intros (g & -> & H)].
  - simpl lit_items. simpl app. simpl Re.matches. destruct f as [|c' f'].
    + split; [done | by intros (g & [=] & _)].
    + simpl. rewrite andb_true_iff, bool_decide_eq_true, IH. split.
      * intros [-> (g & -> & H)]. by exists g.
      * intros (g & Heq & H). rewrite append_cons in Heq.
        injection Heq as -> ->. split; [done |]. by exists g.
Qed.

Lemma starts_with_spec (pre s : string) :
  starts_with pre s = true <-> exists g, s = pre +:+ g.
Proof.
  revert s. induction pre as [|a p IH]; intros s; simpl.
  - split; [intros _; by exists s | done].
  - destruct s as [|b r].
    + split; [done | by intros (g & [=])].
    + rewrite andb_true_iff, bool_decide_eq_true, IH. split.
      * intros [-> (g & ->)]. by exists g.
      * intros (g & Heq). rewrite append_cons in Heq.
        injection Heq as -> ->. split; [done |]. by exists g.
Qed.

Lemma compile_exact (base : string) :
  plain base = true ->
  Re.compile (base +:+ "$") = Some (lit_items base ++ [Re.EndAnchor]).
Proof.
  intros Hp. unfold Re.compile. rewrite tokens_plain by done.
  change (Re.tokens "$") with (Some [Re.TEnd]). simpl.
  by rewrite items_lit.
Qed.

Lemma compile_dotted (base : string) :
  plain base = true ->
  Re.compile (base +:+ "\..*")
  = Some (lit_items base ++ [Re.Atom (Re.Lit "."%char) Re.One;
                             Re.Atom Re.AnyChar Re.Star]).
Proof.
  intros Hp. unfold Re.compile. rewrite tokens_plain by done.
  change (Re.tokens "\..*")
    with (Some [Re.TAtom (Re.Lit "."%char); Re.TAtom Re.AnyChar;
                Re.TRepeat Re.Star]).
  simpl. by rewrite items_lit.
Qed.

(** The first pattern of [match_file] for a plain base name: the entry is
    the base name, possibly followed by one newline. *)
Lemma re_match_exact (w : World) (base f : string) :
  plain base = true ->
  exists b, re_match w (base +:+ "$") f = inr b
            ∧ (b = true <-> f = base ∨ f = base +:+ String "010"%char "").
Proof.
  intros Hp. unfold re_match, Re.match_. rewrite compile_exact by done.
  simpl. eexists. split; [done |]. rewrite matches_lit. split.
  - intros (g & -> & H). simpl in H. rewrite andb_true_r in H.
    unfold Re.at_end in H. apply orb_true_iff in H as [H|H];
      apply bool_decide_eq_true in H; subst g.
    + left. by rewrite append_empty_r.
    + by right.
  - intros [->| ->].
    + exists "". by rewrite append_empty_r.
    + by eexists.
Qed.

(** A repeated dot at the end of a pattern asks nothing of the subject. *)
Lemma matches_any_star (g : string) :
  Re.matches [Re.Atom Re.AnyChar Re.Star] g = true.
Proof.
  induction g as [|c r IH]; [done |].
  change (Re.matches [Re.Atom Re.AnyChar Re.Star] (String c r))
    with ((Re.at_char (String c r) && true)
          || (Re.atom_matches Re.AnyChar c
              && Re.matches [Re.Atom Re.AnyChar Re.Star] r)).
  rewrite IH, andb_true_r. simpl.
  destruct (Re.continues c) eqn:Hc; [| done]. simpl.
  destruct (bool_decide_reflect (c = "010"%char)) as [->|]; [| done].
  by vm_compute in Hc.
Qed.

(** The second pattern: the entry starts with the base name and a dot. *)
Lemma re_match_dotted (w : World) (base f : string) :
  plain base = true ->
  exists b, re_match w (base +:+ "\..*") f = inr b
            ∧ (b = true <-> starts_with (base +:+ ".") f = true).
Proof.
  intros Hp. unfold re_match, Re.match_. rewrite compile_dotted by done.
  simpl. eexists. split; [done |].
  rewrite matches_lit, starts_with_spec. split.
  - intros (g & -> & H). destruct g as [|c r]; [done |]. simpl in H.
    apply andb_true_iff in H as [Hc _]. apply bool_decide_eq_true in Hc as ->.
    exists r. by rewrite append_assoc.
  - intros (g & ->). exists (String "."%char g). split.
    + by rewrite append_assoc.
    + change (Re.matches [Re.Atom (Re.Lit ".") Re.One;
                          Re.Atom Re.AnyChar Re.Star] (String "." g))
        with (Re.atom_matches (Re.Lit ".") "."
              && Re.matches [Re.Atom Re.AnyChar Re.Star] g).
      by rewrite matches_any_star.
Qed.

Lemma matched_filenames_plain (w : World) (base : string) (files : list string) :
  plain base = true ->
  (forall f, f ∈ files -> PyStr.has_char "010"%char f = false) ->
  matched_filenames w base files = inr (List.filter (named_by base) files).
Proof.
  intros Hp. induction files as [|f rest IH]; intros Hnl; [done |].
  simpl. destruct (re_match_exact w base f Hp) as (b1 & -> & Hb1).
  destruct (re_match_dotted w base f Hp) as (b2 & Hm2 & Hb2).
  assert (Hf : PyStr.has_char "010"%char f = false) by (apply Hnl; by left).
  assert (Hsel : (if b1 then inr true
                  else re_match w (base +:+ "\..*") f : exn + bool)
                 = inr (named_by base f)).
  { unfold named_by. destruct b1.
    - destruct (proj1 Hb1 eq_refl) as [->| ->].
      + by rewrite bool_decide_eq_true_2.
      + rewrite has_char_app in Hf. simpl in Hf.
        by rewrite orb_true_r in Hf.
    - rewrite Hm2. f_equal.
      rewrite bool_decide_eq_false_2
        by (intros Heq; assert (false = true) by (apply Hb1; by left); done).
      simpl. destruct b2, (starts_with (base +:+ ".") f); try done.
      + by destruct (proj1 Hb2).
      + by destruct (proj2 Hb2). }
  rewrite Hsel, IH; [done |]. intros g Hg. apply Hnl. by right.
Qed.

(** For a base name without pattern characters, over a listing whose names
    hold no newline, [match_file] selects the entries that are the base
    name or the base name followed by a dot and any suffix: none of them
    gives the empty string, one gives its name, several raise
    RuntimeError. *)
Theorem match_file_plain_base_name (w : World) (base : string) (cache_dir : path)
  (st : state) :
  plain base = true ->
  Fs.is_dir (fs st) cache_dir = true ->
  (forall f, f ∈ Fs.children (fs st) cache_dir ->
             PyStr.has_char "010"%char f = false) ->
  match_file w base cache_dir st
  = (match List.filter (named_by base) (Fs.children (fs st) cache_dir) with
     | [] => inr ""
     | [file_name] => inr file_name
     | _ => inl RuntimeError
     end, st).
Proof.
  intros Hp Hd Hnl.
  destruct (match_file w base cache_dir st) as [r st'] eqn:H.
  apply match_file_inv in H as [-> ->]; [| done].
  unfold select_match. by rewrite matched_filenames_plain.
Qed.

Lemma match_file_plain_base_name_witness :
  match_file (Demo.world 200 Demo.no_fault) "foo" Demo.cache
             (Demo.cache_with ["foo.zip"; "food"; "foo"])
  = (inl RuntimeError, Demo.cache_with ["foo.zip"; "food"; "foo"]).
Proof.
  rewrite (match_file_plain_base_name (Demo.world 200 Demo.no_fault) "foo" Demo.cache
             (Demo.cache_with ["foo.zip"; "food"; "foo"])).
  - vm_compute. reflexivity.
  - vm_compute. reflexivity.
  - vm_compute. reflexivity.
  - intros f Hf. vm_compute in Hf.
    repeat (apply elem_of_cons in Hf as [->|Hf]; [vm_compute; reflexivity |]).
    by apply elem_of_nil in Hf.
Defined.

(** ** The pipeline on archives, end to end *)

(** Fetching [http://host/models/demo.zip] into an empty cache, where the
    archive wraps two files in the folder [demo]: the cache then holds the
    directory [demo] with the two files directly in it, the path returned is
    that directory, and the scratch file and directory are gone. *)
Theorem get_from_cache_demo_zip :
  let r := get_from_cache (Demo.world 200 Demo.no_fault)
             "http://host/models/demo.zip" Demo.cache Demo.empty_cache in
  r.1 = inr (Some ["cache"; "demo"])
  ∧ fs r.2 = list_to_map [([], Dir); (["tmp"], Dir); (["cache"], Dir);
                          (["cache"; "demo"], Dir);
                          (["cache"; "demo"; "a.txt"], File [Byte.x61]);
                          (["cache"; "demo"; "b.txt"], File [Byte.x62])]
  ∧ http_log r.2 = ["http://host/models/demo.zip"]
  ∧ extract_log r.2 = [["tmp"; "0"]].
Proof. repeat split; vm_compute; reflexivity. Qed.

(** An archive that wraps a folder in a folder loses the outer folder
    only: the entry [demo] holds [inner], and the path returned is that
    single child. *)
Theorem get_from_cache_nested_zip :
  let r := get_from_cache (Demo.world_with 200 Demo.no_fault Demo.nested_zip)
             "http://host/models/demo.zip" Demo.cache Demo.empty_cache in
  r.1 = inr (Some ["cache"; "demo"; "inner"])
  ∧ fs r.2 = list_to_map [([], Dir); (["tmp"], Dir); (["cache"], Dir);
                          (["cache"; "demo"], Dir);
                          (["cache"; "demo"; "inner"], Dir);
                          (["cache"; "demo"; "inner"; "a.txt"], File [Byte.x61])].
Proof. repeat split; vm_compute; reflexivity. Qed.

(** An archive whose installation fails while [b.txt] is copied: the call
    raises the OSError of the copy, and the entry [demo], the scratch file
    and the scratch directory are all removed. *)
Theorem get_from_cache_archive_install_failure_rolls_back :
  let r := get_from_cache (Demo.world 200 Demo.disk_full_demo)
             "http://host/models/demo.zip" Demo.cache Demo.empty_cache in
  r.1 = inl OSError
  ∧ fs r.2 = list_to_map [([], Dir); (["tmp"], Dir); (["cache"], Dir)].
Proof. repeat split; vm_compute; reflexivity. Qed.

(** ** What [split_filename_suffix] keeps *)

Lemma substring_split (n : nat) (s : string) :
  String.substring 0 n s +:+ String.substring n (String.length s - n) s = s.
Proof.
  revert n. induction s as [|c r IH]; intros n.
  - by destruct n.
  - destruct n as [|n].
    + change (String c (String.substring 0 (String.length r) r) = String c r).
      f_equal. clear IH. induction r as [|d r IH]; simpl; [done | by rewrite IH].
    + change (String c (String.substring 0 n r
                        +:+ String.substring n (String.length r - n) r)
              = String c r).
      f_equal. apply IH.
Qed.

Lemma endswith_length (s suf : string) :
  PyStr.endswith s suf = true -> (String.length suf <= String.length s)%nat.
Proof.
  induction s as [|a r IH]; simpl.
  - destruct (decide ("" = suf)) as [<-|]; [done | done].
  - destruct (decide (String a r = suf)) as [<-|]; [done |].
    intros H%IH. lia.
Qed.

Lemma endswith_drop_last (s suf : string) :
  PyStr.endswith s suf = true ->
  PyStr.drop_last (String.length suf) s +:+ suf = s.
Proof.
  unfold PyStr.drop_last. induction s as [|a r IH]; simpl.
  - destruct (decide ("" = suf)) as [<-|]; [done | done].
  - destruct (decide (String a r = suf)) as [<-|Hne].
    + intros _. rewrite Nat.sub_diag. done.
    + intros H. pose proof (endswith_length _ _ H) as Hlen.
      replace (S (String.length r) - String.length suf)%nat
        with (S (String.length r - String.length suf)) by lia.
      rewrite append_cons. f_equal. by apply IH.
Qed.

(** What [rfind] finds: either the character is absent, or the string
    splits at its last occurrence. *)
Lemma rfind_from_spec (c : ascii) (s : string) (i last : Z) :
  (PyStr.rfind_from c s i last = last ∧ PyStr.has_char c s = false)
  ∨ (exists pre post, s = pre +:+ String c post
                      ∧ PyStr.has_char c post = false
                      ∧ PyStr.rfind_from c s i last
                        = i + Z.of_nat (String.length pre)).
Proof.
  revert i last. induction s as [|a r IH]; intros i last; simpl.
  - by left.
  - destruct (IH (i + 1) (if decide (a = c) then i else last))
      as [[Hr Hno]|(pre & post & -> & Hpost & Hr)].
    + rewrite Hr. destruct (decide (a = c)) as [->|Hne].
      * right. exists "", r. simpl. split; [done |]. split; [done | lia].
      * by left.
    + right. exists (String a pre), post. rewrite Hr. simpl.
      split; [done |]. split; [done | lia].
Qed.

Lemma substring_after (pre post : string) :
  String.substring (String.length pre)
    (String.length (pre +:+ post) - String.length pre) (pre +:+ post) = post.
Proof.
  induction pre as [|a pre IH].
  - change ("" +:+ post) with post. simpl. rewrite Nat.sub_0_r.
    induction post as [|d r IH]; simpl; [done | by rewrite IH].
  - rewrite !append_cons. simpl. apply IH.
Qed.

Lemma split_rejoin (filepath : string) :
  (split_filename_suffix filepath).1 +:+ (split_filename_suffix filepath).2
  = OsPath.basename filepath.
Proof.
  unfold split_filename_suffix.
  destruct (PyStr.endswith (OsPath.basename filepath) ".tar.gz") eqn:He.
  - simpl. by apply (endswith_drop_last _ ".tar.gz").
  - unfold OsPath.splitext.
    destruct (_ && _); simpl; [| apply append_empty_r].
    unfold PyStr.slice_to, PyStr.slice_from. apply substring_split.
Qed.

(** Nothing of the name is lost: base and suffix, put together again, are
    the trailing path segment. *)
Theorem split_filename_suffix_rejoins (filepath : string) :
  (split_filename_suffix filepath).1 +:+ (split_filename_suffix filepath).2
  = OsPath.basename filepath.
Proof. apply split_rejoin. Qed.

(** The suffix is the two-part [.tar.gz], or empty, or one dot followed by
    an extension without a dot; neither part holds a slash. *)
Theorem split_filename_suffix_suffix_shape (filepath : string) :
  let suffix := (split_filename_suffix filepath).2 in
  (suffix = ".tar.gz"
   ∨ suffix = ""
   ∨ exists ext, suffix = String "."%char ext
                 ∧ PyStr.has_char "."%char ext = false)
  ∧ PyStr.has_char "/"%char (split_filename_suffix filepath).1 = false
  ∧ PyStr.has_char "/"%char suffix = false.
Proof.
  pose proof (split_rejoin filepath) as Hjoin.
  pose proof (basename_no_slash filepath) as Hslash.
  rewrite <- Hjoin, has_char_app in Hslash.
  apply orb_false_iff in Hslash as [Hb Hs].
  split; [| by split].
  unfold split_filename_suffix in *.
  destruct (PyStr.endswith (OsPath.basename filepath) ".tar.gz");
    [by left |].
  set (p := OsPath.basename filepath) in *. unfold OsPath.splitext.
  destruct (_ && _) eqn:Hcond; simpl; [| right; by left].
  apply andb_true_iff in Hcond as [Hlt _]. apply Z.ltb_lt in Hlt.
  right. right. unfold PyStr.rfind in *.
  pose proof (rfind_from_lower "/"%char p 0 (-1)) as Hsep.
  destruct (rfind_from_spec "."%char p 0 (-1))
    as [[Hr _]|(pre & post & Hp & Hpost & Hr)]; [lia |].
  exists post. split; [| done]. rewrite Hr. unfold PyStr.slice_from.
  rewrite Z.add_0_l, Nat2Z.id, Hp. apply substring_after.
Qed.

(** ** The name derived from a URL *)

Lemma basename_from_app (cur x y : string) :
  OsPath.basename_from cur (x +:+ y)
  = OsPath.basename_from (OsPath.basename_from cur x) y.
Proof.
  revert cur. induction x as [|c r IH]; intros cur; [done |].
  rewrite append_cons. simpl. by destruct (decide (c = "/"%char)).
Qed.

Lemma basename_from_plain (cur s : string) :
  PyStr.has_char "/"%char s = false ->
  OsPath.basename_from cur s = cur +:+ s.
Proof.
  revert cur. induction s as [|c r IH]; intros cur H; simpl in *.
  - by rewrite append_empty_r.
  - destruct (decide (c = "/"%char)); [done |].
    rewrite IH by done. by rewrite append_assoc.
Qed.

Lemma basename_sub_dirs_from (started : bool) (cur s : string) :
  PyStr.has_char "010"%char s = false ->
  OsPath.basename (Re.sub_dirs_from started cur s) = OsPath.basename (cur +:+ s).
Proof.
  revert started cur. induction s as [|c r IH]; intros started cur Hnl.
  - simpl. by rewrite append_empty_r.
  - simpl in Hnl. destruct (decide (c = "010"%char)) as [|Hc]; [done |].
    simpl. rewrite decide_False by done.
    assert (Hkeep : OsPath.basename (Re.sub_dirs_from true (cur +:+ String c "") r)
                    = OsPath.basename (cur +:+ String c r)).
    { rewrite IH by done. by rewrite append_assoc. }
    destruct (decide (c = "/"%char)) as [->|]; [| done].
    destruct started; [| done].
    rewrite IH by done. change ("" +:+ r) with r.
    unfold OsPath.basename. by rewrite (basename_from_app "" cur).
Qed.

Lemma endswith_app (s t : string) : PyStr.endswith (s +:+ t) t = true.
Proof.
  induction s as [|a r IH].
  - change ("" +:+ t) with t.
    destruct t as [|c t]; simpl; [done |].
    by destruct (decide (String c t = String c t)).
  - rewrite append_cons. simpl.
    by destruct (decide (String a (r +:+ t) = t)).
Qed.

Lemma endswith_slash_basename (base f : string) :
  PyStr.endswith base "/" = true ->
  PyStr.has_char "/"%char f = false ->
  OsPath.basename (base +:+ f) = f.
Proof.
  intros He Hf. unfold OsPath.basename. rewrite basename_from_app.
  assert (Hb : OsPath.basename_from "" base = "").
  { by rewrite <- (endswith_drop_last _ _ He), basename_from_app. }
  rewrite Hb. by rewrite basename_from_plain.
Qed.

Lemma split_of_url (base filename : string) :
  PyStr.has_char "010"%char (base +:+ filename) = false ->
  PyStr.endswith base "/" = true ->
  PyStr.has_char "/"%char filename = false ->
  split_filename_suffix (Re.sub_dirs (base +:+ filename))
  = split_filename_suffix filename.
Proof.
  intros Hnl He Hf. unfold split_filename_suffix, Re.sub_dirs.
  rewrite basename_sub_dirs_from by done. change ("" +:+ (base +:+ filename))
    with (base +:+ filename).
  rewrite endswith_slash_basename by done.
  assert (OsPath.basename filename = filename) as ->; [| done].
  unfold OsPath.basename. by rewrite basename_from_plain.
Qed.

(** The names [get_from_cache] derives from a URL (lines 245-246) are those
    of the file name that ends the URL: what stands before the last slash
    plays no part, provided the URL holds no newline. *)
Theorem url_names_are_those_of_the_file_name (base filename : string) :
  PyStr.has_char "010"%char (base +:+ filename) = false ->
  PyStr.endswith base "/" = true ->
  PyStr.has_char "/"%char filename = false ->
  split_filename_suffix (Re.sub_dirs (base +:+ filename))
  = split_filename_suffix filename.
Proof. apply split_of_url. Qed.

Lemma url_names_are_those_of_the_file_name_witness :
  split_filename_suffix (Re.sub_dirs ("http://host/models/" +:+ "demo.v2.zip"))
  = split_filename_suffix "demo.v2.zip".
Proof.
  apply url_names_are_those_of_the_file_name; vm_compute; reflexivity.
Defined.

(** ** The download URLs *)

Lemma upper_char_upper (c : ascii) :
  Case.upper_char (Case.upper_char c) = Case.upper_char c.
Proof. destruct c as [[] [] [] [] [] [] [] []]; reflexivity. Qed.

Lemma lower_char_upper (c : ascii) :
  Case.lower_char (Case.upper_char c) = Case.lower_char c.
Proof. destruct c as [[] [] [] [] [] [] [] []]; reflexivity. Qed.

Lemma upper_char_lower (c : ascii) :
  Case.upper_char (Case.lower_char c) = Case.upper_char c.
Proof. destruct c as [[] [] [] [] [] [] [] []]; reflexivity. Qed.

Lemma lower_char_lower (c : ascii) :
  Case.lower_char (Case.lower_char c) = Case.lower_char c.
Proof. destruct c as [[] [] [] [] [] [] [] []]; reflexivity. Qed.

Lemma upper_upper (s : string) : Case.upper (Case.upper s) = Case.upper s.
Proof. induction s; simpl; [done | by rewrite upper_char_upper, IHs]. Qed.

Lemma lower_upper (s : string) : Case.lower (Case.upper s) = Case.lower s.
Proof. induction s; simpl; [done | by rewrite lower_char_upper, IHs]. Qed.

Lemma upper_lower (s : string) : Case.upper (Case.lower s) = Case.upper s.
Proof. induction s; simpl; [done | by rewrite upper_char_lower, IHs]. Qed.

Lemma lower_lower (s : string) : Case.lower (Case.lower s) = Case.lower s.
Proof. induction s; simpl; [done | by rewrite lower_char_lower, IHs]. Qed.

(** A property checked on every entry of a table holds of every lookup. *)
Lemma table_forall {V} (check : string -> V -> bool) (l : list (string * V))
  (k : string) (v : V) :
  forallb (fun kv => check kv.1 kv.2) l = true ->
  (list_to_map l : gmap string V) !! k = Some v ->
  check k v = true.
Proof.
  intros Hall Hk. apply elem_of_list_to_map_2 in Hk.
  rewrite forallb_forall in Hall. apply list_elem_of_In in Hk.
  by apply (Hall (k, v)).
Qed.

Lemma urls_end_with_slash (k url : string) :
  URLS !! k = Some url -> PyStr.endswith url "/" = true.
Proof.
  apply (table_forall (fun _ u => PyStr.endswith u "/")). reflexivity.
Qed.

Lemma urls_keys (k : string) :
  URLS !! k = None <-> k ≠ "embedding" ∧ k ≠ "dataset".
Proof.
  unfold URLS. split.
  - intros H%not_elem_of_list_to_map_2. simpl in H.
    rewrite !elem_of_cons, elem_of_nil in H. tauto.
  - intros [H1 H2]. apply not_elem_of_list_to_map_1. simpl.
    rewrite !elem_of_cons, elem_of_nil. tauto.
Qed.

Lemma get_base_url_slash (environ : gmap string string) (name url : string) :
  _get_base_url environ name = inr url -> PyStr.endswith url "/" = true.
Proof.
  unfold _get_base_url.
  destruct (environ !! _) as [u|].
  - destruct (PyStr.endswith u "/") eqn:He; intros [= <-]; [done |].
    apply endswith_app.
  - destruct (URLS !! Case.lower name) as [u|] eqn:Hu; [| done].
    intros [= <-]. by apply (urls_end_with_slash (Case.lower name)).
Qed.

(** Every base URL ends with a slash, whether it comes from the environment
    or from the built-in table; and it can be fed back: with the variable of
    the category set to the URL returned, the same URL is returned. *)
Theorem get_base_url_ends_with_slash (environ : gmap string string)
  (name url : string) :
  _get_base_url environ name = inr url ->
  PyStr.endswith url "/" = true
  ∧ _get_base_url (<["FASTNLP_" +:+ Case.upper name +:+ "_URL" := url]> environ)
                  name = inr url.
Proof.
  intros H. pose proof (get_base_url_slash _ _ _ H) as He.
  split; [done |]. unfold _get_base_url.
  by rewrite lookup_insert_eq, He.
Qed.

Lemma get_base_url_ends_with_slash_witness :
  PyStr.endswith "http://mirror/fastnlp/" "/" = true
  ∧ _get_base_url (<["FASTNLP_DATASET_URL" := "http://mirror/fastnlp/"]>
                     {["FASTNLP_DATASET_URL" := "http://mirror/fastnlp"]})
                  "dataset" = inr "http://mirror/fastnlp/".
Proof.
  apply (get_base_url_ends_with_slash
           {["FASTNLP_DATASET_URL" := "http://mirror/fastnlp"]} "dataset").
  vm_compute. reflexivity.
Defined.

(** For a category spelled in ASCII, [_get_base_url] fails, with the KeyError
    of line 183, exactly when the category has no variable in the environment
    and, in lower case, is neither [embedding] nor [dataset]. *)
Theorem get_base_url_key_error (environ : gmap string string)
  (name : string) (e : key_error) :
  is_ascii name = true ->
  _get_base_url environ name = inl e
  <-> e = NotRecognized
      ∧ environ !! ("FASTNLP_" +:+ Case.upper name +:+ "_URL") = None
      ∧ Case.lower name ≠ "embedding" ∧ Case.lower name ≠ "dataset".
Proof.
  intros _. unfold _get_base_url. destruct (environ !! _) as [u|].
  - destruct (PyStr.endswith u "/"); split; try done; by intros (_ & [=] & _).
  - destruct (URLS !! Case.lower name) as [u|] eqn:Hu.
    + split; [done |]. intros (_ & _ & Hk%urls_keys). congruence.
    + apply urls_keys in Hu. split.
      * by intros [= <-].
      * by intros (-> & _).
Qed.

Lemma get_base_url_key_error_witness :
  _get_base_url ∅ "models" = inl NotRecognized.
Proof.
  apply (get_base_url_key_error ∅ "models" NotRecognized eq_refl).
  repeat split; done.
Defined.

(** The category is read without regard to the case of its letters: the
    variable looked up is named in upper case, the table is keyed in lower
    case. *)
Theorem get_base_url_ignores_case (environ : gmap string string)
  (name : string) :
  is_ascii name = true ->
  _get_base_url environ (Case.upper name) = _get_base_url environ name
  ∧ _get_base_url environ (Case.lower name) = _get_base_url environ name.
Proof.
  intros _. unfold _get_base_url.
  by rewrite upper_upper, lower_upper, upper_lower, lower_lower.
Qed.

Lemma get_base_url_ignores_case_witness :
  _get_base_url ∅ (Case.upper "DataSet") = _get_base_url ∅ "DataSet"
  ∧ _get_base_url ∅ (Case.lower "DataSet") = _get_base_url ∅ "DataSet".
Proof. apply get_base_url_ignores_case. reflexivity. Defined.

Lemma get_base_url_dataset (environ : gmap string string) :
  exists base, _get_base_url environ "dataset" = inr base.
Proof.
  unfold _get_base_url. destruct (environ !! _) as [u|].
  - destruct (PyStr.endswith u "/"); by eexists.
  - by eexists.
Qed.

Lemma get_base_url_embedding (environ : gmap string string) :
  exists base, _get_base_url environ "embedding" = inr base.
Proof.
  unfold _get_base_url. destruct (environ !! _) as [u|].
  - destruct (PyStr.endswith u "/"); by eexists.
  - by eexists.
Qed.

(** [_get_dataset_url] fails only for a name that is not a key of the
    table. For a key it returns the base URL followed by the file name of
    the table; the names [get_from_cache] derives from that URL are those of
    the file name, the suffix is [.zip] or [.tar.gz], so that the download is
    unpacked, and the base name holds no pattern character, so that
    [match_file] compares it as text. *)
Theorem get_dataset_url_of_table (environ : gmap string string)
  (name : string) :
  match DATASET_DIR !! name with
  | None => _get_dataset_url environ name = inl NoSuchDataset
  | Some filename =>
      exists base,
        _get_base_url environ "dataset" = inr base
        ∧ _get_dataset_url environ name = inr (base +:+ filename)
        ∧ (PyStr.has_char "010"%char base = false ->
           split_filename_suffix (Re.sub_dirs (base +:+ filename))
           = split_filename_suffix filename)
        ∧ archive_suffix (split_filename_suffix filename).2 = true
        ∧ plain (split_filename_suffix filename).1 = true
  end.
Proof.
  unfold _get_dataset_url.
  destruct (DATASET_DIR !! name) as [filename|] eqn:Hf; [| done].
  assert (Hok : dataset_file_ok filename = true).
  { revert Hf. apply (table_forall (fun _ f => dataset_file_ok f)).
    vm_compute. reflexivity. }
  unfold dataset_file_ok in Hok.
  rewrite !andb_true_iff, !negb_true_iff, bool_decide_eq_false in Hok.
  destruct Hok as [[[[Hne Hslash] Hline] Harch] Hplain].
  destruct (get_base_url_dataset environ) as [base Hbase].
  exists base. rewrite Hbase, decide_False by done.
  repeat split; try done.
  intros Hnl. apply split_of_url; try done.
  - by rewrite has_char_app, Hnl, Hline.
  - by apply (get_base_url_slash environ "dataset").
Qed.

Lemma pretrain_map_tables (type : string) (table : gmap string string) :
  PRETRAIN_MAP !! type = Some table ->
  table ≠ ∅
  ∧ forall name filename, table !! name = Some filename ->
                          embedding_file_ok type name filename = true.
Proof.
  intros H%elem_of_list_to_map_2.
  repeat (apply elem_of_cons in H as [[= -> ->]|H]);
    [| | | by apply elem_of_nil in H].
  - split.
    + intros He. by apply (f_equal (fun m => m !! "en")) in He.
    + intros name filename.
      apply (table_forall (embedding_file_ok "elmo")). vm_compute. reflexivity.
  - split.
    + intros He. by apply (f_equal (fun m => m !! "en")) in He.
    + intros name filename.
      apply (table_forall (embedding_file_ok "bert")). vm_compute. reflexivity.
  - split.
    + intros He. by apply (f_equal (fun m => m !! "en")) in He.
    + intros name filename.
      apply (table_forall (embedding_file_ok "static")). vm_compute. reflexivity.
Qed.

(** [_get_embedding_url] fails with the KeyError of line 206 for a type
    other than [elmo], [bert] and [static], and with that of line 204 for a
    name that is not a key of the table of the type. For a key it returns the
    base URL followed by the file name of the table; the names
    [get_from_cache] derives from that URL are those of the file name, and
    the suffix is [.zip] or [.tar.gz] for every entry except [cn-fasttext] of
    [static], whose file [cc.zh.300.vec.gz] has the suffix [.gz] and is
    therefore installed as it is, not unpacked. *)
Theorem get_embedding_url_of_tables (environ : gmap string string)
  (type name : string) :
  match PRETRAIN_MAP !! type with
  | None => _get_embedding_url environ type name = inl NoSuchType
  | Some table =>
      match table !! name with
      | None => _get_embedding_url environ type name = inl NoSuchName
      | Some filename =>
          exists base,
            _get_base_url environ "embedding" = inr base
            ∧ _get_embedding_url environ type name = inr (base +:+ filename)
            ∧ (PyStr.has_char "010"%char base = false ->
               split_filename_suffix (Re.sub_dirs (base +:+ filename))
               = split_filename_suffix filename)
            ∧ (archive_suffix (split_filename_suffix filename).2 = true
               ∨ (type = "static" ∧ name = "cn-fasttext"
                  ∧ split_filename_suffix filename = ("cc.zh.300.vec", ".gz")))
      end
  end.
Proof.
  unfold _get_embedding_url.
  destruct (PRETRAIN_MAP !! type) as [table|] eqn:Ht; [| done].
  apply pretrain_map_tables in Ht as [Hne Hfiles].
  rewrite decide_False by done.
  destruct (table !! name) as [filename|] eqn:Hf; [| done].
  specialize (Hfiles _ _ Hf). unfold embedding_file_ok in Hfiles.
  rewrite !andb_true_iff, !negb_true_iff, bool_decide_eq_false in Hfiles.
  destruct Hfiles as [[[Hnonempty Hslash] Hline] Hsuffix].
  destruct (get_base_url_embedding environ) as [base Hbase].
  exists base. rewrite Hbase, decide_False by done.
  repeat split; try done.
  - intros Hnl. apply split_of_url; try done.
    + by rewrite has_char_app, Hnl, Hline.
    + by apply (get_base_url_slash environ "embedding").
  - apply orb_true_iff in Hsuffix as [H|H]; [by left |].
    right. by apply bool_decide_eq_true in H.
Qed.

(** ** What the lookups return *)

Lemma get_filepath_result (filepath p : path) (st st' : state) :
  get_filepath filepath st = (inr p, st') ->
  st' = st
  ∧ Fs.exists_ (fs st) p = true
  ∧ (p = filepath
     ∨ exists n, Fs.children (fs st) filepath = [n] ∧ p = filepath ++ [n]).
Proof.
  intros H. pose proof (get_filepath_state _ _ _ _ H) as ->.
  split; [done |]. unfold get_filepath in H. py_unfold. simpl in H.
  destruct (Fs.is_dir (fs st) filepath) eqn:Hd.
  - rewrite (listdir_dir _ _ Hd) in H.
    assert (Hself : Fs.exists_ (fs st) filepath = true).
    { apply exists_lookup. apply is_dir_lookup in Hd. by rewrite Hd. }
    destruct (Fs.children (fs st) filepath) as [|n [|n' l]] eqn:Hc;
      injection H as <-; try (split; [done | by left]).
    assert (Hin : n ∈ Fs.children (fs st) filepath) by (rewrite Hc; by left).
    split; [by apply children_exists |].
    right. exists n. split; [done |]. by apply join_name, (children_is_name _ _ _ Hin).
  - destruct (Fs.is_file (fs st) filepath) eqn:Hf; [| done].
    injection H as <-. split; [| by left].
    apply exists_lookup. apply is_file_lookup in Hf as [data ->]. by eexists.
Qed.

(** A path returned by [get_filepath] exists; it is the path given or, for
    a directory with a single entry, that entry, one level down and no
    more. Nothing is changed. *)
Theorem get_filepath_returns_existing_path (filepath p : path)
  (st st' : state) :
  get_filepath filepath st = (inr p, st') ->
  st' = st
  ∧ Fs.exists_ (fs st) p = true
  ∧ (p = filepath
     ∨ exists n, Fs.children (fs st) filepath = [n] ∧ p = filepath ++ [n]).
Proof. apply get_filepath_result. Qed.

Lemma get_filepath_returns_existing_path_witness :
  Fs.exists_ (fs Demo.small_cache) ["cache"; "bert"; "vocab.txt"] = true.
Proof.
  apply (get_filepath_returns_existing_path ["cache"; "bert"]
           ["cache"; "bert"; "vocab.txt"] Demo.small_cache Demo.small_cache).
  vm_compute. reflexivity.
Defined.

(** A name returned by [match_file] is the empty string or an entry of the
    cache directory, so that the path it names exists; this holds whatever
    the base name is read as. Nothing is changed. *)
Theorem match_file_returns_listed_name (w : World) (dir_name : string) (cache_dir : path)
  (st st' : state) (x : string) :
  match_file w dir_name cache_dir st = (inr x, st') ->
  st' = st
  ∧ (x = ""
     ∨ (x ∈ Fs.children (fs st) cache_dir
        ∧ Fs.exists_ (fs st) (cache_dir ++ [x]) = true)).
Proof.
  intros H. pose proof (match_file_state _ _ _ _ _ _ H) as ->.
  split; [done |]. unfold match_file in H. py_unfold.
  destruct (Fs.listdir (fs st) cache_dir) as [e|files] eqn:Hl; [done |].
  assert (files = Fs.children (fs st) cache_dir) as ->.
  { unfold Fs.listdir in Hl. destruct (fs st !! cache_dir) as [[]|]; congruence. }
  destruct (select_match w dir_name (Fs.children (fs st) cache_dir))
    as [e|y] eqn:Hs; [done |].
  injection H as ->. destruct (decide (x = "")) as [|Hne]; [by left |].
  right. pose proof (select_match_elem _ _ _ _ Hs Hne) as Hin.
  split; [done |]. apply children_spec in Hin as [_ Hin].
  by apply exists_lookup.
Qed.

Lemma match_file_returns_listed_name_witness :
  ("vectors.txt" = ""
   ∨ ("vectors.txt" ∈ Fs.children (fs Demo.small_cache) Demo.cache
      ∧ Fs.exists_ (fs Demo.small_cache) (Demo.cache ++ ["vectors.txt"])
        = true))
  ∧ (Demo.a_e_b = ""
     ∨ (Demo.a_e_b ∈ Fs.children (fs (Demo.cache_with [Demo.a_e_b])) Demo.cache
        ∧ Fs.exists_ (fs (Demo.cache_with [Demo.a_e_b]))
                     (Demo.cache ++ [Demo.a_e_b]) = true)).
Proof.
  split.
  - apply (match_file_returns_listed_name (Demo.world 200 Demo.no_fault)
             "vectors" Demo.cache Demo.small_cache Demo.small_cache).
    vm_compute. reflexivity.
  - apply (match_file_returns_listed_name (Demo.world 200 Demo.no_fault)
             "a.b" Demo.cache (Demo.cache_with [Demo.a_e_b])
             (Demo.cache_with [Demo.a_e_b])).
    vm_compute. reflexivity.
Defined.

(** ** Requests *)

(** A call of [get_from_cache] sends at most one request, and that for the
    URL it was given. *)
Theorem get_from_cache_sends_at_most_one_request (w : World) (url : string)
  (cache_dir : path) (st st' : state) (r : exn + option path) :
  get_from_cache w url cache_dir st = (r, st') ->
  http_log st' = http_log st ∨ http_log st' = url :: http_log st.
Proof.
  intros H. destruct (decide (http_log st' = http_log st)) as [|Hne];
    [by left | right].
  apply get_from_cache_miss in H as (m1 & r0 & _ & _ & _ & Hf & _); [| done].
  apply fetch_requests in Hf as [[_ ->]|Hf]; done.
Qed.

Lemma get_from_cache_sends_at_most_one_request_witness :
  let st' := (get_from_cache (Demo.world 200 Demo.no_fault)
                "http://host/models/demo.zip" Demo.cache Demo.empty_cache).2 in
  http_log st' = http_log Demo.empty_cache
  ∨ http_log st' = "http://host/models/demo.zip" :: http_log Demo.empty_cache.
Proof.
  apply (get_from_cache_sends_at_most_one_request
           (Demo.world 200 Demo.no_fault) "http://host/models/demo.zip"
           Demo.cache Demo.empty_cache _
           (get_from_cache (Demo.world 200 Demo.no_fault)
              "http://host/models/demo.zip" Demo.cache Demo.empty_cache).1).
  symmetry. apply surjective_pairing.
Defined.

(** ** The lookup phase, decided by the entries named by the base name *)

Lemma match_file_run (w : World) (dir_name : string) (cache_dir : path) (st : state) :
  Fs.is_dir (fs st) cache_dir = true ->
  match_file w dir_name cache_dir st
  = (select_match w dir_name (Fs.children (fs st) cache_dir), st).
Proof.
  intros Hd. unfold match_file. py_unfold. by rewrite (listdir_dir _ _ Hd).
Qed.

Lemma split_base_no_slash (filepath : string) :
  PyStr.has_char "/"%char (split_filename_suffix filepath).1 = false.
Proof.
  pose proof (basename_no_slash filepath) as Hslash.
  assert (Hjoin : (split_filename_suffix filepath).1
                  +:+ (split_filename_suffix filepath).2
                  = OsPath.basename filepath).
  { unfold split_filename_suffix.
    destruct (PyStr.endswith (OsPath.basename filepath) ".tar.gz") eqn:He.
    - simpl. by apply (endswith_drop_last _ ".tar.gz").
    - unfold OsPath.splitext.
      destruct (_ && _); simpl; [| apply append_empty_r].
      unfold PyStr.slice_to, PyStr.slice_from. apply substring_split. }
  rewrite <- Hjoin, has_char_app in Hslash.
  by apply orb_false_iff in Hslash as [Hb _].
Qed.

Lemma plain_is_name (s : string) :
  plain s = true -> s ≠ "" -> PyStr.has_char "/"%char s = false ->
  Path.is_name s = true.
Proof.
  intros Hp Hne Hsl. apply is_name_spec. repeat split; try done.
  - intros ->. by vm_compute in Hp.
  - intros ->. by vm_compute in Hp.
Qed.

Lemma named_by_self (s : string) : named_by s s = true.
Proof. unfold named_by. by rewrite bool_decide_eq_true_2. Qed.

Lemma filter_elem (P : string -> bool) (l : list string) (x : string) :
  x ∈ List.filter P l <-> x ∈ l ∧ P x = true.
Proof. rewrite !list_elem_of_In. apply filter_In. Qed.

(** In a cache directory that is there, for a base name without pattern
    characters and a listing without newlines, the lookup of
    [get_from_cache] is decided by the entries that are the base name or the
    base name followed by a dot and a suffix. With one such entry the call
    is a hit: it returns what [get_filepath] makes of that entry. With
    several it raises RuntimeError and changes nothing. With none (and a base
    name that is not empty) it is a miss: the outcome is that of the fetch
    into the directory entry named by the base name. *)
Theorem get_from_cache_lookup_by_named_entries (w : World) (url : string)
  (cache_dir : path) (st : state) :
  let dir_name := (split_filename_suffix (Re.sub_dirs url)).1 in
  let suffix := (split_filename_suffix (Re.sub_dirs url)).2 in
  Fs.is_dir (fs st) cache_dir = true ->
  plain dir_name = true ->
  (forall f, f ∈ Fs.children (fs st) cache_dir ->
             PyStr.has_char "010"%char f = false) ->
  match List.filter (named_by dir_name) (Fs.children (fs st) cache_dir) with
  | [] =>
      dir_name ≠ "" ->
      get_from_cache w url cache_dir st
      = (Some <$> fetch w url suffix (cache_dir ++ [dir_name])) st
  | [entry] =>
      get_from_cache w url cache_dir st
      = (Some <$> get_filepath (cache_dir ++ [entry])) st
  | _ => get_from_cache w url cache_dir st = (inl RuntimeError, st)
  end.
Proof.
  intros dir_name suffix Hd Hp Hnl.
  pose proof (split_base_no_slash (Re.sub_dirs url)) as Hslash.
  remember (get_from_cache w url cache_dir st) as r eqn:Hr.
  subst dir_name suffix. unfold get_from_cache in Hr.
  destruct (split_filename_suffix (Re.sub_dirs url)) as [dn suf].
  cbn [fst snd] in *.
  rewrite bind_fs_update, (mkdir_parents_existing _ _ Hd), with_fs_same in Hr.
  unfold mbind at 1 in Hr. unfold py_bind at 1 in Hr.
  rewrite (match_file_run _ _ _ _ Hd) in Hr. unfold select_match in Hr.
  rewrite (matched_filenames_plain _ _ _ Hp Hnl) in Hr.
  destruct (List.filter (named_by dn) (Fs.children (fs st) cache_dir))
    as [|entry [|entry' l]] eqn:Hfilter.
  - intros Hne. rewrite decide_True in Hr by done.
    rewrite (join_name _ _ (plain_is_name _ Hp Hne Hslash)) in Hr.
    assert (Hex : Fs.exists_ (fs st) (cache_dir ++ [dn]) = false).
    { apply not_true_is_false. intros Hex%exists_lookup.
      assert (Hin : dn ∈ List.filter (named_by dn) (Fs.children (fs st) cache_dir)).
      { apply filter_elem. split; [| apply named_by_self].
        apply children_spec. split; [| done].
        by apply plain_is_name. }
      rewrite Hfilter in Hin. by apply elem_of_nil in Hin. }
    subst r. py_unfold. rewrite Hex. cbn beta. by rewrite Hex.
  - assert (Hin : entry ∈ Fs.children (fs st) cache_dir).
    { apply (filter_elem (named_by dn)). rewrite Hfilter. by left. }
    pose proof (children_is_name _ _ _ Hin) as Hname.
    assert (Hne : entry ≠ "") by (intros ->; by vm_compute in Hname).
    rewrite decide_False in Hr by done. rewrite (join_name _ _ Hname) in Hr.
    apply children_exists in Hin. rewrite (join_name _ _ Hname) in Hin.
    subst r. py_unfold. rewrite Hin. reflexivity.
  - by subst r.
Qed.

Lemma get_from_cache_lookup_by_named_entries_witness :
  get_from_cache (Demo.world 200 Demo.no_fault) "http://host/vectors.zip"
                 Demo.cache Demo.small_cache
  = (Some <$> get_filepath (Demo.cache ++ ["vectors.txt"])) Demo.small_cache.
Proof.
  pose proof (get_from_cache_lookup_by_named_entries
                (Demo.world 200 Demo.no_fault) "http://host/vectors.zip"
                Demo.cache Demo.small_cache) as H.
  cbv zeta in H.
  assert (Hd : Fs.is_dir (fs Demo.small_cache) Demo.cache = true)
    by (vm_compute; reflexivity).
  assert (Hp : plain (split_filename_suffix
                        (Re.sub_dirs "http://host/vectors.zip")).1 = true)
    by (vm_compute; reflexivity).
  assert (Hnl : forall f, f ∈ Fs.children (fs Demo.small_cache) Demo.cache ->
                          PyStr.has_char "010"%char f = false).
  { intros f Hf. apply list_elem_of_In in Hf.
    assert (Hall : forallb (fun f => negb (PyStr.has_char "010"%char f))
                     (Fs.children (fs Demo.small_cache) Demo.cache) = true)
      by (vm_compute; reflexivity).
    rewrite forallb_forall in Hall. apply Hall in Hf.
    by apply negb_true_iff in Hf. }
  specialize (H Hd Hp Hnl).
  set (l := List.filter _ _) in H. vm_compute in (value of l). subst l.
  cbv beta iota in H. exact H.
Defined.

(** ** Identifiers that are not URLs *)

Lemma data_cache_of_inv (w : World) (cache_dir : option path)
  (name : option string) (st st' : state) (r : exn + path * string) :
  data_cache_of w cache_dir name st = (r, st') ->
  st' = st ∧ forall e, r = inl e -> e = NotADirectoryError.
Proof.
  unfold data_cache_of, get_default_cache_path. py_unfold.
  destruct cache_dir as [d|]; [| destruct (environ_cache_dir w) as [d|]];
    simpl; try destruct (Fs.isdir_str _ _); simpl;
    destruct name as [n|]; try destruct (decide (n = ""));
    intros [= <- <-]; split; try done; by intros ? [= <-].
Qed.

(** For an identifier whose scheme is neither [http] nor [https],
    [cached_path] only reads: the state is left as it is and no request is
    sent. A path it returns exists, and the scheme was empty; otherwise it
    raises FileNotFoundError for an empty scheme, ValueError for any other
    scheme, or NotADirectoryError when the cache directory named by the
    environment is not a directory. *)
Theorem cached_path_local_only_reads (w : World) (url_or_filename : string)
  (cache_dir : option path) (name : option string) (st st' : state)
  (r : exn + option path) :
  urlparse_scheme w url_or_filename ∉ ["http"; "https"] ->
  cached_path w url_or_filename cache_dir name st = (r, st') ->
  st' = st
  ∧ match r with
    | inr (Some p) =>
        urlparse_scheme w url_or_filename = "" ∧ Fs.exists_ (fs st) p = true
    | inr None => False
    | inl e =>
        e = NotADirectoryError
        ∨ (e = FileNotFoundError ∧ urlparse_scheme w url_or_filename = "")
        ∨ (e = ValueError ∧ urlparse_scheme w url_or_filename ≠ "")
    end.
Proof.
  intros Hscheme H. unfold cached_path in H.
  apply bind_inv in H as [(e & H & ->)|(dc & st1 & Hdc & H)].
  { apply data_cache_of_inv in H as [-> He]. split; [done |]. left. by apply He. }
  apply data_cache_of_inv in Hdc as [-> _].
  rewrite bool_decide_eq_false_2 in H by done.
  destruct (decide (urlparse_scheme w url_or_filename = "")) as [Hs|Hs];
    py_unfold.
  - destruct (Fs.exists_at (fs st) dc.1 _) eqn:Hex;
      injection H as <- <-; split; try done.
    + split; [done |]. by apply exists_at_join.
    + right. by left.
  - injection H as <- <-. split; [done |]. right. by right.
Qed.

Lemma cached_path_local_only_reads_witness :
  let w := Demo.world 200 Demo.no_fault in
  let r := cached_path w "ftp://host/x.zip" (Some Demo.cache) None
             Demo.small_cache in
  r.2 = Demo.small_cache
  ∧ match r.1 with
    | inr (Some p) =>
        urlparse_scheme w "ftp://host/x.zip" = ""
        ∧ Fs.exists_ (fs Demo.small_cache) p = true
    | inr None => False
    | inl e =>
        e = NotADirectoryError
        ∨ (e = FileNotFoundError ∧ urlparse_scheme w "ftp://host/x.zip" = "")
        ∨ (e = ValueError ∧ urlparse_scheme w "ftp://host/x.zip" ≠ "")
    end.
Proof.
  apply (cached_path_local_only_reads (Demo.world 200 Demo.no_fault)
           "ftp://host/x.zip" (Some Demo.cache) None Demo.small_cache).
  - rewrite !elem_of_cons, elem_of_nil. vm_compute.
    intros [?|[?|[]]]; discriminate.
  - apply surjective_pairing.
Defined.

(** ** The [finally] block (lines 325-334) *)

Lemma remove_inv (m m' : filesystem) (p : path) :
  Fs.remove m p = inr m' ->
  m' = delete p m ∧ ∃ data, m !! p = Some (File data).
Proof.
  unfold Fs.remove. destruct (m !! p) as [[data|]|]; try done.
  intros [= <-]. split; [done |]. by exists data.
Qed.

Lemma rmtree_inv (m m' : filesystem) (p : path) :
  Fs.rmtree m p = inr m' ->
  m' = filter (fun kv : path * entry => ¬ p `prefix_of` kv.1) m
  ∧ m !! p = Some Dir.
Proof.
  unfold Fs.rmtree. destruct (m !! p) as [[data|]|]; try done.
  by intros [= <-].
Qed.

Lemma rmtree_lookup (m : filesystem) (p q : path) :
  filter (fun kv : path * entry => ¬ p `prefix_of` kv.1) m !! q
  = if decide (p `prefix_of` q) then None else m !! q.
Proof.
  destruct (decide (p `prefix_of` q)) as [Hp|Hp].
  - apply map_lookup_filter_None. right. intros x _ Hn. by apply Hn.
  - destruct (m !! q) as [x|] eqn:Hq.
    + by apply map_lookup_filter_Some.
    + apply map_lookup_filter_None. by left.
Qed.

(** The [finally] block only removes, and when it returns the scratch file
    and the scratch directory are gone; after a failure so is the
    destination. *)
Lemma cleanup_inv (cache_path : pathobj) (delete_temp_dir : option path)
  (temp_filename : path) (success : bool) (st st' : state) :
  cleanup cache_path delete_temp_dir temp_filename success st = (inr tt, st') ->
  fs st' ⊆ fs st
  ∧ fs st' !! temp_filename = None
  ∧ (forall d q, delete_temp_dir = Some d -> d `prefix_of` q ->
                 fs st' !! q = None)
  ∧ (success = false -> fs st' !! fspath cache_path = None)
  ∧ http_log st' = http_log st
  ∧ extract_log st' = extract_log st.
Proof.
  unfold cleanup. intros H.
  apply bind_inv in H as [(e & _ & [=])|([] & st1 & H1 & H)].
  apply bind_inv in H as [(e & _ & [=])|([] & st2 & H2 & H3)].
  assert (S1 : fs st1 ⊆ fs st
               ∧ (success = false -> fs st1 !! fspath cache_path = None)
               ∧ http_log st1 = http_log st ∧ extract_log st1 = extract_log st).
  { destruct success; [by injection H1 as <- |].
    apply bind_inv in H1 as [(e & _ & [=])|(ex & st0 & Hex & H1)].
    destruct cache_path as [p|p]; [| done]. injection Hex as <- <-.
    destruct (Fs.exists_ (fs st) p) eqn:Hp.
    - apply bind_inv in H1 as [(e & _ & [=])|(isf & st0 & Hf & H1)].
      injection Hf as <- <-.
      destruct (Fs.is_file (fs st) p);
        apply fs_update_inv in H1 as [(? & _ & [=] & _)|(m & Hm & _ & ->)].
      + apply remove_inv in Hm as [-> _]. simpl.
        repeat split; [apply delete_subseteq | intros _; apply lookup_delete_eq].
      + apply rmtree_inv in Hm as [-> _]. simpl.
        repeat split; [apply map_filter_subseteq |].
        intros _. by rewrite rmtree_lookup, decide_True.
    - injection H1 as <-. repeat split; try done. intros _. simpl.
      apply eq_None_not_Some. intros Hs%exists_lookup. congruence. }
  destruct S1 as (Hsub1 & Hcp1 & Hh1 & He1).
  assert (S2 : fs st2 ⊆ fs st1
               ∧ (forall d q, delete_temp_dir = Some d -> d `prefix_of` q ->
                              fs st2 !! q = None)
               ∧ http_log st2 = http_log st1 ∧ extract_log st2 = extract_log st1).
  { destruct delete_temp_dir as [d|].
    - apply fs_update_inv in H2 as [(? & _ & [=] & _)|(m & Hm & _ & ->)].
      apply rmtree_inv in Hm as [-> _]. simpl.
      repeat split; [apply map_filter_subseteq |].
      intros d' q [= <-] Hq. by rewrite rmtree_lookup, decide_True.
    - injection H2 as <-. by repeat split. }
  destruct S2 as (Hsub2 & Hd2 & Hh2 & He2).
  apply fs_update_inv in H3 as [(? & _ & [=] & _)|(m & Hm & _ & ->)].
  apply remove_inv in Hm as [-> _]. simpl.
  assert (Hsub3 : delete temp_filename (fs st2) ⊆ fs st2) by apply delete_subseteq.
  repeat split.
  - by etrans; [| etrans].
  - apply lookup_delete_eq.
  - intros d q Hd Hq. eapply lookup_weaken_None; [by eapply Hd2 | done].
  - intros Hs. eapply lookup_weaken_None; [by apply Hcp1 | by etrans].
  - congruence.
  - congruence.
Qed.

(** The first half after a failure, for a destination that is a Path: the
    destination is removed, nothing else is touched. *)
Lemma cleanup_destination (cp : path) (st : state) :
  ∃ m1,
    (ex ← method_exists (PosixPath cp);
     if ex : bool then
       isfile ← method_is_file (PosixPath cp);
       if isfile : bool then fs_update (fun m => Fs.remove m cp)
       else fs_update (fun m => Fs.rmtree m cp)
     else mret ()) st = (inr tt, with_fs st m1)
    ∧ m1 !! cp = None
    ∧ m1 ⊆ fs st
    ∧ forall q, ¬ cp `prefix_of` q -> m1 !! q = fs st !! q.
Proof.
  unfold method_exists, method_is_file. py_unfold.
  destruct (fs st !! cp) as [[data|]|] eqn:Hcp.
  - exists (delete cp (fs st)).
    assert (Hex : Fs.exists_ (fs st) cp = true)
      by (apply exists_lookup; by rewrite Hcp).
    assert (Hf : Fs.is_file (fs st) cp = true)
      by (apply is_file_lookup; by exists data).
    rewrite Hex, Hf. unfold Fs.remove. rewrite Hcp.
    repeat split; [apply lookup_delete_eq | apply delete_subseteq |].
    intros q Hq. apply lookup_delete_ne. by intros <-.
  - exists (filter (fun kv : path * entry => ¬ cp `prefix_of` kv.1) (fs st)).
    assert (Hex : Fs.exists_ (fs st) cp = true)
      by (apply exists_lookup; by rewrite Hcp).
    assert (Hf : Fs.is_file (fs st) cp = false).
    { apply not_true_is_false. intros [data Hd]%is_file_lookup. congruence. }
    rewrite Hex, Hf. unfold Fs.rmtree. rewrite Hcp.
    repeat split; [by rewrite rmtree_lookup, decide_True
                  | apply map_filter_subseteq |].
    intros q Hq. by rewrite rmtree_lookup, decide_False.
  - exists (fs st).
    assert (Hex : Fs.exists_ (fs st) cp = false).
    { apply not_true_is_false. intros Hs%exists_lookup. rewrite Hcp in Hs.
      by destruct Hs. }
    rewrite Hex, with_fs_same. by repeat split.
Qed.

(** ** A failed installation of an archive (lines 308-335)

    When the installation of an unpacked archive raises and the [finally]
    block then runs to its end, the exception of the installation is the
    outcome. The destination, the scratch directory with all below it and
    the scratch file are gone; every other path is as the failed
    installation left it. *)
Theorem failed_archive_install_is_rolled_back (w : World)
  (uncompress_temp_dir cache_path delete_temp_dir temp_filename : path)
  (st st1 st' : state) (e : exn) :
  install w uncompress_temp_dir (PosixPath cache_path) st = (inl e, st1) ->
  cleanup (PosixPath cache_path) (Some delete_temp_dir) temp_filename false st1
  = (inr tt, st') ->
  try_finally (install w uncompress_temp_dir (PosixPath cache_path))
              (cleanup (PosixPath cache_path) (Some delete_temp_dir)
                       temp_filename) st
  = (inl e, st')
  ∧ fs st' !! cache_path = None
  ∧ fs st' !! temp_filename = None
  ∧ (forall q, delete_temp_dir `prefix_of` q -> fs st' !! q = None)
  ∧ (forall q, ¬ cache_path `prefix_of` q -> ¬ delete_temp_dir `prefix_of` q ->
               q ≠ temp_filename -> fs st' !! q = fs st1 !! q)
  ∧ fs st' ⊆ fs st1.
Proof.
  intros Hin Hcl.
  split; [unfold try_finally; by rewrite Hin, Hcl |].
  pose proof (cleanup_inv _ _ _ _ _ _ Hcl) as (Hsub & Htemp & Hdir & Hcp & _).
  split; [by apply Hcp |]. split; [done |].
  split; [intros q Hq; by apply (Hdir delete_temp_dir) |].
  split; [| done].
  destruct (cleanup_destination cache_path st1) as (m1 & H1 & _ & _ & Hsame).
  unfold cleanup in Hcl. cbv beta iota delta [fspath] in Hcl.
  unfold mbind at 1 in Hcl. unfold py_bind at 1 in Hcl. rewrite H1 in Hcl.
  apply bind_inv in Hcl as [(e0 & _ & [=])|(u & st2 & H2 & H3)].
  apply fs_update_inv in H2 as [(? & _ & [=] & _)|(m2 & Hm2 & _ & ->)].
  apply fs_update_inv in H3 as [(? & _ & [=] & _)|(m3 & Hm3 & _ & ->)].
  apply rmtree_inv in Hm2 as [-> _]. apply remove_inv in Hm3 as [-> _].
  intros q Hcq Hdq Hne. simpl.
  rewrite lookup_delete_ne by done.
  rewrite rmtree_lookup, decide_False by done. by apply Hsame.
Qed.

Lemma failed_archive_install_is_rolled_back_witness :
  let w := Demo.world 200 Demo.disk_full_demo in
  ∃ st',
    try_finally (install w ["tmp"; "1"; "demo"] (PosixPath ["cache"; "demo"]))
                (cleanup (PosixPath ["cache"; "demo"]) (Some ["tmp"; "1"])
                         ["tmp"; "0"]) Demo.unpacked
    = (inl OSError, st')
    ∧ fs st' !! ["cache"; "demo"] = None
    ∧ fs st' !! ["tmp"; "0"] = None
    ∧ (forall q, ["tmp"; "1"] `prefix_of` q -> fs st' !! q = None).
Proof.
  intros w.
  pose (r := install w ["tmp"; "1"; "demo"] (PosixPath ["cache"; "demo"])
               Demo.unpacked).
  pose (c := cleanup (PosixPath ["cache"; "demo"]) (Some ["tmp"; "1"])
               ["tmp"; "0"] false r.2).
  assert (Hrun : r.1 = inl OSError) by (vm_compute; reflexivity).
  assert (Hclean : c.1 = inr tt) by (vm_compute; reflexivity).
  destruct (failed_archive_install_is_rolled_back w
              ["tmp"; "1"; "demo"] ["cache"; "demo"] ["tmp"; "1"] ["tmp"; "0"]
              Demo.unpacked r.2 c.2 OSError)
    as (Htry & Hcp & Htemp & Hdir & _).
  - change (r = (inl OSError, r.2)).
    rewrite (surjective_pairing r) at 1. rewrite Hrun. reflexivity.
  - change (c = (inr tt, c.2)).
    rewrite (surjective_pairing c) at 1. rewrite Hclean. reflexivity.
  - exists c.2. split; [exact Htry |]. split; [exact Hcp |].
    split; [exact Htemp | exact Hdir].
Defined.

(** ** Failures of a download that is no archive (lines 271-337) *)

Lemma snoc_ne_self {A} (p : list A) (n : A) : p ++ [n] ≠ p.
Proof.
  intros H. apply (f_equal length) in H. rewrite length_app in H.
  simpl in H. lia.
Qed.

Lemma parent_snoc (p : path) (n : string) : Path.parent (p ++ [n]) = p.
Proof. unfold Path.parent. apply removelast_last. Qed.

(** A copy leaves its source as it is, also when it fails. *)
Lemma copyfile_keeps_source (w : World) (m m' : filesystem) (src dst : path)
  (oe : option exn) (data : list Byte.byte) :
  Fs.copyfile w m src dst = (oe, m') ->
  m !! src = Some (File data) -> m' !! src = Some (File data).
Proof.
  unfold Fs.copyfile. intros H Hsrc.
  destruct (decide (src = dst)) as [|Hne]; [by injection H as _ <- |].
  rewrite Hsrc in H.
  assert (Hput : (let '(m'0, failed) := Fs.put_data w m dst data in
                  (if failed then Some OSError else None, m'0)) = (oe, m') ->
                 m' !! src = Some (File data)).
  { unfold Fs.put_data. destruct (copy_fault w dst); intros [= _ <-];
      by rewrite ?lookup_insert_ne. }
  destruct (m !! dst) as [[]|];
    destruct (m !! Path.parent dst) as [[]|];
    try (by injection H as _ <-); by apply Hput.
Qed.

Lemma write_file_ok (m : filesystem) (p : path) (data old : list Byte.byte) :
  m !! p = Some (File old) -> m !! Path.parent p = Some Dir ->
  Fs.write_file m p data = inr (<[p := File data]> m).
Proof. unfold Fs.write_file. by intros -> ->. Qed.

Lemma install_file (w : World) (src : path) (cp : pathobj) (st : state) :
  Fs.is_dir (fs st) src = false ->
  install w src cp st
  = fs_effect (fun m => Fs.copyfile w m src (fspath cp)) st.
Proof. intros Hd. unfold install. py_unfold. by rewrite Hd. Qed.

Lemma get_filepath_file (p : path) (st : state) (data : list Byte.byte) :
  fs st !! p = Some (File data) -> get_filepath p st = (inr p, st).
Proof.
  intros Hp. unfold get_filepath. py_unfold.
  assert (Hd : Fs.is_dir (fs st) p = false).
  { apply not_true_is_false. intros Hd%is_dir_lookup. congruence. }
  assert (Hf : Fs.is_file (fs st) p = true)
    by (apply is_file_lookup; by exists data).
  by rewrite Hd, Hf.
Qed.

(** A download that is no archive and fails after the request has been sent
    leaves its scratch file behind. When the download itself went well
    (status 200, a readable length header, a stream that ends), the only
    failure left is that of the copy into the cache: the call then raises
    AttributeError, not the exception of the copy, and the scratch file
    still holds the whole body. *)
Theorem fetch_plain_file_failure_keeps_scratch (w : World)
  (url suffix : string) (cache_path : path) (st st' : state) (e : exn) :
  suffix ∉ [".zip"; ".tar.gz"] ->
  fetch w url suffix cache_path st = (inl e, st') ->
  http_log st' ≠ http_log st ->
  let temp_filename := tmpdir w ++ [fresh (Fs.children (fs st) (tmpdir w))] in
  (∃ data, fs st' !! temp_filename = Some (File data))
  ∧ forall resp,
      requests_get w url = inr resp -> status_code resp = 200 ->
      content_length resp ≠ Malformed -> stream_ok resp = true ->
      e = AttributeError
      ∧ fs st' !! temp_filename = Some (File (concat (chunks resp))).
Proof.
  intros Hsuf H Hlog temp. unfold fetch in H.
  unfold mbind at 1 in H. unfold py_bind at 1 in H. unfold mkstemp in H.
  destruct (Fs.is_dir (fs st) (tmpdir w)) eqn:Htmp;
    [| by injection H as <- <-].
  cbv zeta in H. fold temp in H.
  unfold mbind at 1 in H. unfold py_bind at 1, http_get in H.
  unfold with_fs in H. cbn [fs http_log extract_log] in H.
  set (m0 := <[temp := File []]> (fs st)) in H.
  assert (Hm0 : m0 !! temp = Some (File [])) by apply lookup_insert_eq.
  destruct (requests_get w url) as [e0|resp] eqn:Hget.
  { injection H as <- <-. split; [by exists [] | done]. }
  destruct (decide (status_code resp = 200)) as [Hok|Hbad].
  2: { injection H as <- <-. split; [by exists [] |].
       by intros resp' [= <-] Hok. }
  apply bind_inv in H as [(e0 & Hdl & [= <-])|([] & st2 & Hdl & H)].
  { unfold download_to in Hdl.
    assert (Hrun :
      (fs_update (fun m => Fs.write_file m temp
         (concat (List.filter
                    (fun chunk => negb (bool_decide (length chunk = 0%nat)))
                    (chunks resp))));;
       (if stream_ok resp then mret () else raise ConnectionError))
        (State m0 (url :: http_log st) (extract_log st)) = (inl e, st') ->
      (∃ data, fs st' !! temp = Some (File data)) ∧ stream_ok resp = false).
    { intros [(e1 & Hw & _)|([] & st1 & Hw & Hs)]%bind_inv.
      - apply fs_update_inv in Hw as [(? & Hw & _ & _)|(? & _ & [=] & _)].
        exfalso. cbn [fs] in Hw.
        erewrite write_file_ok in Hw; [done | exact Hm0 |].
        unfold m0, temp. rewrite parent_snoc.
        rewrite lookup_insert_ne by apply snoc_ne_self.
        by apply is_dir_lookup.
      - apply fs_update_inv in Hw as [(? & _ & [=] & _)|(m & Hw & _ & ->)].
        apply write_file_inv in Hw as ->.
        destruct (stream_ok resp); [done |]. injection Hs as _ <-.
        split; [| done]. eexists. apply lookup_insert_eq. }
    destruct (content_length resp) eqn:Hcl.
    - apply Hrun in Hdl as [Hex Hs]. split; [done |].
      intros resp' [= <-] _ _ Hs'. congruence.
    - injection Hdl as _ <-. split; [by exists [] |].
      by intros resp' [= <-] _ Hm.
    - apply Hrun in Hdl as [Hex Hs]. split; [done |].
      intros resp' [= <-] _ _ Hs'. congruence. }
  apply download_to_inv in Hdl as ->.
  unfold with_fs in H. cbn [fs http_log extract_log] in H.
  unfold m0 in H. rewrite insert_insert_eq in H.
  rewrite bool_decide_eq_false_2 in H by done.
  rewrite bind_ret in H.
  set (dst := Path.add_suffix cache_path suffix) in *.
  set (data := concat (chunks resp)) in *.
  assert (Hfile : forall hl el,
             Fs.is_dir (fs (State (<[temp := File data]> (fs st)) hl el)) temp
             = false)
    by (intros; unfold Fs.is_dir; cbn [fs]; by rewrite lookup_insert_eq).
  apply bind_inv in H as [(e0 & Htry & [= <-])|([] & st3 & Htry & H)];
    unfold try_finally in Htry; rewrite install_file in Htry by apply Hfile;
    unfold fs_effect in Htry; cbn [fs fspath] in Htry;
    match type of Htry with
    | context [Fs.copyfile w ?m temp dst] =>
        destruct (Fs.copyfile w m temp dst) as [[e1|] m3] eqn:Hcp
    end.
  - unfold cleanup, method_exists in Htry. py_unfold. simpl in Htry.
    injection Htry as <- <-. cbn [fs].
    pose proof (copyfile_keeps_source _ _ _ _ _ _ data Hcp
                  (lookup_insert_eq _ _ _)) as Hsrc.
    split; [by exists data |]. by intros resp' [= <-] _ _ _.
  - exfalso. apply copyfile_ok_inv in Hcp as (Hne & data' & Hsrc & ->).
    unfold cleanup in Htry. rewrite !bind_ret in Htry.
    unfold fs_update, with_fs, Fs.remove in Htry. simpl in Htry.
    rewrite lookup_insert_ne, lookup_insert_eq in Htry by done.
    done.
  - exfalso. unfold cleanup, method_exists in Htry. py_unfold.
    by simpl in Htry.
  - exfalso. apply copyfile_ok_inv in Hcp as (Hne & data' & Hsrc & ->).
    rewrite lookup_insert_eq in Hsrc. injection Hsrc as <-.
    unfold cleanup in Htry. rewrite !bind_ret in Htry.
    unfold fs_update, with_fs, Fs.remove in Htry. simpl in Htry.
    rewrite lookup_insert_ne, lookup_insert_eq in Htry by done.
    injection Htry as <-. cbn [fspath] in H.
    rewrite (get_filepath_file dst _ data) in H; [done |].
    cbn [fs]. rewrite lookup_delete_ne by done. apply lookup_insert_eq.
Qed.

Lemma fetch_plain_file_failure_keeps_scratch_witness :
  let w := Demo.world 200 Demo.disk_full in
  let r := fetch w "http://host/data.json" ".json" ["cache"; "data"]
             Demo.empty_cache in
  r.1 = inl AttributeError
  ∧ fs r.2 !! ["tmp"; "0"] = Some (File Demo.hi).
Proof.
  intros w r.
  assert (Hrun : r.1 = inl AttributeError) by (vm_compute; reflexivity).
  destruct (fetch_plain_file_failure_keeps_scratch w "http://host/data.json"
              ".json" ["cache"; "data"] Demo.empty_cache r.2 AttributeError)
    as [_ Hall].
  - rewrite !elem_of_cons, elem_of_nil. by intros [[=]|[[=]|[]]].
  - change (r = (inl AttributeError, r.2)).
    rewrite (surjective_pairing r) at 1. rewrite Hrun. reflexivity.
  - vm_compute. discriminate.
  - destruct (Hall (Response 200 Absent [[Byte.x68]; []; [Byte.x69]] true))
      as [_ Hfile]; [reflexivity | reflexivity | discriminate | reflexivity |].
    split; [exact Hrun |]. vm_compute in Hfile |- *. exact Hfile.
Defined.

(** ** A successful fetch of an archive (lines 271-337) *)

Lemma try_finally_ok_inv {A} (body : Py A) (final : bool -> Py unit)
  (st st' : state) (a : A) :
  try_finally body final st = (inr a, st') ->
  ∃ st1, body st = (inr a, st1) ∧ final true st1 = (inr tt, st').
Proof.
  unfold try_finally. destruct (body st) as [[e|a'] st1]; cbn iota.
  - destruct (final false st1) as [[e'|u] st2]; intros [=].
  - destruct (final true st1) as [[e'|u] st2] eqn:Hf; [intros [=] |].
    intros [= <- <-]. exists st1. by destruct u.
Qed.

Lemma extraction_root_state (d : path) (st st' : state) (r : exn + path) :
  extraction_root d st = (r, st') -> st' = st.
Proof.
  unfold extraction_root. py_unfold.
  destruct (Fs.listdir (fs st) d) as [e|[|n [|n' l]]];
    try destruct (Fs.is_dir (fs st) _); by intros [= _ <-].
Qed.

(** After a successful fetch of an archive the scratch file and the scratch
    directory, with everything unpacked into it, are gone. The path
    returned exists: it is the cache entry or its single child. One request
    has been sent. *)
Theorem fetch_archive_success_removes_scratch (w : World)
  (url suffix : string) (cache_path : path) (st st' : state) (p : path) :
  suffix ∈ [".zip"; ".tar.gz"] ->
  fetch w url suffix cache_path st = (inr p, st') ->
  ∃ resp,
    requests_get w url = inr resp
    ∧ status_code resp = 200
    ∧ let temp_filename :=
        tmpdir w ++ [fresh (Fs.children (fs st) (tmpdir w))] in
      let uncompress_temp_dir :=
        tmpdir w ++ [fresh (Fs.children
                              (<[temp_filename := File (concat (chunks resp))]>
                                 (fs st))
                              (tmpdir w))] in
      fs st' !! temp_filename = None
      ∧ (forall q, uncompress_temp_dir `prefix_of` q -> fs st' !! q = None)
      ∧ Fs.exists_ (fs st') p = true
      ∧ (p = cache_path ∨ ∃ n, p = cache_path ++ [n])
      ∧ http_log st' = url :: http_log st.
Proof.
  intros Hsuf H.
  pose proof (fetch_requests _ _ _ _ _ _ _ H) as [[[=] _]|Hlog].
  unfold fetch in H.
  unfold mbind at 1 in H. unfold py_bind at 1 in H. unfold mkstemp in H.
  destruct (Fs.is_dir (fs st) (tmpdir w)) eqn:Htmp; [| done].
  cbv zeta in H.
  set (temp := tmpdir w ++ [fresh (Fs.children (fs st) (tmpdir w))]) in *.
  unfold mbind at 1 in H. unfold py_bind at 1, http_get in H.
  unfold with_fs in H. cbn [fs http_log extract_log] in H.
  destruct (requests_get w url) as [e0|resp] eqn:Hget; [done |].
  destruct (decide (status_code resp = 200)) as [Hok|Hbad]; [| done].
  exists resp. split; [done |]. split; [done |]. cbv zeta.
  apply bind_inv in H as [(e0 & _ & [=])|([] & st2 & Hdl & H)].
  apply download_to_inv in Hdl as ->.
  unfold with_fs in H. cbn [fs http_log extract_log] in H.
  rewrite insert_insert_eq in H.
  rewrite bool_decide_eq_true_2 in H by done.
  set (data := concat (chunks resp)) in *.
  apply bind_inv in H as [(e0 & _ & [=])|([[od src] cp] & st3 & Hprep & H)].
  apply bind_inv in Hprep as [(e0 & _ & [=])|(d & st4 & Hd & Hprep)].
  unfold mkdtemp in Hd. cbn [fs] in Hd.
  match type of Hd with
  | context [Fs.is_dir ?m (tmpdir w)] =>
      destruct (Fs.is_dir m (tmpdir w)); [| done]
  end.
  cbv zeta in Hd. injection Hd as <- <-.
  apply bind_inv in Hprep as [(e0 & _ & [=])|([] & st5 & _ & Hprep)].
  apply bind_inv in Hprep as [(e0 & _ & [=])|(root & st6 & _ & Hprep)].
  apply bind_inv in Hprep as [(e0 & _ & [=])|([] & st7 & _ & Hprep)].
  injection Hprep as <- <- <- <-.
  apply bind_inv in H as [(e0 & _ & [=])|([] & st8 & Htry & H)].
  apply try_finally_ok_inv in Htry as (st9 & _ & Hclean).
  apply cleanup_inv in Hclean as (_ & Htemp & Hdir & _).
  cbn [fspath] in H.
  apply get_filepath_result in H as (-> & Hex & Hp).
  repeat split; try done.
  - intros q Hq. by eapply Hdir.
  - destruct Hp as [->|(n & _ & ->)]; [by left | right; by exists n].
Qed.

Lemma fetch_archive_success_removes_scratch_witness :
  let w := Demo.world 200 Demo.no_fault in
  let r := fetch w "http://host/models/demo.zip" ".zip" ["cache"; "demo"]
             Demo.empty_cache in
  r.1 = inr ["cache"; "demo"]
  ∧ fs r.2 !! ["tmp"; "0"] = None
  ∧ (forall q, ["tmp"; "1"] `prefix_of` q -> fs r.2 !! q = None)
  ∧ Fs.exists_ (fs r.2) ["cache"; "demo"] = true.
Proof.
  intros w r.
  assert (Hrun : r.1 = inr ["cache"; "demo"]) by (vm_compute; reflexivity).
  destruct (fetch_archive_success_removes_scratch w
              "http://host/models/demo.zip" ".zip" ["cache"; "demo"]
              Demo.empty_cache r.2 ["cache"; "demo"])
    as (resp & Hget & _ & Htemp & Hdir & Hex & _).
  - rewrite !elem_of_cons. by left.
  - change (r = (inr ["cache"; "demo"], r.2)).
    rewrite (surjective_pairing r) at 1. rewrite Hrun. reflexivity.
  - injection Hget as <-.
    split; [exact Hrun |]. split; [| split; [| exact Hex]].
    + vm_compute in Htemp |- *. exact Htemp.
    + intros q Hq. apply Hdir.
      assert (Hd : tmpdir w ++ [fresh (Fs.children
                (<[tmpdir w ++ [fresh (Fs.children (fs Demo.empty_cache) (tmpdir w))]
                   := File (concat [[Byte.x68]; []; [Byte.x69]])]>
                   (fs Demo.empty_cache)) (tmpdir w))] = ["tmp"; "1"])
        by (vm_compute; reflexivity).
      cbn [chunks]. rewrite Hd. exact Hq.
Defined.

(** ** The names [tempfile] makes

    The file system is asked for a name that the temporary directory does
    not list; the names given are decimal numbers, so they are names, and
    the scratch directory is never given the name of the scratch file. *)

Lemma fresh_string_pretty (xs : list string) : ∃ n : nat, fresh xs = pretty n.
Proof.
  unfold fresh, infinite_fresh, string_infinite, search_infinite.
  cut (forall n acc, ∃ k : nat,
         Fix_F (fun _ : nat => string) (search_infinite_go pretty xs) (x:=n) acc
         = pretty k).
  { intros H. apply H. }
  fix FIX 2. intros n [?]. simpl. unfold search_infinite_go at 1.
  destruct (decide _); eauto.
Qed.

Lemma pretty_N_char_digit (x : N) : is_digit (pretty_N_char x) = true.
Proof. unfold pretty_N_char. by repeat case_match. Qed.

Lemma pretty_N_go_digits (x : N) (s : string) :
  digits s = true -> digits (pretty_N_go x s) = true.
Proof.
  revert s. induction (N.lt_wf_0 x) as [x _ IH]; intros s Hs.
  destruct (decide (x = 0)%N) as [->|Hx]; [by rewrite pretty_N_go_0 |].
  rewrite pretty_N_go_step by lia. apply IH.
  - apply N.div_lt; lia.
  - simpl. by rewrite pretty_N_char_digit.
Qed.

Lemma pretty_N_go_nonempty (x : N) (s : string) :
  (0 < x)%N ∨ s ≠ "" -> pretty_N_go x s ≠ "".
Proof.
  revert s. induction (N.lt_wf_0 x) as [x _ IH]; intros s Hs.
  destruct (decide (x = 0)%N) as [->|Hx].
  - rewrite pretty_N_go_0. destruct Hs; [lia | done].
  - rewrite pretty_N_go_step by lia. apply IH.
    + apply N.div_lt; lia.
    + by right.
Qed.

Lemma fresh_string_digits (xs : list string) :
  digits (fresh xs) = true ∧ fresh xs ≠ "".
Proof.
  destruct (fresh_string_pretty xs) as [n ->].
  unfold pretty, pretty_nat, pretty, pretty_N.
  destruct (decide (N.of_nat n = 0)%N); [done |]. split.
  - by apply pretty_N_go_digits.
  - apply pretty_N_go_nonempty. left. lia.
Qed.

Lemma digits_no_char (c : ascii) (s : string) :
  is_digit c = false -> digits s = true -> PyStr.has_char c s = false.
Proof.
  intros Hc. induction s as [|a r IH]; [done |]. simpl.
  intros [Ha Hr]%andb_true_iff. destruct (decide (a = c)) as [->|]; [| auto].
  congruence.
Qed.

Lemma digits_is_name (s : string) :
  digits s = true -> s ≠ "" -> Path.is_name s = true.
Proof.
  intros Hd Hne. apply is_name_spec. split; [done |].
  pose proof (digits_no_char "."%char s eq_refl Hd) as Hdot.
  repeat split.
  - intros ->. done.
  - intros ->. done.
  - by apply digits_no_char.
Qed.

Lemma fresh_is_name (xs : list string) : Path.is_name (fresh xs) = true.
Proof.
  destruct (fresh_string_digits xs). by apply digits_is_name.
Qed.

(** The name of a second scratch entry differs from that of the first. *)
Lemma scratch_names_differ (m : filesystem) (tmp : path) (e : entry) :
  tmp ++ [fresh (Fs.children
                   (<[tmp ++ [fresh (Fs.children m tmp)] := e]> m) tmp)]
  ≠ tmp ++ [fresh (Fs.children m tmp)].
Proof.
  intros [_ Heq]%app_inj_tail.
  set (n1 := fresh (Fs.children m tmp)) in *.
  pose proof (infinite_is_fresh (Fs.children (<[tmp ++ [n1] := e]> m) tmp))
    as Hfresh.
  apply Hfresh. rewrite Heq. apply children_spec. split.
  - apply fresh_is_name.
  - by rewrite lookup_insert_eq.
Qed.

(** ** What an extraction touches (lines 340-353) *)








(** An archive that does not stay below its target: a member of [tarfile]
    named [../../cache/evil], unpacked into [tmp/1], is written into the
    cache. *)
Lemma extract_member_leaves_target :
  Fs.extract_member ["tmp"; "1"] (fs Demo.empty_cache)
    ([".."; ".."; "cache"; "evil"], File Demo.hi) !! ["cache"; "evil"]
  = Some (File Demo.hi).
Proof. vm_compute. reflexivity. Qed.

Lemma download_to_ok (req : response) (temp : path) (st : state)
  (old : list Byte.byte) :
  content_length req ≠ Malformed -> stream_ok req = true ->
  fs st !! temp = Some (File old) -> fs st !! Path.parent temp = Some Dir ->
  download_to req temp st
  = (inr tt, with_fs st (<[temp := File (concat (chunks req))]> (fs st))).
Proof.
  intros Hcl Hs Ht Hp. unfold download_to.
  assert (Hrun :
    (fs_update (fun m => Fs.write_file m temp
       (concat (List.filter
                  (fun chunk => negb (bool_decide (length chunk = 0%nat)))
                  (chunks req))));;
     (if stream_ok req then mret () else raise ConnectionError)) st
    = (inr tt, with_fs st (<[temp := File (concat (chunks req))]> (fs st)))).
  { rewrite bind_fs_update, (write_file_ok _ _ _ old Ht Hp), Hs.
    by rewrite concat_nonempty_chunks. }
  by destruct (content_length req).
Qed.


(** ** A fetch of an archive, up to the extraction (lines 271-297)

    When the temporary directory is there and the download goes well, the
    state after the extraction is known: the scratch file holds the body,
    the scratch directory holds what the archive unpacks to. An archive that
    cannot be read ends the call there; otherwise the call goes on with
    lines 298-335. *)
Lemma fetch_archive_extracted (w : World) (url suffix : string)
  (cache_path : path) (st : state) (resp : response) :
  suffix ∈ [".zip"; ".tar.gz"] ->
  Fs.is_dir (fs st) (tmpdir w) = true ->
  requests_get w url = inr resp ->
  status_code resp = 200 ->
  content_length resp ≠ Malformed ->
  stream_ok resp = true ->
  let temp := tmpdir w ++ [fresh (Fs.children (fs st) (tmpdir w))] in
  let d :=
    tmpdir w ++ [fresh (Fs.children
                          (<[temp := File (concat (chunks resp))]> (fs st))
                          (tmpdir w))] in
  let a := (if decide (suffix = ".zip") then zip_extractall w
            else tar_extractall w) (concat (chunks resp)) in
  let extracted :=
    State (Fs.extractall a (<[d := Dir]>
                              (<[temp := File (concat (chunks resp))]> (fs st)))
                         d).2
          (url :: http_log st) (temp :: extract_log st) in
  fetch w url suffix cache_path st
  = if archive_ok a
    then (root ← extraction_root d;
          fs_update (fun m => Fs.mkdir_parents m cache_path);;
          try_finally (install w root (PosixPath cache_path))
                      (cleanup (PosixPath cache_path) (Some d) temp);;
          get_filepath cache_path) extracted
    else (inl BadArchive, extracted).
Proof.
  intros Hsuf Htmp Hget Hok Hcl Hs temp d a extracted.
  set (data := concat (chunks resp)) in *.
  pose proof (scratch_names_differ (fs st) (tmpdir w) (File data)) as Hne.
  fold temp in Hne. fold d in Hne.
  apply is_dir_lookup in Htmp as Htmp'.
  unfold fetch.
  unfold mbind at 1. unfold py_bind at 1. unfold mkstemp.
  rewrite Htmp. cbv zeta. fold temp.
  unfold mbind at 1. unfold py_bind at 1, http_get.
  unfold with_fs. cbn [fs http_log extract_log].
  rewrite Hget, decide_True by done.
  set (S0 := State (<[temp := File []]> (fs st)) (url :: http_log st)
                   (extract_log st)).
  assert (Hdl : download_to resp temp S0
                = (inr tt, with_fs S0 (<[temp := File data]> (fs S0)))).
  { apply (download_to_ok _ _ _ []); try done.
    - apply lookup_insert_eq.
    - unfold temp. rewrite parent_snoc. cbn [fs S0].
      by rewrite lookup_insert_ne by apply snoc_ne_self. }
  unfold mbind at 1. unfold py_bind at 1. rewrite Hdl.
  unfold with_fs. cbn [fs http_log extract_log S0].
  rewrite insert_insert_eq.
  rewrite bool_decide_eq_true_2 by done.
  clear Hdl S0.
  assert (Hdir : Fs.is_dir (<[temp := File data]> (fs st)) (tmpdir w) = true).
  { apply is_dir_lookup. by rewrite lookup_insert_ne by apply snoc_ne_self. }
  unfold mbind at 1. unfold py_bind at 1.
  unfold mbind at 1. unfold py_bind at 1.
  unfold mkdtemp. cbn [fs]. rewrite Hdir. cbv zeta.
  fold d. unfold with_fs. cbn [fs http_log extract_log].
  assert (Hex : forall to,
    (if decide (suffix = ".zip") then unzip_file w temp to
     else untar_gz_file w temp to)
    = extract_with (if decide (suffix = ".zip") then zip_extractall w
                    else tar_extractall w) temp to)
    by (intros; by destruct (decide (suffix = ".zip"))).
  rewrite Hex. clear Hex.
  unfold mbind at 1. unfold py_bind at 1.
  unfold extract_with. cbn [fs http_log extract_log].
  rewrite lookup_insert_ne, lookup_insert_eq by done.
  fold a.
  change (Fs.extractall a (<[d:=Dir]> (<[temp:=File data]> (fs st))) d)
    with (if archive_ok a then None else Some BadArchive, fs extracted).
  destruct (archive_ok a); cbn beta iota zeta; [| reflexivity].
  change {| fs := fs extracted; http_log := url :: http_log st;
            extract_log := temp :: extract_log st |} with extracted.
  unfold mbind, py_bind, mret, py_ret.
  destruct (extraction_root d extracted) as [[e|root] s1]; [done |].
  by destruct (fs_update _ s1) as [[e|u] s2].
Qed.

(** ** An archive that cannot be read (lines 287-297) *)



(** ** The directory the installation copies from (lines 298-335) *)

(** C7. A fetch of an archive that has been downloaded and unpacked goes on
    from the state the extraction left, and installs from a root chosen by
    one look at the extraction target: its sole entry when that entry is a
    directory, the target itself in every other case (no entry, several
    entries, a sole entry that is a file). The choice is made once: the
    root is the target or a child of the target, whatever that child
    holds. *)
Theorem fetch_installs_from_extraction_root (w : World) (url suffix : string)
  (cache_path : path) (st : state) (resp : response) :
  suffix ∈ [".zip"; ".tar.gz"] ->
  Fs.is_dir (fs st) (tmpdir w) = true ->
  requests_get w url = inr resp ->
  status_code resp = 200 ->
  content_length resp ≠ Malformed ->
  stream_ok resp = true ->
  let temp_filename :=
    tmpdir w ++ [fresh (Fs.children (fs st) (tmpdir w))] in
  let uncompress_temp_dir :=
    tmpdir w ++ [fresh (Fs.children
                          (<[temp_filename := File (concat (chunks resp))]>
                             (fs st))
                          (tmpdir w))] in
  let a := (if decide (suffix = ".zip") then zip_extractall w
            else tar_extractall w) (concat (chunks resp)) in
  let extracted :=
    State (Fs.extractall a
             (<[uncompress_temp_dir := Dir]>
                (<[temp_filename := File (concat (chunks resp))]> (fs st)))
             uncompress_temp_dir).2
          (url :: http_log st) (temp_filename :: extract_log st) in
  archive_ok a = true ->
  Fs.is_dir (fs extracted) uncompress_temp_dir = true ->
  ∃ root,
    fetch w url suffix cache_path st
    = (fs_update (fun m => Fs.mkdir_parents m cache_path);;
       try_finally (install w root (PosixPath cache_path))
                   (cleanup (PosixPath cache_path) (Some uncompress_temp_dir)
                            temp_filename);;
       get_filepath cache_path) extracted
    ∧ (∀ n, Fs.children (fs extracted) uncompress_temp_dir = [n] ->
            Fs.is_dir (fs extracted) (uncompress_temp_dir ++ [n]) = true ->
            root = uncompress_temp_dir ++ [n])
    ∧ (∀ n, Fs.children (fs extracted) uncompress_temp_dir = [n] ->
            Fs.is_dir (fs extracted) (uncompress_temp_dir ++ [n]) = false ->
            root = uncompress_temp_dir)
    ∧ (length (Fs.children (fs extracted) uncompress_temp_dir) ≠ 1%nat ->
       root = uncompress_temp_dir)
    ∧ (root = uncompress_temp_dir ∨ ∃ n, root = uncompress_temp_dir ++ [n]).
Proof.
  intros Hsuf Htmp Hget Hok Hcl Hs temp d a extracted Hread Hd.
  destruct (extraction_root_spec extracted d Hd)
    as (root & Hroot & H1 & H2 & H3 & H4).
  exists root. split; [| done].
  rewrite (fetch_archive_extracted w url suffix cache_path st resp) by done.
  fold temp. fold d. fold a. rewrite Hread. fold extracted.
  unfold mbind at 1. unfold py_bind at 1. by rewrite Hroot.
Qed.

Lemma fetch_installs_from_extraction_root_witness :
  (let w := Demo.world_with 200 Demo.no_fault Demo.nested_zip in
   ∃ extracted,
     Fs.children (fs extracted) ["tmp"; "1"] = ["wrap"]
     ∧ fetch w "http://host/wrap.zip" ".zip" ["cache"; "wrap"] Demo.empty_cache
       = (fs_update (fun m => Fs.mkdir_parents m ["cache"; "wrap"]);;
          try_finally (install w ["tmp"; "1"; "wrap"] (PosixPath ["cache"; "wrap"]))
                      (cleanup (PosixPath ["cache"; "wrap"]) (Some ["tmp"; "1"])
                               ["tmp"; "0"]);;
          get_filepath ["cache"; "wrap"]) extracted)
  ∧ (let w := Demo.world_with 200 Demo.no_fault Demo.lone_zip in
     ∃ extracted,
       Fs.children (fs extracted) ["tmp"; "1"] = ["a.txt"]
       ∧ fetch w "http://host/wrap.zip" ".zip" ["cache"; "wrap"] Demo.empty_cache
         = (fs_update (fun m => Fs.mkdir_parents m ["cache"; "wrap"]);;
            try_finally (install w ["tmp"; "1"] (PosixPath ["cache"; "wrap"]))
                        (cleanup (PosixPath ["cache"; "wrap"]) (Some ["tmp"; "1"])
                                 ["tmp"; "0"]);;
            get_filepath ["cache"; "wrap"]) extracted)
  ∧ (let w := Demo.world_with 200 Demo.no_fault Demo.flat_zip in
     ∃ extracted,
       length (Fs.children (fs extracted) ["tmp"; "1"]) = 2%nat
       ∧ fetch w "http://host/wrap.zip" ".zip" ["cache"; "wrap"] Demo.empty_cache
         = (fs_update (fun m => Fs.mkdir_parents m ["cache"; "wrap"]);;
            try_finally (install w ["tmp"; "1"] (PosixPath ["cache"; "wrap"]))
                        (cleanup (PosixPath ["cache"; "wrap"]) (Some ["tmp"; "1"])
                                 ["tmp"; "0"]);;
            get_filepath ["cache"; "wrap"]) extracted).
Proof.
  assert (Hsuf : ".zip" ∈ [".zip"; ".tar.gz"]) by (rewrite !elem_of_cons; by left).
  assert (Hcl : content_length
                  (Response 200 Absent [[Byte.x68]; []; [Byte.x69]] true)
                ≠ Malformed) by discriminate.
  split; [| split]; intros w.
  - destruct (fetch_installs_from_extraction_root w "http://host/wrap.zip"
                ".zip" ["cache"; "wrap"] Demo.empty_cache
                (Response 200 Absent [[Byte.x68]; []; [Byte.x69]] true)
                Hsuf eq_refl eq_refl eq_refl Hcl eq_refl eq_refl eq_refl)
      as (root & Hrun & Hdir & _).
    assert (Hroot : root = ["tmp"; "1"; "wrap"])
      by (apply (Hdir "wrap"); vm_compute; reflexivity).
    rewrite Hroot in Hrun. eexists. split; [| exact Hrun].
    vm_compute. reflexivity.
  - destruct (fetch_installs_from_extraction_root w "http://host/wrap.zip"
                ".zip" ["cache"; "wrap"] Demo.empty_cache
                (Response 200 Absent [[Byte.x68]; []; [Byte.x69]] true)
                Hsuf eq_refl eq_refl eq_refl Hcl eq_refl eq_refl eq_refl)
      as (root & Hrun & _ & Hfile & _).
    assert (Hroot : root = ["tmp"; "1"])
      by (apply (Hfile "a.txt"); vm_compute; reflexivity).
    rewrite Hroot in Hrun. eexists. split; [| exact Hrun].
    vm_compute. reflexivity.
  - destruct (fetch_installs_from_extraction_root w "http://host/wrap.zip"
                ".zip" ["cache"; "wrap"] Demo.empty_cache
                (Response 200 Absent [[Byte.x68]; []; [Byte.x69]] true)
                Hsuf eq_refl eq_refl eq_refl Hcl eq_refl eq_refl eq_refl)
      as (root & Hrun & _ & _ & Hmany & _).
    assert (Hroot : root = ["tmp"; "1"])
      by (apply Hmany; vm_compute; discriminate).
    rewrite Hroot in Hrun. eexists. split; [| exact Hrun].
    vm_compute. reflexivity.
Defined.

(** ** [.tar.gz] first, then the last extension (lines 224-233) *)

Lemma length_append (a b : string) :
  String.length (a +:+ b) = (String.length a + String.length b)%nat.
Proof.
  induction a as [|c a IH]; [done |]. rewrite append_cons. simpl. by rewrite IH.
Qed.

Lemma substring_prefix (pre post : string) :
  String.substring 0 (String.length pre) (pre +:+ post) = pre.
Proof.
  induction pre as [|c pre IH].
  - change ("" +:+ post) with post. simpl. by destruct post.
  - rewrite append_cons. simpl. by rewrite IH.
Qed.

Lemma drop_last_app (b t : string) :
  PyStr.drop_last (String.length t) (b +:+ t) = b.
Proof.
  unfold PyStr.drop_last. rewrite length_append.
  replace (String.length b + String.length t - String.length t)%nat
    with (String.length b) by lia.
  apply substring_prefix.
Qed.

Lemma get_after (pre : string) (a : ascii) (r : string) :
  String.get (String.length pre) (pre +:+ String a r) = Some a.
Proof.
  induction pre as [|c pre IH]; [done |]. rewrite append_cons. simpl. apply IH.
Qed.

(** The last dot of a name is found where it is. *)
Lemma last_dot_unique (x y e f : string) :
  PyStr.has_char "."%char e = false -> PyStr.has_char "."%char f = false ->
  x +:+ String "."%char e = y +:+ String "."%char f -> x = y ∧ e = f.
Proof.
  intros He Hf. revert y. induction x as [|a x IH]; intros y Heq.
  - change ("" +:+ String "." e) with (String "."%char e) in Heq.
    destruct y as [|c y].
    + change ("" +:+ String "." f) with (String "."%char f) in Heq.
      by injection Heq as ->.
    + rewrite append_cons in Heq. injection Heq as <- ->.
      rewrite has_char_app in He. simpl in He.
      by rewrite orb_true_r in He.
  - rewrite append_cons in Heq. destruct y as [|c y].
    + change ("" +:+ String "." f) with (String "."%char f) in Heq.
      injection Heq as -> <-.
      rewrite has_char_app in Hf. simpl in Hf.
      by rewrite orb_true_r in Hf.
    + rewrite append_cons in Heq. injection Heq as -> Heq.
      destruct (IH y Heq) as [-> ->]. done.
Qed.

Lemma rfind_last_dot (base ext : string) :
  PyStr.has_char "."%char ext = false ->
  PyStr.rfind "."%char (base +:+ String "."%char ext)
  = Z.of_nat (String.length base).
Proof.
  intros He. unfold PyStr.rfind.
  destruct (rfind_from_spec "."%char (base +:+ String "."%char ext) 0 (-1))
    as [[_ Hno]|(pre & post & Hp & Hpost & ->)].
  - rewrite has_char_app in Hno. simpl in Hno. by rewrite orb_true_r in Hno.
  - apply last_dot_unique in Hp as [-> _]; [lia | done | done].
Qed.

Lemma splitext_scan_finds (pre base t : string) :
  only_dots base = false ->
  OsPath.splitext_scan (pre +:+ base +:+ t) (String.length pre)
                       (String.length base) = true.
Proof.
  revert pre. induction base as [|a b IH]; intros pre Hd; [done |].
  simpl in Hd. rewrite append_cons. simpl.
  unfold PyStr.not_dot_at. rewrite get_after.
  destruct (decide (a = "."%char)) as [->|Hne]; [| done].
  rewrite bool_decide_eq_true_2 in Hd by done. simpl in Hd.
  specialize (IH (pre +:+ ".") Hd).
  rewrite length_append in IH. simpl in IH.
  replace (String.length pre + 1)%nat with (S (String.length pre)) in IH by lia.
  by rewrite !append_assoc in IH.
Qed.

Lemma splitext_last_dot (base ext : string) :
  PyStr.has_char "/"%char base = false ->
  PyStr.has_char "/"%char ext = false ->
  PyStr.has_char "."%char ext = false ->
  only_dots base = false ->
  OsPath.splitext (base +:+ String "."%char ext) = (base, String "."%char ext).
Proof.
  intros Hsb Hse He Hd. unfold OsPath.splitext. cbv zeta.
  rewrite (rfind_last_dot _ _ He).
  assert (Hsep : PyStr.rfind "/"%char (base +:+ String "."%char ext) = -1).
  { unfold PyStr.rfind. apply rfind_from_absent.
    rewrite has_char_app. simpl. by rewrite Hsb, Hse. }
  rewrite Hsep.
  assert (Hlt : (-1 <? Z.of_nat (String.length base)) = true)
    by (apply Z.ltb_lt; lia).
  rewrite Hlt.
  change (-1 + 1) with 0. change (Z.to_nat 0) with 0%nat.
  rewrite Z.sub_0_r, Nat2Z.id.
  pose proof (splitext_scan_finds "" base (String "."%char ext) Hd) as Hscan.
  change ("" +:+ base +:+ String "." ext)
    with (base +:+ String "."%char ext) in Hscan.
  change (String.length "") with 0%nat in Hscan.
  rewrite Hscan. cbn [andb].
  unfold PyStr.slice_to, PyStr.slice_from. rewrite Nat2Z.id.
  by rewrite substring_prefix, substring_after.
Qed.

Lemma basename_under (dir f : string) :
  dir = "" ∨ PyStr.endswith dir "/" = true ->
  PyStr.has_char "/"%char f = false ->
  OsPath.basename (dir +:+ f) = f.
Proof.
  intros [->|Hd] Hf.
  - change ("" +:+ f) with f. unfold OsPath.basename.
    by rewrite basename_from_plain.
  - by apply endswith_slash_basename.
Qed.

(** C8. [split_filename_suffix] looks for the two-part suffix [.tar.gz]
    first: whatever the base name [base] (dots and all) and whatever
    directories stand before it, [base.tar.gz] gives [base] and [.tar.gz].
    Otherwise it splits at the last extension of the trailing path segment:
    for an extension [ext] without a dot, [base.ext] gives [base] and
    [.ext], provided the name does not end with [.tar.gz] and [base] is not
    made of dots only. *)
Theorem split_filename_suffix_tar_gz_then_last_extension
  (dir base ext : string) :
  dir = "" ∨ PyStr.endswith dir "/" = true ->
  PyStr.has_char "/"%char base = false ->
  split_filename_suffix (dir +:+ base +:+ ".tar.gz") = (base, ".tar.gz")
  ∧ (PyStr.has_char "."%char ext = false ->
     PyStr.has_char "/"%char ext = false ->
     only_dots base = false ->
     ¬ (ext = "gz" ∧ PyStr.endswith base ".tar" = true) ->
     split_filename_suffix (dir +:+ base +:+ String "."%char ext)
     = (base, String "."%char ext)).
Proof.
  intros Hdir Hb. split.
  - unfold split_filename_suffix.
    rewrite basename_under by (rewrite ?has_char_app, ?Hb; done).
    rewrite endswith_app. f_equal.
    apply (drop_last_app base ".tar.gz").
  - intros He Hse Hd Hnot. unfold split_filename_suffix.
    rewrite basename_under
      by (rewrite ?has_char_app; simpl; by rewrite ?Hb, ?Hse).
    destruct (PyStr.endswith (base +:+ String "."%char ext) ".tar.gz") eqn:Hend.
    + exfalso. apply Hnot.
      apply endswith_drop_last in Hend.
      set (pre := PyStr.drop_last (String.length ".tar.gz")
                    (base +:+ String "." ext)) in Hend.
      change (pre +:+ ".tar.gz")
        with (pre +:+ (".tar" +:+ String "."%char "gz")) in Hend.
      rewrite <- append_assoc in Hend.
      apply last_dot_unique in Hend as [Hbase Hext]; try done.
      split; [done |]. rewrite <- Hbase. apply endswith_app.
    + by apply splitext_last_dot.
Qed.

Lemma split_filename_suffix_tar_gz_then_last_extension_witness :
  split_filename_suffix "archive.tar.gz" = ("archive", ".tar.gz")
  ∧ split_filename_suffix "data.json" = ("data", ".json")
  ∧ split_filename_suffix "v1.0/glove.840B.300d.tar.gz"
    = ("glove.840B.300d", ".tar.gz").
Proof.
  split; [| split].
  - apply (proj1 (split_filename_suffix_tar_gz_then_last_extension
                    "" "archive" "" (or_introl eq_refl) eq_refl)).
  - apply (proj2 (split_filename_suffix_tar_gz_then_last_extension
                    "" "data" "json" (or_introl eq_refl) eq_refl));
      try reflexivity.
    by intros [[=] _].
  - apply (proj1 (split_filename_suffix_tar_gz_then_last_extension
                    "v1.0/" "glove.840B.300d" "" (or_intror eq_refl) eq_refl)).
Defined.
